(** * PowerHouse Gym CMS: the data-access and mutation layer

    A shallow embedding of the Express routers under [server/routes], the
    middleware in [server/middleware/auth.js], the schema of
    [server/utils/database.js] and the serverless handlers under [api/].

    Conventions of the embedding.
    - JavaScript values are [jsval]; numbers are integers ([Z]) and strings
      are sequences of code units below 256.
    - A table is the list of its rows in rowid order together with its
      AUTOINCREMENT counter; a row is the association list of its columns in
      declaration order, which is what [SELECT *] hands to JavaScript.
    - A value written to a column takes the column's type affinity: a
      number written to a TEXT column is stored as its decimal text, a text
      that reads as an integer written to an INTEGER, REAL or DATETIME
      column is stored as that integer.  Numbers being integers, a text
      that reads as a number with a fraction or an exponent is outside the
      embedding; [Sql.exact] tells the values inside it.
    - A handler is a computation [M response] over the database; [None] in
      the result position is a thrown exception.  Statements autocommit, so
      what was written before a throw stays written.
    - [:id] path parameters are the integer they denote. *)

From Stdlib Require Import ZArith String Ascii List Bool Lia.
From stdpp Require Import base option list gmap strings pretty.

Set Warnings "-register-all".
Local Open Scope string_scope.
Local Open Scope Z_scope.

(** ** JavaScript values *)

Module Js.

Inductive jsval : Type :=
| JUndefined
| JNull
| JBool (b : bool)
| JNum (n : Z)
| JStr (s : string)
| JArr (xs : list jsval)
| JObj (fs : list (string * jsval)).

(** [ToBoolean]: what [if (x)], [!x], [x || y] and [x ? a : b] test. *)
Definition truthy (v : jsval) : bool :=
  match v with
  | JUndefined | JNull => false
  | JBool b => b
  | JNum n => negb (n =? 0)
  | JStr s => negb (String.eqb s "")
  | JArr _ | JObj _ => true
  end.

(** [a || b] *)
Definition or (a b : jsval) : jsval := if truthy a then a else b.

(** [a !== undefined] *)
Definition defined (a : jsval) : bool :=
  match a with JUndefined => false | _ => true end.

(** [a !== undefined ? a : b] *)
Definition or_else (a b : jsval) : jsval := if defined a then a else b.

(** [a ? 1 : 0] *)
Definition flag (a : jsval) : jsval := JNum (if truthy a then 1 else 0).

(** [Array.isArray(a)] *)
Definition isArray (a : jsval) : bool :=
  match a with JArr _ => true | _ => false end.

(** An object as the handlers read it: [const { a, b } = req.body] yields
    [undefined] for an absent property. *)
Definition jsobj := list (string * jsval).

Fixpoint prop (k : string) (o : jsobj) : jsval :=
  match o with
  | [] => JUndefined
  | (k', v) :: o' => if String.eqb k k' then v else prop k o'
  end.

(** [join] of [Array.prototype.join] on already converted elements. *)
Fixpoint join (sep : string) (l : list string) : string :=
  match l with
  | [] => ""
  | [x] => x
  | x :: l' => (x ++ sep ++ join sep l')%string
  end.

(** [String(v)], also what a template literal applies to its holes. *)
Fixpoint toString (v : jsval) : string :=
  match v with
  | JUndefined => "undefined"
  | JNull => "null"
  | JBool true => "true"
  | JBool false => "false"
  | JNum n => pretty n
  | JStr s => s
  | JArr xs =>
      join "," (map (fun x => match x with
                              | JUndefined | JNull => ""
                              | _ => toString x
                              end) xs)
  | JObj _ => "[object Object]"
  end.

(** [a === b] on the primitives the handlers compare. Arrays and objects
    compare by identity, so two values read from different places differ. *)
Definition strict_eq (a b : jsval) : bool :=
  match a, b with
  | JUndefined, JUndefined | JNull, JNull => true
  | JBool x, JBool y => Bool.eqb x y
  | JNum x, JNum y => x =? y
  | JStr x, JStr y => String.eqb x y
  | _, _ => false
  end.

End Js.
Export Js.

(** ** The relational store *)

Module Sql.

Inductive sqlval : Type :=
| SNull
| SInt (z : Z)
| SText (s : string).

Definition sqlval_eqb (a b : sqlval) : bool :=
  match a, b with
  | SNull, SNull => true
  | SInt x, SInt y => x =? y
  | SText x, SText y => String.eqb x y
  | _, _ => false
  end.

(** The SQL comparison [a = b] in a WHERE clause: NULL equals nothing. *)
Definition sql_eq (a b : sqlval) : bool :=
  match a, b with
  | SInt x, SInt y => x =? y
  | SText x, SText y => String.eqb x y
  | _, _ => false
  end.

(** The SQL comparison [a <= b] in a WHERE clause: unknown (false) on NULL,
    numbers before text, text by [memcmp]. *)
Definition sql_le (a b : sqlval) : bool :=
  match a, b with
  | SInt x, SInt y => x <=? y
  | SText x, SText y => String.leb x y
  | SInt _, SText _ => true
  | _, _ => false
  end.

(** The order ORDER BY sorts by: NULL first, then numbers, then text. *)
Definition sql_compare (a b : sqlval) : comparison :=
  match a, b with
  | SNull, SNull => Eq
  | SNull, _ => Lt
  | _, SNull => Gt
  | SInt x, SInt y => Z.compare x y
  | SInt _, SText _ => Lt
  | SText _, SInt _ => Gt
  | SText x, SText y => String.compare x y
  end.

(** *** Column type affinity

    What SQLite does to a value on its way into a column.  A column with
    TEXT affinity stores a number as its decimal text.  A column with
    INTEGER, REAL or NUMERIC affinity (a DATETIME column has NUMERIC
    affinity) stores a text that is a well-formed integer literal, spaces
    around it allowed, as that integer; any other text is stored as it is.
    A text that is a well-formed literal with a fraction or an exponent
    would be stored as a number that is no integer: [classify] recognises
    it, [store] leaves it alone and [exact] excludes it. *)

Inductive affinity : Type := TEXT | INTEGER | REAL | NUMERIC.

Definition DATETIME : affinity := NUMERIC.

(** [sqlite3Isspace]: space, tab, line feed, vertical tab, form feed,
    carriage return. *)
Definition is_space (c : ascii) : bool :=
  let n := N_of_ascii c in ((n =? 32) || ((9 <=? n) && (n <=? 13)))%N.

Definition is_digit (c : ascii) : bool :=
  let n := N_of_ascii c in ((48 <=? n) && (n <=? 57))%N.

Fixpoint skip_spaces (s : string) : string :=
  match s with
  | String c s' => if is_space c then skip_spaces s' else s
  | EmptyString => s
  end.

(** The digits at the head of [s]: how many there are, the number they
    denote after the digits already read, and what follows them. *)
Fixpoint digits (acc : Z) (s : string) : nat * Z * string :=
  match s with
  | String c s' =>
      if is_digit c then
        let '(n, v, rest) :=
          digits (10 * acc + Z.of_N (N_of_ascii c - 48)) s' in
        (S n, v, rest)
      else (O, acc, s)
  | EmptyString => (O, acc, s)
  end.

Definition skip_sign (s : string) : bool * string :=
  match s with
  | String c s' =>
      if (N_of_ascii c =? 45)%N then (true, s')
      else if (N_of_ascii c =? 43)%N then (false, s')
      else (false, s)
  | EmptyString => (false, s)
  end.

Inductive literal : Type :=
| NotNumber
| Whole (z : Z)
| Fraction.

(** How [sqlite3AtoF] reads a text: optional spaces, an optional sign,
    digits with an optional point, an optional exponent, optional spaces,
    with at least one digit before the exponent and at least one in it. *)
Definition classify (s : string) : literal :=
  let '(negative, s1) := skip_sign (skip_spaces s) in
  let '(n1, v, s2) := digits 0 s1 in
  let '(point, n2, s3) :=
    match s2 with
    | String c r =>
        if (N_of_ascii c =? 46)%N
        then let '(n, _, rest) := digits 0 r in (true, n, rest)
        else (false, O, s2)
    | EmptyString => (false, O, s2)
    end in
  let '(exponent, well_formed, s4) :=
    match s3 with
    | String c r =>
        if ((N_of_ascii c =? 101) || (N_of_ascii c =? 69))%N
        then let '(n, _, rest) := digits 0 (snd (skip_sign r)) in
             (true, negb (Nat.eqb n 0), rest)
        else (false, true, s3)
    | EmptyString => (false, true, s3)
    end in
  if Nat.eqb (n1 + n2) 0 || negb well_formed
     || negb (String.eqb (skip_spaces s4) "")
  then NotNumber
  else if point || exponent then Fraction
  else Whole (if negative then - v else v).

(** The value a column with affinity [a] stores when it is given [v]; in
    [column = ?] the parameter is compared in this form too. *)
Definition store (a : affinity) (v : sqlval) : sqlval :=
  match a, v with
  | TEXT, SInt z => SText (pretty z)
  | TEXT, _ => v
  | _, SText s =>
      match classify s with
      | Whole z => SInt z
      | _ => SText s
      end
  | _, _ => v
  end.

(** The values whose stored form is inside the embedding: all but a text
    with a fraction or an exponent given to a numeric column. *)
Definition exact (a : affinity) (v : sqlval) : bool :=
  match a, v with
  | TEXT, _ => true
  | _, SText s =>
      match classify s with
      | Fraction => false
      | _ => true
      end
  | _, _ => true
  end.

Definition row := list (string * sqlval).

Fixpoint col (k : string) (r : row) : sqlval :=
  match r with
  | [] => SNull
  | (k', v) :: r' => if String.eqb k k' then v else col k r'
  end.

Fixpoint has_col (k : string) (r : row) : bool :=
  match r with
  | [] => false
  | (k', _) :: r' => String.eqb k k' || has_col k r'
  end.

Fixpoint set_col (k : string) (v : sqlval) (r : row) : row :=
  match r with
  | [] => []
  | (k', v') :: r' =>
      if String.eqb k k' then (k', v) :: r' else (k', v') :: set_col k v r'
  end.

Definition set_cols (asg : list (string * sqlval)) (r : row) : row :=
  fold_left (fun acc kv => set_col (fst kv) (snd kv) acc) asg r.

Definition row_id (r : row) : sqlval := col "id" r.

(** [SELECT k1, k2, .. FROM ..]: the named columns only. *)
Definition project (ks : list string) (r : row) : row :=
  map (fun k => (k, col k r)) ks.

Inductive direction : Type := Asc | Desc.

(** [a] may come before [b] under [ORDER BY k1 d1, k2 d2, ..]. *)
Fixpoint order_le (keys : list (string * direction)) (a b : row) : bool :=
  match keys with
  | [] => true
  | (k, d) :: keys' =>
      match sql_compare (col k a) (col k b), d with
      | Eq, _ => order_le keys' a b
      | Lt, Asc | Gt, Desc => true
      | Gt, Asc | Lt, Desc => false
      end
  end.

(** *** Schema *)

Inductive default_expr : Type :=
| DNull                      (* no DEFAULT clause *)
| DLit (v : sqlval)          (* DEFAULT literal *)
| DNow.                      (* DEFAULT CURRENT_TIMESTAMP *)

Record column : Type := Column {
  c_name : string;
  c_type : affinity;
  c_notnull : bool;
  c_unique : bool;
  c_default : default_expr
}.

Definition column_type (cols : list column) (k : string) : option affinity :=
  option_map c_type (find (fun c => String.eqb k (c_name c)) cols).

(** The values of [SET k1 = v1, ..] or [VALUES (v1, ..)] as the columns
    of the table store them. *)
Definition coerce (cols : list column) (asg : list (string * sqlval))
  : list (string * sqlval) :=
  map (fun kv => (fst kv,
                  match column_type cols (fst kv) with
                  | Some a => store a (snd kv)
                  | None => snd kv
                  end)) asg.

Inductive fk_action : Type := NoAction | Cascade.

Record foreign_key : Type := ForeignKey {
  fk_col : string;
  fk_parent : string;
  fk_on_delete : fk_action
}.

(** A table declared with [id INTEGER PRIMARY KEY AUTOINCREMENT] followed
    by [t_cols]. *)
Record table : Type := Table {
  t_cols : list column;
  t_fks : list foreign_key;
  t_rows : list row;
  t_seq : Z
}.

Record database : Type := Database {
  tables : gmap string table;
  foreign_keys : bool          (* PRAGMA foreign_keys *)
}.

End Sql.
Export Sql.

(** ** Statements over the store *)

Module Exec.

(** A computation over the database; [None] is a thrown exception. *)
Definition M (A : Type) : Type := database -> option A * database.

Definition ret {A} (a : A) : M A := fun d => (Some a, d).

Definition throw {A} : M A := fun d => (None, d).

Definition bind {A B} (m : M A) (k : A -> M B) : M B :=
  fun d =>
    match m d with
    | (Some a, d') => k a d'
    | (None, d') => (None, d')
    end.

(** [try { m } catch (error) { h }] *)
Definition try_catch {A} (m : M A) (h : M A) : M A :=
  fun d =>
    match m d with
    | (Some a, d') => (Some a, d')
    | (None, d') => h d'
    end.

(** [db.transaction(fn)(...)]: a throw inside rolls the store back and is
    thrown again. *)
Definition transaction {A} (m : M A) : M A :=
  fun d =>
    match m d with
    | (Some a, d') => (Some a, d')
    | (None, _) => (None, d)
    end.

Declare Scope exec_scope.
Delimit Scope exec_scope with exec.
Notation "'let*' x ':=' m 'in' k" := (bind m (fun x => k))
  (at level 10, x binder, m at level 100, k at level 200) : exec_scope.
Notation "m ';;' k" := (bind m (fun _ => k))
  (at level 100, k at level 200, right associativity) : exec_scope.
Local Open Scope exec_scope.

(** [for (const x of l) { f(x) }] *)
Fixpoint for_each {A} (f : A -> M unit) (l : list A) : M unit :=
  match l with
  | [] => ret tt
  | x :: l' => f x ;; for_each f l'
  end.

(** *** Reading *)

Definition get_table (t : string) : M table :=
  fun d => (tables d !! t, d).

Definition put_table (t : string) (tb : table) : M unit :=
  fun d => (Some tt, Database (<[t := tb]> (tables d)) (foreign_keys d)).

(** [SELECT * FROM t WHERE p], rows in rowid order. *)
Definition select_where (t : string) (p : row -> bool) : M (list row) :=
  let* tb := get_table t in ret (List.filter p (t_rows tb)).

(** [.get()]: the first row of the result, or [undefined]. *)
Definition select_one (t : string) (p : row -> bool) : M (option row) :=
  let* rs := select_where t p in ret (head rs).

Definition has_id (id : Z) (r : row) : bool := sql_eq (row_id r) (SInt id).

(** [SELECT * FROM t WHERE id = ?] *)
Definition select_by_id (t : string) (id : Z) : M (option row) :=
  select_one t (has_id id).

(** A stable insertion sort, for ORDER BY; rows that tie keep their rowid
    order. *)
Fixpoint insert_sorted (le : row -> row -> bool) (x : row) (l : list row)
  : list row :=
  match l with
  | [] => [x]
  | y :: l' => if le x y then x :: l else y :: insert_sorted le x l'
  end.

Definition order_by (le : row -> row -> bool) (l : list row) : list row :=
  fold_right (insert_sorted le) [] l.

(** *** Writing *)

Definition is_null (v : sqlval) : bool :=
  match v with SNull => true | _ => false end.

Definition max_id (rs : list row) : Z :=
  fold_right (fun r m => match row_id r with SInt i => Z.max i m | _ => m end)
    0 rs.

(** AUTOINCREMENT: one more than the largest rowid ever used. *)
Definition next_id (tb : table) : Z := Z.max (t_seq tb) (max_id (t_rows tb)) + 1.

Definition default_value (now : string) (c : column) : sqlval :=
  match c_default c with
  | DNull => SNull
  | DLit v => v
  | DNow => SText now
  end.

Fixpoint assoc (k : string) (asg : list (string * sqlval)) : option sqlval :=
  match asg with
  | [] => None
  | (k', v) :: asg' => if String.eqb k k' then Some v else assoc k asg'
  end.

Definition new_row (id : Z) (now : string) (cols : list column)
    (asg : list (string * sqlval)) : row :=
  ("id", SInt id)
    :: map (fun c => (c_name c,
                      match assoc (c_name c) asg with
                      | Some v => v
                      | None => default_value now c
                      end)) cols.

Definition known_cols (cols : list column) (asg : list (string * sqlval))
  : bool :=
  forallb (fun kv => existsb (fun c => String.eqb (fst kv) (c_name c)) cols) asg.

Definition assigned (asg : list (string * sqlval)) (k : string) : bool :=
  existsb (fun kv => String.eqb k (fst kv)) asg.

Definition notnull_ok (cols : list column) (r : row) : bool :=
  forallb (fun c => negb (c_notnull c) || negb (is_null (col (c_name c) r)))
    cols.

Definition unique_ok (cols : list column) (others : list row) (r : row)
  : bool :=
  forallb (fun c =>
             negb (c_unique c)
             || negb (existsb (fun r' => sql_eq (col (c_name c) r')
                                           (col (c_name c) r)) others))
    cols.

Definition parent_exists (d : database) (parent : string) (v : sqlval) : bool :=
  match tables d !! parent with
  | Some p => existsb (fun r => sql_eq (row_id r) v) (t_rows p)
  | None => false
  end.

Definition fk_ok (d : database) (fks : list foreign_key) (r : row) : bool :=
  negb (foreign_keys d)
  || forallb (fun fk => is_null (col (fk_col fk) r)
                        || parent_exists d (fk_parent fk) (col (fk_col fk) r))
       fks.

(** [INSERT INTO t (k1, ..) VALUES (v1, ..)] at time [now]; the values
    are stored with the affinity of their columns, and the result is
    [lastInsertRowid]. *)
Definition insert (now : string) (t : string) (asg : list (string * sqlval))
  : M Z :=
  fun d =>
    match tables d !! t with
    | None => (None, d)
    | Some tb =>
        let id := next_id tb in
        let r := new_row id now (t_cols tb) (coerce (t_cols tb) asg) in
        if known_cols (t_cols tb) asg
           && notnull_ok (t_cols tb) r
           && unique_ok (t_cols tb) (t_rows tb) r
           && fk_ok d (t_fks tb) r
        then (Some id,
              Database (<[t := Table (t_cols tb) (t_fks tb)
                                     (t_rows tb ++ [r]) id]> (tables d))
                       (foreign_keys d))
        else (None, d)
    end.

Definition replace_row (id : Z) (r' : row) (rs : list row) : list row :=
  map (fun r => if has_id id r then r' else r) rs.

(** [UPDATE t SET k1 = v1, .. WHERE id = ?]; the values are stored with
    the affinity of their columns, and the constraints checked are those of
    the assigned columns. *)
Definition update (t : string) (id : Z) (asg : list (string * sqlval))
  : M unit :=
  fun d =>
    match tables d !! t with
    | None => (None, d)
    | Some tb =>
        if known_cols (t_cols tb) asg then
          match find (has_id id) (t_rows tb) with
          | None => (Some tt, d)
          | Some r =>
              let r' := set_cols (coerce (t_cols tb) asg) r in
              let cols := List.filter (fun c => assigned asg (c_name c))
                            (t_cols tb) in
              let fks := List.filter (fun fk => assigned asg (fk_col fk))
                           (t_fks tb) in
              let others := List.filter (fun x => negb (has_id id x))
                              (t_rows tb) in
              if notnull_ok cols r' && unique_ok cols others r'
                 && fk_ok d fks r'
              then (Some tt,
                    Database (<[t := Table (t_cols tb) (t_fks tb)
                                       (replace_row id r' (t_rows tb))
                                       (t_seq tb)]> (tables d))
                             (foreign_keys d))
              else (None, d)
          end
        else (None, d)
    end.

(** Does row [r] of a table with foreign keys [fks] reference row [id] of
    [parent] through a key with action [a]? *)
Definition references (a : fk_action) (parent : string) (id : Z)
    (fks : list foreign_key) (r : row) : bool :=
  existsb (fun fk =>
             String.eqb (fk_parent fk) parent
             && match fk_on_delete fk, a with
                | NoAction, NoAction | Cascade, Cascade => true
                | _, _ => false
                end
             && sql_eq (col (fk_col fk) r) (SInt id)) fks.

Definition blocked (d : database) (parent : string) (id : Z) : bool :=
  existsb (fun ntb =>
             existsb (references NoAction parent id (t_fks (snd ntb)))
               (t_rows (snd ntb)))
    (map_to_list (tables d)).

Definition cascade (parent : string) (id : Z) (tb : table) : table :=
  Table (t_cols tb) (t_fks tb)
    (List.filter (fun r => negb (references Cascade parent id (t_fks tb) r))
       (t_rows tb))
    (t_seq tb).

(** [DELETE FROM t WHERE id = ?].  With foreign keys on, a row still
    referenced through a plain REFERENCES makes the statement fail, and
    rows referencing it ON DELETE CASCADE go with it. *)
Definition delete (t : string) (id : Z) : M unit :=
  fun d =>
    match tables d !! t with
    | None => (None, d)
    | Some tb =>
        if existsb (has_id id) (t_rows tb) then
          let rows' := List.filter (fun r => negb (has_id id r)) (t_rows tb) in
          let tb' := Table (t_cols tb) (t_fks tb) rows' (t_seq tb) in
          if foreign_keys d then
            if blocked d t id then (None, d)
            else (Some tt,
                  Database (<[t := tb']> (cascade t id <$> tables d))
                           (foreign_keys d))
          else (Some tt, Database (<[t := tb']> (tables d)) (foreign_keys d))
        else (Some tt, d)
    end.

End Exec.
Export Exec.

(** ** The schema of [server/utils/database.js] *)

Module Schema.

Definition plain (a : affinity) (name : string) : column :=
  Column name a false false DNull.
Definition required (a : affinity) (name : string) : column :=
  Column name a true false DNull.
Definition unique_required (a : affinity) (name : string) : column :=
  Column name a true true DNull.
Definition defaulted (a : affinity) (name : string) (v : sqlval) : column :=
  Column name a false false (DLit v).
(** [name DATETIME DEFAULT CURRENT_TIMESTAMP] *)
Definition timestamp (name : string) : column :=
  Column name DATETIME false false DNow.

Definition empty_table (cols : list column) (fks : list foreign_key) : table :=
  Table cols fks [] 0.

Definition users : table :=
  empty_table
    [unique_required TEXT "email"; required TEXT "password_hash";
     required TEXT "name"; defaulted TEXT "role" (SText "admin");
     timestamp "created_at"; plain DATETIME "last_login"] [].

Definition pages : table :=
  empty_table
    [required TEXT "title"; unique_required TEXT "slug"; plain TEXT "content";
     plain TEXT "meta_title"; plain TEXT "meta_description";
     plain TEXT "meta_keywords"; defaulted INTEGER "is_published" (SInt 0);
     timestamp "created_at"; timestamp "updated_at"] [].

Definition blog_posts : table :=
  empty_table
    [required TEXT "title"; unique_required TEXT "slug"; plain TEXT "excerpt";
     plain TEXT "content"; plain TEXT "featured_image"; plain TEXT "category";
     plain TEXT "tags"; defaulted TEXT "status" (SText "draft");
     plain DATETIME "publish_date"; plain INTEGER "author_id";
     timestamp "created_at"; timestamp "updated_at"]
    [ForeignKey "author_id" "users" NoAction].

Definition trainers : table :=
  empty_table
    [required TEXT "name"; plain TEXT "specialty"; plain TEXT "bio";
     plain TEXT "photo"; plain TEXT "email"; plain TEXT "phone";
     plain TEXT "social_facebook"; plain TEXT "social_instagram";
     plain TEXT "social_twitter"; plain TEXT "certifications";
     defaulted INTEGER "is_active" (SInt 1);
     defaulted INTEGER "sort_order" (SInt 0); timestamp "created_at"] [].

Definition classes : table :=
  empty_table
    [required TEXT "name"; plain TEXT "description";
     plain TEXT "short_description"; plain TEXT "image";
     plain INTEGER "trainer_id"; plain TEXT "schedule";
     plain INTEGER "duration"; plain INTEGER "capacity"; plain REAL "price";
     plain TEXT "difficulty"; defaulted INTEGER "is_active" (SInt 1);
     defaulted INTEGER "sort_order" (SInt 0); timestamp "created_at"]
    [ForeignKey "trainer_id" "trainers" NoAction].

Definition membership_plans : table :=
  empty_table
    [required TEXT "name"; required REAL "price";
     defaulted TEXT "billing_period" (SText "month"); plain TEXT "description";
     plain TEXT "features"; defaulted INTEGER "is_featured" (SInt 0);
     defaulted INTEGER "is_active" (SInt 1);
     defaulted INTEGER "sort_order" (SInt 0); timestamp "created_at"] [].

Definition testimonials : table :=
  empty_table
    [required TEXT "client_name"; plain TEXT "client_photo";
     plain TEXT "client_title"; required TEXT "content";
     defaulted INTEGER "rating" (SInt 5);
     defaulted INTEGER "is_approved" (SInt 0);
     defaulted INTEGER "sort_order" (SInt 0); timestamp "created_at"] [].

Definition gallery_albums : table :=
  empty_table
    [required TEXT "name"; plain TEXT "description"; plain TEXT "cover_image";
     defaulted INTEGER "is_active" (SInt 1);
     defaulted INTEGER "sort_order" (SInt 0); timestamp "created_at"] [].

Definition gallery_images : table :=
  empty_table
    [plain INTEGER "album_id"; required TEXT "file_path";
     plain TEXT "thumbnail_path"; plain TEXT "caption";
     defaulted INTEGER "sort_order" (SInt 0); timestamp "created_at"]
    [ForeignKey "album_id" "gallery_albums" Cascade].

Definition media : table :=
  empty_table
    [required TEXT "filename"; required TEXT "original_name";
     required TEXT "file_path"; plain TEXT "file_type";
     plain INTEGER "file_size"; plain INTEGER "width"; plain INTEGER "height";
     plain TEXT "alt_text"; timestamp "created_at"] [].

Definition bulletins : table :=
  empty_table
    [required TEXT "title"; required TEXT "content";
     defaulted TEXT "priority" (SText "normal"); plain DATETIME "starts_at";
     plain DATETIME "expires_at"; defaulted INTEGER "is_active" (SInt 1);
     timestamp "created_at"] [].

Definition contact_submissions : table :=
  empty_table
    [required TEXT "name"; required TEXT "email"; plain TEXT "phone";
     plain TEXT "subject"; required TEXT "message";
     defaulted INTEGER "is_read" (SInt 0); timestamp "created_at"] [].

Definition membership_inquiries : table :=
  empty_table
    [required TEXT "name"; required TEXT "email"; plain TEXT "phone";
     plain INTEGER "plan_id"; plain TEXT "message";
     defaulted TEXT "status" (SText "new"); timestamp "created_at"]
    [ForeignKey "plan_id" "membership_plans" NoAction].

Definition settings : table :=
  empty_table
    [unique_required TEXT "key"; plain TEXT "value";
     defaulted TEXT "type" (SText "string")] [].

Definition activity_logs : table :=
  empty_table
    [plain INTEGER "user_id"; required TEXT "action";
     plain TEXT "entity_type"; plain INTEGER "entity_id"; plain TEXT "details";
     plain TEXT "ip_address"; timestamp "created_at"]
    [ForeignKey "user_id" "users" NoAction].

(** The tables in the order [initDatabase] creates them. *)
Definition server_tables : list (string * table) :=
  [("users", users); ("pages", pages); ("blog_posts", blog_posts);
   ("trainers", trainers); ("classes", classes);
   ("membership_plans", membership_plans); ("testimonials", testimonials);
   ("gallery_albums", gallery_albums); ("gallery_images", gallery_images);
   ("media", media); ("bulletins", bulletins);
   ("contact_submissions", contact_submissions);
   ("membership_inquiries", membership_inquiries); ("settings", settings);
   ("activity_logs", activity_logs)].

End Schema.

(** ** Requests, responses and the middleware *)

Module Http.

Record response : Type := Response { status : Z; payload : jsval }.

(** The parts of an Express request the handlers read. [now] is the value
    of [CURRENT_TIMESTAMP] and [now_iso] that of [new Date().toISOString()]
    while the request is served. *)
Record request : Type := Request {
  authorization : option string;    (* req.headers['authorization'] *)
  body : jsobj;                     (* req.body *)
  query : jsobj;                    (* req.query *)
  ip : string;                      (* req.ip *)
  now : string;
  now_iso : string;
  (* 'YYYY-MM-DD HH:MM:SS' does not read as a number *)
  now_is_text : classify now = NotNumber
}.

Definition present {A} (o : option A) : bool :=
  match o with Some _ => true | None => false end.

Definition error_json (msg : string) : jsval := JObj [("error", JStr msg)].
Definition message_json (msg : string) : jsval := JObj [("message", JStr msg)].

(** [res.status(code).json({ error: msg })] *)
Definition fail (code : Z) (msg : string) : response :=
  Response code (error_json msg).

Definition js_of_sql (v : sqlval) : jsval :=
  match v with
  | SNull => JNull
  | SInt z => JNum z
  | SText s => JStr s
  end.

(** A row as the driver returns it: an object with one property per
    column. *)
Definition row_json (r : row) : jsobj :=
  map (fun kv => (fst kv, js_of_sql (snd kv))) r.

Definition rows_json (rs : list row) : jsval :=
  JArr (map (fun r => JObj (row_json r)) rs).

(** [row.k] for a row read from the store. *)
Definition field (k : string) (r : row) : jsval := prop k (row_json r).

(** better-sqlite3 binds numbers, strings and null; anything else is a
    TypeError ([None]). *)
Definition bound (v : jsval) : option sqlval :=
  match v with
  | JNull => Some SNull
  | JNum n => Some (SInt n)
  | JStr s => Some (SText s)
  | _ => None
  end.

Definition bind_param (v : jsval) : M sqlval :=
  match bound v with
  | Some s => ret s
  | None => throw
  end.

(** The parameters of a statement, bound left to right. *)
Fixpoint bound_all (ps : list (string * jsval))
  : option (list (string * sqlval)) :=
  match ps with
  | [] => Some []
  | (k, v) :: ps' =>
      match bound v, bound_all ps' with
      | Some v', Some rest => Some ((k, v') :: rest)
      | _, _ => None
      end
  end.

Local Open Scope exec_scope.

Fixpoint bind_params (ps : list (string * jsval))
  : M (list (string * sqlval)) :=
  match ps with
  | [] => ret []
  | (k, v) :: ps' =>
      let* v' := bind_param v in
      let* rest := bind_params ps' in
      ret ((k, v') :: rest)
  end.

(** [authHeader && authHeader.startsWith('Bearer ')] *)
Definition isAdmin (req : request) : bool :=
  match authorization req with
  | Some h => String.prefix "Bearer " h
  | None => false
  end.

(** [s.split(' ')] *)
Fixpoint split_space (s : string) : list string :=
  match s with
  | EmptyString => [""]
  | String c s' =>
      if Ascii.eqb c " "%char then "" :: split_space s'
      else match split_space s' with
           | [] => [String c ""]
           | w :: ws => String c w :: ws
           end
  end.

(** [authHeader && authHeader.split(' ')[1]], [None] when it is falsy. *)
Definition bearer_token (req : request) : option string :=
  match authorization req with
  | Some h =>
      match nth_error (split_space h) 1 with
      | Some t => if String.eqb t "" then None else Some t
      | None => None
      end
  | None => None
  end.

End Http.
Export Http.

(** ** External collaborators

    The token and password primitives and the date parser are consumed
    as opaque services. *)

Inductive jwt_outcome : Type :=
| Verified (decoded : jsobj)
| TokenExpired
| TokenInvalid.

Class Externals : Type := {
  (* jwt.verify(token, JWT_SECRET) *)
  jwt_verify : string -> jwt_outcome;
  (* jwt.sign(claims, JWT_SECRET, { expiresIn }) *)
  jwt_sign : jsobj -> string -> string;
  (* bcrypt.compare(password, hash) *)
  bcrypt_compare : string -> string -> bool;
  (* bcrypt.hash(password, 12) *)
  bcrypt_hash : string -> string;
  (* new Date(x) > new Date() *)
  date_in_future : jsval -> bool;
  (* process.env[name] *)
  process_env : string -> option string;
  (* the fs.existsSync and fs.unlinkSync calls on the three files of an
     upload return: false when one of them throws *)
  files_removed : string -> bool
}.

(** ** [server/middleware/auth.js] *)

Module Auth.
Section Auth.
Context `{E : Externals}.
Local Open Scope exec_scope.

Definition authenticateToken (req : request) : M (response + row) :=
  match bearer_token req with
  | None => ret (inl (fail 401 "Authentication required"))
  | Some token =>
      match jwt_verify token with
      | TokenExpired => ret (inl (fail 401 "Token expired"))
      | TokenInvalid => ret (inl (fail 403 "Invalid token"))
      | Verified decoded =>
          try_catch
            (let* id := bind_param (prop "userId" decoded) in
             let* user := select_one "users"
                            (fun r => sql_eq (row_id r) (store INTEGER id)) in
             match user with
             | None => ret (inl (fail 401 "User not found"))
             | Some u => ret (inr (project ["id"; "email"; "name"; "role"] u))
             end)
            (ret (inl (fail 403 "Invalid token")))
      end
  end.

(** A route registered as [router.verb(path, authenticateToken, handler)]. *)
Definition authenticated (req : request) (handler : row -> M response)
  : M response :=
  let* a := authenticateToken req in
  match a with
  | inl r => ret r
  | inr user => handler user
  end.

(** [requireRole(...roles)] applied to [req.user]. *)
Definition requireRole (roles : list string) (user : option row)
  : option response :=
  match user with
  | None => Some (fail 401 "Authentication required")
  | Some u =>
      if existsb (fun r => strict_eq (JStr r) (field "role" u)) roles
      then None
      else Some (fail 403 "Insufficient permissions")
  end.

(** [optionalAuth]: the value of [req.user] afterwards, [None] when it is
    left undefined or set to null. *)
Definition optionalAuth (req : request) : M (option row) :=
  match bearer_token req with
  | None => ret None
  | Some token =>
      match jwt_verify token with
      | Verified decoded =>
          try_catch
            (let* id := bind_param (prop "userId" decoded) in
             let* user := select_one "users"
                            (fun r => sql_eq (row_id r) (store INTEGER id)) in
             ret (option_map (project ["id"; "email"; "name"; "role"]) user))
            (ret None)
      | _ => ret None
      end
  end.

Definition logActivity (req : request) (userId : jsval) (action : string)
    (entityType entityId details : jsval) : M unit :=
  try_catch
    (let* ps := bind_params
                  [("user_id", userId); ("action", JStr action);
                   ("entity_type", entityType); ("entity_id", entityId);
                   ("details", details); ("ip_address", JStr (ip req))] in
     let* _ := insert (now req) "activity_logs" ps in
     ret tt)
    (ret tt).

End Auth.
End Auth.
Export Auth.

(** ** [server/routes/testimonials.js] *)

Module Testimonials.
Section Testimonials.
Context `{E : Externals}.
Local Open Scope exec_scope.

(** GET /api/testimonials *)
Definition get_all (req : request) : M response :=
  try_catch
    (let* testimonials :=
       if isAdmin req then
         let* rs := select_where "testimonials" (fun _ => true) in
         ret (order_by (order_le [("sort_order", Asc); ("created_at", Desc)]) rs)
       else
         let* rs := select_where "testimonials"
                      (fun r => sql_eq (col "is_approved" r) (SInt 1)) in
         ret (order_by (order_le [("sort_order", Asc)]) rs) in
     ret (Response 200 (rows_json testimonials)))
    (ret (fail 500 "Failed to fetch testimonials")).

(** GET /api/testimonials/:id *)
Definition get_one (id : Z) (req : request) : M response :=
  try_catch
    (let* testimonial := select_by_id "testimonials" id in
     match testimonial with
     | None => ret (fail 404 "Testimonial not found")
     | Some t => ret (Response 200 (JObj (row_json t)))
     end)
    (ret (fail 500 "Failed to fetch testimonial")).

(** POST /api/testimonials, after [authenticateToken] *)
Definition post_handler (user : row) (req : request) : M response :=
  let client_name := prop "client_name" (body req) in
  let client_photo := prop "client_photo" (body req) in
  let client_title := prop "client_title" (body req) in
  let content := prop "content" (body req) in
  let rating := prop "rating" (body req) in
  let is_approved := prop "is_approved" (body req) in
  let sort_order := prop "sort_order" (body req) in
  try_catch
    (if negb (truthy client_name) || negb (truthy content) then
       ret (fail 400 "Client name and content are required")
     else
       let* ps := bind_params
                    [("client_name", client_name);
                     ("client_photo", or client_photo (JStr ""));
                     ("client_title", or client_title (JStr ""));
                     ("content", content);
                     ("rating", or rating (JNum 5));
                     ("is_approved", flag is_approved);
                     ("sort_order", or sort_order (JNum 0))] in
       let* id := insert (now req) "testimonials" ps in
       let* row := select_by_id "testimonials" id in
       match row with
       | None => throw
       | Some testimonial =>
           logActivity req (field "id" user) "create" (JStr "testimonial")
             (field "id" testimonial)
             (JStr ("Created testimonial from: " ++ toString client_name)) ;;
           ret (Response 201 (JObj (row_json testimonial)))
       end)
    (ret (fail 500 "Failed to create testimonial")).

Definition post (req : request) : M response :=
  authenticated req (fun user => post_handler user req).

(** The values PUT binds for the row it found. *)
Definition put_params (b : jsobj) (existing : row)
  : list (string * jsval) :=
  let client_name := prop "client_name" b in
  let client_photo := prop "client_photo" b in
  let client_title := prop "client_title" b in
  let content := prop "content" b in
  let rating := prop "rating" b in
  let is_approved := prop "is_approved" b in
  let sort_order := prop "sort_order" b in
  [("client_name", or client_name (field "client_name" existing));
   ("client_photo", or_else client_photo (field "client_photo" existing));
   ("client_title", or_else client_title (field "client_title" existing));
   ("content", or_else content (field "content" existing));
   ("rating", or_else rating (field "rating" existing));
   ("is_approved",
    if defined is_approved then flag is_approved
    else field "is_approved" existing);
   ("sort_order", or_else sort_order (field "sort_order" existing))].

(** PUT /api/testimonials/:id, after [authenticateToken] *)
Definition put_handler (id : Z) (user : row) (req : request) : M response :=
  try_catch
    (let* found := select_by_id "testimonials" id in
     match found with
     | None => ret (fail 404 "Testimonial not found")
     | Some existing =>
         let* ps := bind_params (put_params (body req) existing) in
         update "testimonials" id ps ;;
         let* row := select_by_id "testimonials" id in
         match row with
         | None => throw
         | Some testimonial =>
             logActivity req (field "id" user) "update" (JStr "testimonial")
               (field "id" testimonial)
               (JStr ("Updated testimonial from: "
                      ++ toString (field "client_name" testimonial))) ;;
             ret (Response 200 (JObj (row_json testimonial)))
         end
     end)
    (ret (fail 500 "Failed to update testimonial")).

Definition put (id : Z) (req : request) : M response :=
  authenticated req (fun user => put_handler id user req).

(** DELETE /api/testimonials/:id, after [authenticateToken] *)
Definition delete_handler (id : Z) (user : row) (req : request) : M response :=
  try_catch
    (let* found := select_by_id "testimonials" id in
     match found with
     | None => ret (fail 404 "Testimonial not found")
     | Some testimonial =>
         delete "testimonials" id ;;
         logActivity req (field "id" user) "delete" (JStr "testimonial")
           (field "id" testimonial)
           (JStr ("Deleted testimonial from: "
                  ++ toString (field "client_name" testimonial))) ;;
         ret (Response 200 (message_json "Testimonial deleted successfully"))
     end)
    (ret (fail 500 "Failed to delete testimonial")).

Definition del (id : Z) (req : request) : M response :=
  authenticated req (fun user => delete_handler id user req).

End Testimonials.
End Testimonials.

(** ** [server/routes/blog.js] *)

Module Blog.
Section Blog.
Context `{E : Externals}.
Local Open Scope exec_scope.

Definition by_slug (slug : sqlval) (r : row) : bool :=
  sql_eq (col "slug" r) (store TEXT slug).

(** GET /api/blog/:slug, behind [optionalAuth] *)
Definition get_one_handler (slug : string) (user : option row) (req : request)
  : M response :=
  try_catch
    (let* found := select_one "blog_posts" (by_slug (SText slug)) in
     match found with
     | None => ret (fail 404 "Post not found")
     | Some post =>
         if negb (present user)
            && (negb (strict_eq (field "status" post) (JStr "published"))
                || date_in_future (field "publish_date" post))
         then ret (fail 404 "Post not found")
         else ret (Response 200 (JObj (row_json post)))
     end)
    (ret (fail 500 "Failed to fetch post")).

Definition get_one (slug : string) (req : request) : M response :=
  let* user := optionalAuth req in get_one_handler slug user req.

(** POST /api/blog, after [authenticateToken] *)
Definition post_handler (user : row) (req : request) : M response :=
  let title := prop "title" (body req) in
  let slug := prop "slug" (body req) in
  let excerpt := prop "excerpt" (body req) in
  let content := prop "content" (body req) in
  let featured_image := prop "featured_image" (body req) in
  let category := prop "category" (body req) in
  let tags := prop "tags" (body req) in
  let status := prop "status" (body req) in
  let publish_date := prop "publish_date" (body req) in
  try_catch
    (if negb (truthy title) || negb (truthy slug) then
       ret (fail 400 "Title and slug are required")
     else
       let* s := bind_param slug in
       let* existing := select_one "blog_posts" (by_slug s) in
       match existing with
       | Some _ => ret (fail 400 "Slug already exists")
       | None =>
           let* ps := bind_params
                        [("title", title);
                         ("slug", slug);
                         ("excerpt", or excerpt (JStr ""));
                         ("content", or content (JStr ""));
                         ("featured_image", or featured_image (JStr ""));
                         ("category", or category (JStr ""));
                         ("tags", or tags (JStr ""));
                         ("status", or status (JStr "draft"));
                         ("publish_date", or publish_date (JStr (now_iso req)));
                         ("author_id", field "id" user)] in
           let* id := insert (now req) "blog_posts" ps in
           let* row := select_by_id "blog_posts" id in
           match row with
           | None => throw
           | Some post =>
               logActivity req (field "id" user) "create" (JStr "blog_post")
                 (field "id" post) (JStr ("Created post: " ++ toString title)) ;;
               ret (Response 201 (JObj (row_json post)))
           end
       end)
    (ret (fail 500 "Failed to create post")).

Definition post (req : request) : M response :=
  authenticated req (fun user => post_handler user req).

(** The values PUT binds for the row it found. *)
Definition put_params (b : jsobj) (existing : row)
  : list (string * jsval) :=
  let title := prop "title" b in
  let slug := prop "slug" b in
  let excerpt := prop "excerpt" b in
  let content := prop "content" b in
  let featured_image := prop "featured_image" b in
  let category := prop "category" b in
  let tags := prop "tags" b in
  let status := prop "status" b in
  let publish_date := prop "publish_date" b in
  [("title", or title (field "title" existing));
   ("slug", or slug (field "slug" existing));
   ("excerpt", or_else excerpt (field "excerpt" existing));
   ("content", or_else content (field "content" existing));
   ("featured_image",
    or_else featured_image (field "featured_image" existing));
   ("category", or_else category (field "category" existing));
   ("tags", or_else tags (field "tags" existing));
   ("status", or status (field "status" existing));
   ("publish_date",
    or publish_date (field "publish_date" existing))].

(** PUT /api/blog/:id, after [authenticateToken] *)
Definition put_handler (id : Z) (user : row) (req : request) : M response :=
  let slug := prop "slug" (body req) in
  try_catch
    (let* found := select_by_id "blog_posts" id in
     match found with
     | None => ret (fail 404 "Post not found")
     | Some existing =>
         let* slugExists :=
           if truthy slug && negb (strict_eq slug (field "slug" existing)) then
             let* s := bind_param slug in
             select_one "blog_posts"
               (fun r => by_slug s r && negb (has_id id r))
           else ret None in
         match slugExists with
         | Some _ => ret (fail 400 "Slug already exists")
         | None =>
             let* ps := bind_params (put_params (body req) existing) in
             update "blog_posts" id (ps ++ [("updated_at", SText (now req))]) ;;
             let* row := select_by_id "blog_posts" id in
             match row with
             | None => throw
             | Some post =>
                 logActivity req (field "id" user) "update" (JStr "blog_post")
                   (field "id" post)
                   (JStr ("Updated post: " ++ toString (field "title" post))) ;;
                 ret (Response 200 (JObj (row_json post)))
             end
         end
     end)
    (ret (fail 500 "Failed to update post")).

Definition put (id : Z) (req : request) : M response :=
  authenticated req (fun user => put_handler id user req).

(** DELETE /api/blog/:id, after [authenticateToken] *)
Definition delete_handler (id : Z) (user : row) (req : request) : M response :=
  try_catch
    (let* found := select_by_id "blog_posts" id in
     match found with
     | None => ret (fail 404 "Post not found")
     | Some post =>
         delete "blog_posts" id ;;
         logActivity req (field "id" user) "delete" (JStr "blog_post")
           (field "id" post)
           (JStr ("Deleted post: " ++ toString (field "title" post))) ;;
         ret (Response 200 (message_json "Post deleted successfully"))
     end)
    (ret (fail 500 "Failed to delete post")).

Definition del (id : Z) (req : request) : M response :=
  authenticated req (fun user => delete_handler id user req).

End Blog.
End Blog.

(** ** [server/routes/pages.js] *)

Module Pages.
Section Pages.
Context `{E : Externals}.
Local Open Scope exec_scope.

Definition by_slug (slug : sqlval) (r : row) : bool :=
  sql_eq (col "slug" r) (store TEXT slug).

(** GET /api/pages *)
Definition get_all (req : request) : M response :=
  try_catch
    (let* pages :=
       if isAdmin req then select_where "pages" (fun _ => true)
       else select_where "pages"
              (fun r => sql_eq (col "is_published" r) (SInt 1)) in
     ret (Response 200
            (rows_json (order_by (order_le [("created_at", Desc)]) pages))))
    (ret (fail 500 "Failed to fetch pages")).

(** GET /api/pages/:slug *)
Definition get_one (slug : string) (req : request) : M response :=
  try_catch
    (let* found := select_one "pages" (by_slug (SText slug)) in
     match found with
     | None => ret (fail 404 "Page not found")
     | Some page =>
         if negb (truthy (field "is_published" page)) && negb (isAdmin req)
         then ret (fail 404 "Page not found")
         else ret (Response 200 (JObj (row_json page)))
     end)
    (ret (fail 500 "Failed to fetch page")).

(** POST /api/pages, after [authenticateToken] *)
Definition post_handler (user : row) (req : request) : M response :=
  let title := prop "title" (body req) in
  let slug := prop "slug" (body req) in
  let content := prop "content" (body req) in
  let meta_title := prop "meta_title" (body req) in
  let meta_description := prop "meta_description" (body req) in
  let meta_keywords := prop "meta_keywords" (body req) in
  let is_published := prop "is_published" (body req) in
  try_catch
    (if negb (truthy title) || negb (truthy slug) then
       ret (fail 400 "Title and slug are required")
     else
       let* s := bind_param slug in
       let* existing := select_one "pages" (by_slug s) in
       match existing with
       | Some _ => ret (fail 400 "Slug already exists")
       | None =>
           let* ps := bind_params
                        [("title", title);
                         ("slug", slug);
                         ("content", or content (JStr ""));
                         ("meta_title", or meta_title title);
                         ("meta_description", or meta_description (JStr ""));
                         ("meta_keywords", or meta_keywords (JStr ""));
                         ("is_published", flag is_published)] in
           let* id := insert (now req) "pages" ps in
           let* row := select_by_id "pages" id in
           match row with
           | None => throw
           | Some page =>
               logActivity req (field "id" user) "create" (JStr "page")
                 (field "id" page) (JStr ("Created page: " ++ toString title)) ;;
               ret (Response 201 (JObj (row_json page)))
           end
       end)
    (ret (fail 500 "Failed to create page")).

Definition post (req : request) : M response :=
  authenticated req (fun user => post_handler user req).

(** The values PUT binds for the row it found. *)
Definition put_params (b : jsobj) (existing : row)
  : list (string * jsval) :=
  let title := prop "title" b in
  let slug := prop "slug" b in
  let content := prop "content" b in
  let meta_title := prop "meta_title" b in
  let meta_description := prop "meta_description" b in
  let meta_keywords := prop "meta_keywords" b in
  let is_published := prop "is_published" b in
  [("title", or title (field "title" existing));
   ("slug", or slug (field "slug" existing));
   ("content", or_else content (field "content" existing));
   ("meta_title", or meta_title (field "meta_title" existing));
   ("meta_description",
    or_else meta_description
      (field "meta_description" existing));
   ("meta_keywords",
    or_else meta_keywords (field "meta_keywords" existing));
   ("is_published",
    if defined is_published then flag is_published
    else field "is_published" existing)].

(** PUT /api/pages/:id, after [authenticateToken] *)
Definition put_handler (id : Z) (user : row) (req : request) : M response :=
  let slug := prop "slug" (body req) in
  try_catch
    (let* found := select_by_id "pages" id in
     match found with
     | None => ret (fail 404 "Page not found")
     | Some existing =>
         let* slugExists :=
           if truthy slug && negb (strict_eq slug (field "slug" existing)) then
             let* s := bind_param slug in
             select_one "pages" (fun r => by_slug s r && negb (has_id id r))
           else ret None in
         match slugExists with
         | Some _ => ret (fail 400 "Slug already exists")
         | None =>
             let* ps := bind_params (put_params (body req) existing) in
             update "pages" id (ps ++ [("updated_at", SText (now req))]) ;;
             let* row := select_by_id "pages" id in
             match row with
             | None => throw
             | Some page =>
                 logActivity req (field "id" user) "update" (JStr "page")
                   (field "id" page)
                   (JStr ("Updated page: " ++ toString (field "title" page))) ;;
                 ret (Response 200 (JObj (row_json page)))
             end
         end
     end)
    (ret (fail 500 "Failed to update page")).

Definition put (id : Z) (req : request) : M response :=
  authenticated req (fun user => put_handler id user req).

(** DELETE /api/pages/:id, after [authenticateToken] *)
Definition delete_handler (id : Z) (user : row) (req : request) : M response :=
  try_catch
    (let* found := select_by_id "pages" id in
     match found with
     | None => ret (fail 404 "Page not found")
     | Some page =>
         delete "pages" id ;;
         logActivity req (field "id" user) "delete" (JStr "page")
           (field "id" page)
           (JStr ("Deleted page: " ++ toString (field "title" page))) ;;
         ret (Response 200 (message_json "Page deleted successfully"))
     end)
    (ret (fail 500 "Failed to delete page")).

Definition del (id : Z) (req : request) : M response :=
  authenticated req (fun user => delete_handler id user req).

End Pages.
End Pages.

(** ** [server/routes/gallery.js] *)

Module Gallery.
Section Gallery.
Context `{E : Externals}.
Local Open Scope exec_scope.

Definition in_album (album : sqlval) (r : row) : bool :=
  sql_eq (col "album_id" r) (store INTEGER album).

(** GET /api/gallery/albums *)
Definition get_albums (req : request) : M response :=
  try_catch
    (let* albums := select_where "gallery_albums"
                      (fun r => sql_eq (col "is_active" r) (SInt 1)) in
     let* images := select_where "gallery_images" (fun _ => true) in
     let counted :=
       map (fun ga => (ga ++ [("image_count",
                               SInt (Z.of_nat (length
                                 (List.filter (in_album (row_id ga)) images))))])%list)
         albums in
     ret (Response 200
            (rows_json (order_by (order_le [("sort_order", Asc);
                                            ("created_at", Desc)]) counted))))
    (ret (fail 500 "Failed to fetch albums")).

(** GET /api/gallery/albums/:id *)
Definition get_album (id : Z) (req : request) : M response :=
  try_catch
    (let* found := select_by_id "gallery_albums" id in
     match found with
     | None => ret (fail 404 "Album not found")
     | Some album =>
         let* images := select_where "gallery_images" (in_album (SInt id)) in
         let images := order_by (order_le [("sort_order", Asc);
                                           ("created_at", Desc)]) images in
         ret (Response 200
                (JObj (row_json album ++ [("images", rows_json images)])%list))
     end)
    (ret (fail 500 "Failed to fetch album")).

(** POST /api/gallery/albums, after [authenticateToken] *)
Definition post_album_handler (user : row) (req : request) : M response :=
  let name := prop "name" (body req) in
  let description := prop "description" (body req) in
  let cover_image := prop "cover_image" (body req) in
  let sort_order := prop "sort_order" (body req) in
  try_catch
    (if negb (truthy name) then ret (fail 400 "Album name is required")
     else
       let* ps := bind_params
                    [("name", name);
                     ("description", or description (JStr ""));
                     ("cover_image", or cover_image (JStr ""));
                     ("sort_order", or sort_order (JNum 0))] in
       let* id := insert (now req) "gallery_albums" ps in
       let* row := select_by_id "gallery_albums" id in
       match row with
       | None => throw
       | Some album =>
           logActivity req (field "id" user) "create" (JStr "gallery_album")
             (field "id" album) (JStr ("Created album: " ++ toString name)) ;;
           ret (Response 201 (JObj (row_json album)))
       end)
    (ret (fail 500 "Failed to create album")).

Definition post_album (req : request) : M response :=
  authenticated req (fun user => post_album_handler user req).

(** The values PUT binds for the row it found. *)
Definition put_album_params (b : jsobj) (existing : row)
  : list (string * jsval) :=
  let name := prop "name" b in
  let description := prop "description" b in
  let cover_image := prop "cover_image" b in
  let is_active := prop "is_active" b in
  let sort_order := prop "sort_order" b in
  [("name", or name (field "name" existing));
   ("description",
    or_else description (field "description" existing));
   ("cover_image",
    or_else cover_image (field "cover_image" existing));
   ("is_active",
    if defined is_active then flag is_active
    else field "is_active" existing);
   ("sort_order",
    or_else sort_order (field "sort_order" existing))].

(** PUT /api/gallery/albums/:id, after [authenticateToken] *)
Definition put_album_handler (id : Z) (user : row) (req : request)
  : M response :=
  try_catch
    (let* found := select_by_id "gallery_albums" id in
     match found with
     | None => ret (fail 404 "Album not found")
     | Some existing =>
         let* ps := bind_params (put_album_params (body req) existing) in
         update "gallery_albums" id ps ;;
         let* row := select_by_id "gallery_albums" id in
         match row with
         | None => throw
         | Some album =>
             logActivity req (field "id" user) "update" (JStr "gallery_album")
               (field "id" album)
               (JStr ("Updated album: " ++ toString (field "name" album))) ;;
             ret (Response 200 (JObj (row_json album)))
         end
     end)
    (ret (fail 500 "Failed to update album")).

Definition put_album (id : Z) (req : request) : M response :=
  authenticated req (fun user => put_album_handler id user req).

(** DELETE /api/gallery/albums/:id, after [authenticateToken] *)
Definition delete_album_handler (id : Z) (user : row) (req : request)
  : M response :=
  try_catch
    (let* found := select_by_id "gallery_albums" id in
     match found with
     | None => ret (fail 404 "Album not found")
     | Some album =>
         delete "gallery_albums" id ;;
         logActivity req (field "id" user) "delete" (JStr "gallery_album")
           (field "id" album)
           (JStr ("Deleted album: " ++ toString (field "name" album))) ;;
         ret (Response 200 (message_json "Album deleted successfully"))
     end)
    (ret (fail 500 "Failed to delete album")).

Definition delete_album (id : Z) (req : request) : M response :=
  authenticated req (fun user => delete_album_handler id user req).

(** GET /api/gallery/images *)
Definition get_images (req : request) : M response :=
  let album_id := prop "album_id" (query req) in
  try_catch
    (let* images :=
       if truthy album_id then
         let* a := bind_param album_id in
         select_where "gallery_images" (in_album a)
       else select_where "gallery_images" (fun _ => true) in
     ret (Response 200
            (rows_json (order_by (order_le [("sort_order", Asc);
                                            ("created_at", Desc)]) images))))
    (ret (fail 500 "Failed to fetch images")).

(** POST /api/gallery/images, after [authenticateToken] *)
Definition post_image_handler (user : row) (req : request) : M response :=
  let album_id := prop "album_id" (body req) in
  let file_path := prop "file_path" (body req) in
  let thumbnail_path := prop "thumbnail_path" (body req) in
  let caption := prop "caption" (body req) in
  let sort_order := prop "sort_order" (body req) in
  try_catch
    (if negb (truthy file_path) then ret (fail 400 "File path is required")
     else
       let* ps := bind_params
                    [("album_id", or album_id JNull);
                     ("file_path", file_path);
                     ("thumbnail_path", or thumbnail_path (JStr ""));
                     ("caption", or caption (JStr ""));
                     ("sort_order", or sort_order (JNum 0))] in
       let* id := insert (now req) "gallery_images" ps in
       let* row := select_by_id "gallery_images" id in
       match row with
       | None => throw
       | Some image =>
           logActivity req (field "id" user) "create" (JStr "gallery_image")
             (field "id" image) (JStr "Added gallery image") ;;
           ret (Response 201 (JObj (row_json image)))
       end)
    (ret (fail 500 "Failed to add image")).

Definition post_image (req : request) : M response :=
  authenticated req (fun user => post_image_handler user req).

(** The values PUT binds for the row it found. *)
Definition put_image_params (b : jsobj) (existing : row)
  : list (string * jsval) :=
  let album_id := prop "album_id" b in
  let caption := prop "caption" b in
  let sort_order := prop "sort_order" b in
  [("album_id", or_else album_id (field "album_id" existing));
   ("caption", or_else caption (field "caption" existing));
   ("sort_order",
    or_else sort_order (field "sort_order" existing))].

(** PUT /api/gallery/images/:id, after [authenticateToken] *)
Definition put_image_handler (id : Z) (user : row) (req : request)
  : M response :=
  try_catch
    (let* found := select_by_id "gallery_images" id in
     match found with
     | None => ret (fail 404 "Image not found")
     | Some existing =>
         let* ps := bind_params (put_image_params (body req) existing) in
         update "gallery_images" id ps ;;
         let* row := select_by_id "gallery_images" id in
         match row with
         | None => ret (Response 200 JUndefined)
         | Some image => ret (Response 200 (JObj (row_json image)))
         end
     end)
    (ret (fail 500 "Failed to update image")).

Definition put_image (id : Z) (req : request) : M response :=
  authenticated req (fun user => put_image_handler id user req).

(** DELETE /api/gallery/images/:id, after [authenticateToken] *)
Definition delete_image_handler (id : Z) (user : row) (req : request)
  : M response :=
  try_catch
    (let* found := select_by_id "gallery_images" id in
     match found with
     | None => ret (fail 404 "Image not found")
     | Some image =>
         delete "gallery_images" id ;;
         logActivity req (field "id" user) "delete" (JStr "gallery_image")
           (field "id" image) (JStr "Deleted gallery image") ;;
         ret (Response 200 (message_json "Image deleted successfully"))
     end)
    (ret (fail 500 "Failed to delete image")).

Definition delete_image (id : Z) (req : request) : M response :=
  authenticated req (fun user => delete_image_handler id user req).

End Gallery.
End Gallery.

(** ** [server/routes/trainers.js] *)

Module Trainers.
Section Trainers.
Context `{E : Externals}.
Local Open Scope exec_scope.

(** GET /api/trainers *)
Definition get_all (req : request) : M response :=
  try_catch
    (let* trainers :=
       if isAdmin req then
         let* rs := select_where "trainers" (fun _ => true) in
         ret (order_by (order_le [("sort_order", Asc); ("created_at", Desc)]) rs)
       else
         let* rs := select_where "trainers"
                      (fun r => sql_eq (col "is_active" r) (SInt 1)) in
         ret (order_by (order_le [("sort_order", Asc)]) rs) in
     ret (Response 200 (rows_json trainers)))
    (ret (fail 500 "Failed to fetch trainers")).

(** GET /api/trainers/:id *)
Definition get_one (id : Z) (req : request) : M response :=
  try_catch
    (let* found := select_by_id "trainers" id in
     match found with
     | None => ret (fail 404 "Trainer not found")
     | Some trainer => ret (Response 200 (JObj (row_json trainer)))
     end)
    (ret (fail 500 "Failed to fetch trainer")).

(** POST /api/trainers, after [authenticateToken] *)
Definition post_handler (user : row) (req : request) : M response :=
  let name := prop "name" (body req) in
  let specialty := prop "specialty" (body req) in
  let bio := prop "bio" (body req) in
  let photo := prop "photo" (body req) in
  let email := prop "email" (body req) in
  let phone := prop "phone" (body req) in
  let social_facebook := prop "social_facebook" (body req) in
  let social_instagram := prop "social_instagram" (body req) in
  let social_twitter := prop "social_twitter" (body req) in
  let certifications := prop "certifications" (body req) in
  let is_active := prop "is_active" (body req) in
  let sort_order := prop "sort_order" (body req) in
  try_catch
    (if negb (truthy name) then ret (fail 400 "Name is required")
     else
       let* ps := bind_params
                    [("name", name);
                     ("specialty", or specialty (JStr ""));
                     ("bio", or bio (JStr ""));
                     ("photo", or photo (JStr ""));
                     ("email", or email (JStr ""));
                     ("phone", or phone (JStr ""));
                     ("social_facebook", or social_facebook (JStr ""));
                     ("social_instagram", or social_instagram (JStr ""));
                     ("social_twitter", or social_twitter (JStr ""));
                     ("certifications", or certifications (JStr ""));
                     ("is_active",
                      if defined is_active then flag is_active else JNum 1);
                     ("sort_order", or sort_order (JNum 0))] in
       let* id := insert (now req) "trainers" ps in
       let* row := select_by_id "trainers" id in
       match row with
       | None => throw
       | Some trainer =>
           logActivity req (field "id" user) "create" (JStr "trainer")
             (field "id" trainer) (JStr ("Created trainer: " ++ toString name)) ;;
           ret (Response 201 (JObj (row_json trainer)))
       end)
    (ret (fail 500 "Failed to create trainer")).

Definition post (req : request) : M response :=
  authenticated req (fun user => post_handler user req).

(** The values PUT binds for the row it found. *)
Definition put_params (b : jsobj) (existing : row)
  : list (string * jsval) :=
  let name := prop "name" b in
  let specialty := prop "specialty" b in
  let bio := prop "bio" b in
  let photo := prop "photo" b in
  let email := prop "email" b in
  let phone := prop "phone" b in
  let social_facebook := prop "social_facebook" b in
  let social_instagram := prop "social_instagram" b in
  let social_twitter := prop "social_twitter" b in
  let certifications := prop "certifications" b in
  let is_active := prop "is_active" b in
  let sort_order := prop "sort_order" b in
  [("name", or name (field "name" existing));
   ("specialty", or_else specialty (field "specialty" existing));
   ("bio", or_else bio (field "bio" existing));
   ("photo", or_else photo (field "photo" existing));
   ("email", or_else email (field "email" existing));
   ("phone", or_else phone (field "phone" existing));
   ("social_facebook",
    or_else social_facebook (field "social_facebook" existing));
   ("social_instagram",
    or_else social_instagram (field "social_instagram" existing));
   ("social_twitter",
    or_else social_twitter (field "social_twitter" existing));
   ("certifications",
    or_else certifications (field "certifications" existing));
   ("is_active",
    if defined is_active then flag is_active
    else field "is_active" existing);
   ("sort_order",
    or_else sort_order (field "sort_order" existing))].

(** PUT /api/trainers/:id, after [authenticateToken] *)
Definition put_handler (id : Z) (user : row) (req : request) : M response :=
  try_catch
    (let* found := select_by_id "trainers" id in
     match found with
     | None => ret (fail 404 "Trainer not found")
     | Some existing =>
         let* ps := bind_params (put_params (body req) existing) in
         update "trainers" id ps ;;
         let* row := select_by_id "trainers" id in
         match row with
         | None => throw
         | Some trainer =>
             logActivity req (field "id" user) "update" (JStr "trainer")
               (field "id" trainer)
               (JStr ("Updated trainer: " ++ toString (field "name" trainer))) ;;
             ret (Response 200 (JObj (row_json trainer)))
         end
     end)
    (ret (fail 500 "Failed to update trainer")).

Definition put (id : Z) (req : request) : M response :=
  authenticated req (fun user => put_handler id user req).

(** DELETE /api/trainers/:id, after [authenticateToken] *)
Definition delete_handler (id : Z) (user : row) (req : request) : M response :=
  try_catch
    (let* found := select_by_id "trainers" id in
     match found with
     | None => ret (fail 404 "Trainer not found")
     | Some trainer =>
         delete "trainers" id ;;
         logActivity req (field "id" user) "delete" (JStr "trainer")
           (field "id" trainer)
           (JStr ("Deleted trainer: " ++ toString (field "name" trainer))) ;;
         ret (Response 200 (message_json "Trainer deleted successfully"))
     end)
    (ret (fail 500 "Failed to delete trainer")).

Definition del (id : Z) (req : request) : M response :=
  authenticated req (fun user => delete_handler id user req).

End Trainers.
End Trainers.

(** ** [JSON.stringify] and [JSON.parse]

    The handlers keep a plan's features as JSON text.  Numbers are integers
    here as everywhere in the embedding; text with a fraction or an exponent
    is outside it and read as malformed. *)

Module Json.

Definition dquote : ascii := ascii_of_N 34.

Definition hex_digit (n : N) : ascii :=
  ascii_of_N (if (n <? 10)%N then 48 + n else 87 + n).

(** The escape of one code unit inside a string literal. *)
Definition escape_char (c : ascii) : string :=
  let n := N_of_ascii c in
  if (n =? 34)%N then String "\" (String dquote "")
  else if (n =? 92)%N then "\\"
  else if (n =? 8)%N then "\b"
  else if (n =? 12)%N then "\f"
  else if (n =? 10)%N then "\n"
  else if (n =? 13)%N then "\r"
  else if (n =? 9)%N then "\t"
  else if (n <? 32)%N then
    String "\" (String "u" (String "0" (String "0"
      (String (hex_digit (n / 16)) (String (hex_digit (n mod 16)) "")))))
  else String c "".

Fixpoint escape (s : string) : string :=
  match s with
  | EmptyString => ""
  | String c s' => (escape_char c ++ escape s')%string
  end.

Definition quote (s : string) : string :=
  (String dquote (escape s) ++ String dquote "")%string.

(** The text of a value; [undefined] inside an array is written as null
    and a property that is [undefined] is left out. *)
Fixpoint stringify_value (v : jsval) : string :=
  match v with
  | JUndefined | JNull => "null"
  | JBool true => "true"
  | JBool false => "false"
  | JNum n => pretty n
  | JStr s => quote s
  | JArr xs => ("[" ++ join "," (map stringify_value xs) ++ "]")%string
  | JObj fs =>
      ("{" ++ join ","
         (flat_map (fun kv =>
                      match kv with
                      | (_, JUndefined) => []
                      | (k, v') => [(quote k ++ ":" ++ stringify_value v')%string]
                      end) fs) ++ "}")%string
  end.

(** [JSON.stringify(v)] *)
Definition stringify (v : jsval) : jsval :=
  match v with
  | JUndefined => JUndefined
  | _ => JStr (stringify_value v)
  end.

Definition is_ws (c : ascii) : bool :=
  let n := N_of_ascii c in
  ((n =? 32) || (n =? 9) || (n =? 10) || (n =? 13))%N.

Fixpoint skip_ws (s : string) : string :=
  match s with
  | String c s' => if is_ws c then skip_ws s' else s
  | EmptyString => s
  end.

Definition hex_value (c : ascii) : option N :=
  let n := N_of_ascii c in
  if ((48 <=? n) && (n <=? 57))%N then Some (n - 48)%N
  else if ((97 <=? n) && (n <=? 102))%N then Some (n - 87)%N
  else if ((65 <=? n) && (n <=? 70))%N then Some (n - 55)%N
  else None.

Definition unescape (c : ascii) : option ascii :=
  let n := N_of_ascii c in
  if (n =? 34)%N then Some c
  else if (n =? 92)%N then Some c
  else if (n =? 47)%N then Some c
  else if (n =? 98)%N then Some (ascii_of_N 8)
  else if (n =? 102)%N then Some (ascii_of_N 12)
  else if (n =? 110)%N then Some (ascii_of_N 10)
  else if (n =? 114)%N then Some (ascii_of_N 13)
  else if (n =? 116)%N then Some (ascii_of_N 9)
  else None.

(** The rest of a string literal after its opening quote, and what follows
    the closing one. *)
Fixpoint parse_string (s : string) : option (string * string) :=
  match s with
  | EmptyString => None
  | String c s1 =>
      if (N_of_ascii c =? 34)%N then Some ("", s1)
      else if (N_of_ascii c =? 92)%N then
        match s1 with
        | String e s2 =>
            if (N_of_ascii e =? 117)%N then
              match s2 with
              | String a (String b (String x (String y s3))) =>
                  match hex_value a, hex_value b, hex_value x, hex_value y with
                  | Some 0%N, Some 0%N, Some h, Some l =>
                      match parse_string s3 with
                      | Some (t, rest) =>
                          Some (String (ascii_of_N (16 * h + l)) t, rest)
                      | None => None
                      end
                  | _, _, _, _ => None
                  end
              | _ => None
              end
            else
              match unescape e, parse_string s2 with
              | Some u, Some (t, rest) => Some (String u t, rest)
              | _, _ => None
              end
        | EmptyString => None
        end
      else if (N_of_ascii c <? 32)%N then None
      else
        match parse_string s1 with
        | Some (t, rest) => Some (String c t, rest)
        | None => None
        end
  end.

Definition is_digit (c : ascii) : bool :=
  ((48 <=? N_of_ascii c) && (N_of_ascii c <=? 57))%N.

Fixpoint parse_digits (acc : Z) (s : string) : Z * string :=
  match s with
  | String c s' =>
      if is_digit c
      then parse_digits (10 * acc + Z.of_N (N_of_ascii c - 48)) s'
      else (acc, s)
  | EmptyString => (acc, s)
  end.

(** An integer literal: no leading zero, no fraction, no exponent. *)
Definition parse_int (s : string) : option (Z * string) :=
  match s with
  | String c s' =>
      if is_digit c then
        let '(n, rest) := parse_digits 0 s in
        let leading_zero :=
          (N_of_ascii c =? 48)%N
          && match s' with String c' _ => is_digit c' | _ => false end in
        let continues :=
          match rest with
          | String c' _ =>
              ((N_of_ascii c' =? 46) || (N_of_ascii c' =? 101)
               || (N_of_ascii c' =? 69))%N
          | EmptyString => false
          end in
        if leading_zero || continues then None else Some (n, rest)
      else None
  | EmptyString => None
  end.

Fixpoint strip_prefix (p s : string) : option string :=
  match p, s with
  | EmptyString, _ => Some s
  | String a p', String b s' =>
      if Ascii.eqb a b then strip_prefix p' s' else None
  | _, EmptyString => None
  end.

(** [o[k] = v] while an object literal is read: a repeated key keeps its
    place and takes the later value. *)
Fixpoint obj_set (k : string) (v : jsval) (o : jsobj) : jsobj :=
  match o with
  | [] => [(k, v)]
  | (k', v') :: o' =>
      if String.eqb k k' then (k', v) :: o' else (k', v') :: obj_set k v o'
  end.

Fixpoint parse_value (fuel : nat) (s : string) : option (jsval * string) :=
  match fuel with
  | O => None
  | S n =>
      match skip_ws s with
      | EmptyString => None
      | String c s1 =>
          let k := N_of_ascii c in
          if (k =? 34)%N then
            match parse_string s1 with
            | Some (t, rest) => Some (JStr t, rest)
            | None => None
            end
          else if (k =? 91)%N then
            match skip_ws s1 with
            | String c2 s2 =>
                if (N_of_ascii c2 =? 93)%N then Some (JArr [], s2)
                else
                  match parse_elements n s1 with
                  | Some (xs, rest) => Some (JArr xs, rest)
                  | None => None
                  end
            | EmptyString => None
            end
          else if (k =? 123)%N then
            match skip_ws s1 with
            | String c2 s2 =>
                if (N_of_ascii c2 =? 125)%N then Some (JObj [], s2)
                else
                  match parse_members n [] s1 with
                  | Some (fs, rest) => Some (JObj fs, rest)
                  | None => None
                  end
            | EmptyString => None
            end
          else if (k =? 45)%N then
            match parse_int s1 with
            | Some (z, rest) => Some (JNum (- z), rest)
            | None => None
            end
          else if is_digit c then
            match parse_int (String c s1) with
            | Some (z, rest) => Some (JNum z, rest)
            | None => None
            end
          else
            match strip_prefix "true" (String c s1) with
            | Some rest => Some (JBool true, rest)
            | None =>
                match strip_prefix "false" (String c s1) with
                | Some rest => Some (JBool false, rest)
                | None =>
                    match strip_prefix "null" (String c s1) with
                    | Some rest => Some (JNull, rest)
                    | None => None
                    end
                end
            end
      end
  end

with parse_elements (fuel : nat) (s : string)
  : option (list jsval * string) :=
  match fuel with
  | O => None
  | S n =>
      match parse_value n s with
      | Some (v, s1) =>
          match skip_ws s1 with
          | String c s2 =>
              if (N_of_ascii c =? 93)%N then Some ([v], s2)
              else if (N_of_ascii c =? 44)%N then
                match parse_elements n s2 with
                | Some (vs, rest) => Some (v :: vs, rest)
                | None => None
                end
              else None
          | EmptyString => None
          end
      | None => None
      end
  end

with parse_members (fuel : nat) (acc : jsobj) (s : string)
  : option (jsobj * string) :=
  match fuel with
  | O => None
  | S n =>
      match skip_ws s with
      | String q s0 =>
          if (N_of_ascii q =? 34)%N then
            match parse_string s0 with
            | Some (k, s1) =>
                match skip_ws s1 with
                | String colon s2 =>
                    if (N_of_ascii colon =? 58)%N then
                      match parse_value n s2 with
                      | Some (v, s3) =>
                          match skip_ws s3 with
                          | String c s4 =>
                              if (N_of_ascii c =? 125)%N
                              then Some (obj_set k v acc, s4)
                              else if (N_of_ascii c =? 44)%N
                              then parse_members n (obj_set k v acc) s4
                              else None
                          | EmptyString => None
                          end
                      | None => None
                      end
                    else None
                | EmptyString => None
                end
            | None => None
            end
          else None
      | EmptyString => None
      end
  end.

(** [JSON.parse(text)]; [None] is a SyntaxError. *)
Definition parse (text : string) : option jsval :=
  match parse_value (S (String.length text)) text with
  | Some (v, rest) =>
      match skip_ws rest with
      | EmptyString => Some v
      | _ => None
      end
  | None => None
  end.

End Json.

(** ** [server/routes/membership.js] *)

Module Membership.
Section Membership.
Context `{E : Externals}.
Local Open Scope exec_scope.

(** [JSON.parse(x)] on a value read from the store: the argument is first
    converted to a string. *)
Definition JSON_parse (x : jsval) : M jsval :=
  match Json.parse (toString x) with
  | Some v => ret v
  | None => throw
  end.

(** [plan.features ? JSON.parse(plan.features) : []] *)
Definition parsed_features (plan : row) : M jsval :=
  if truthy (field "features" plan)
  then JSON_parse (field "features" plan)
  else ret (JArr []).

Fixpoint with_parsed_features (plans : list row) : M (list jsval) :=
  match plans with
  | [] => ret []
  | plan :: rest =>
      let* fs := parsed_features plan in
      let* rest' := with_parsed_features rest in
      ret (JObj (Json.obj_set "features" fs (row_json plan)) :: rest')
  end.

(** GET /api/membership *)
Definition get_all (req : request) : M response :=
  try_catch
    (let* plans :=
       if isAdmin req then select_where "membership_plans" (fun _ => true)
       else select_where "membership_plans"
              (fun r => sql_eq (col "is_active" r) (SInt 1)) in
     let* plans := with_parsed_features
                     (order_by (order_le [("sort_order", Asc)]) plans) in
     ret (Response 200 (JArr plans)))
    (ret (fail 500 "Failed to fetch plans")).

(** GET /api/membership/:id *)
Definition get_one (id : Z) (req : request) : M response :=
  try_catch
    (let* found := select_by_id "membership_plans" id in
     match found with
     | None => ret (fail 404 "Plan not found")
     | Some plan =>
         let* fs := parsed_features plan in
         ret (Response 200 (JObj (Json.obj_set "features" fs (row_json plan))))
     end)
    (ret (fail 500 "Failed to fetch plan")).

(** POST /api/membership, after [authenticateToken] *)
Definition post_handler (user : row) (req : request) : M response :=
  let name := prop "name" (body req) in
  let price := prop "price" (body req) in
  let billing_period := prop "billing_period" (body req) in
  let description := prop "description" (body req) in
  let features := prop "features" (body req) in
  let is_featured := prop "is_featured" (body req) in
  let is_active := prop "is_active" (body req) in
  let sort_order := prop "sort_order" (body req) in
  try_catch
    (if negb (truthy name) || negb (defined price) then
       ret (fail 400 "Name and price are required")
     else
       let featuresJson :=
         if isArray features then Json.stringify features
         else or features (JStr "[]") in
       let* ps := bind_params
                    [("name", name);
                     ("price", price);
                     ("billing_period", or billing_period (JStr "month"));
                     ("description", or description (JStr ""));
                     ("features", featuresJson);
                     ("is_featured", flag is_featured);
                     ("is_active",
                      if defined is_active then flag is_active else JNum 1);
                     ("sort_order", or sort_order (JNum 0))] in
       let* id := insert (now req) "membership_plans" ps in
       let* row := select_by_id "membership_plans" id in
       match row with
       | None => throw
       | Some plan =>
           let* fs := JSON_parse (field "features" plan) in
           logActivity req (field "id" user) "create" (JStr "membership_plan")
             (field "id" plan) (JStr ("Created plan: " ++ toString name)) ;;
           ret (Response 201
                  (JObj (Json.obj_set "features" fs (row_json plan))))
       end)
    (ret (fail 500 "Failed to create plan")).

Definition post (req : request) : M response :=
  authenticated req (fun user => post_handler user req).

(** The values PUT binds for the row it found. *)
Definition put_params (b : jsobj) (existing : row)
  : list (string * jsval) :=
  let name := prop "name" b in
  let price := prop "price" b in
  let billing_period := prop "billing_period" b in
  let description := prop "description" b in
  let features := prop "features" b in
  let is_featured := prop "is_featured" b in
  let is_active := prop "is_active" b in
  let sort_order := prop "sort_order" b in
  let featuresJson :=
    if defined features then
      (if isArray features then Json.stringify features else features)
    else field "features" existing in
  [("name", or name (field "name" existing));
   ("price", or_else price (field "price" existing));
   ("billing_period",
    or billing_period (field "billing_period" existing));
   ("description",
    or_else description (field "description" existing));
   ("features", featuresJson);
   ("is_featured",
    if defined is_featured then flag is_featured
    else field "is_featured" existing);
   ("is_active",
    if defined is_active then flag is_active
    else field "is_active" existing);
   ("sort_order",
    or_else sort_order (field "sort_order" existing))].

(** PUT /api/membership/:id, after [authenticateToken] *)
Definition put_handler (id : Z) (user : row) (req : request) : M response :=
  try_catch
    (let* found := select_by_id "membership_plans" id in
     match found with
     | None => ret (fail 404 "Plan not found")
     | Some existing =>
         let* ps := bind_params (put_params (body req) existing) in
         update "membership_plans" id ps ;;
         let* row := select_by_id "membership_plans" id in
         match row with
         | None => throw
         | Some plan =>
             let* fs := JSON_parse (field "features" plan) in
             logActivity req (field "id" user) "update" (JStr "membership_plan")
               (field "id" plan)
               (JStr ("Updated plan: " ++ toString (field "name" plan))) ;;
             ret (Response 200
                    (JObj (Json.obj_set "features" fs (row_json plan))))
         end
     end)
    (ret (fail 500 "Failed to update plan")).

Definition put (id : Z) (req : request) : M response :=
  authenticated req (fun user => put_handler id user req).

(** DELETE /api/membership/:id, after [authenticateToken] *)
Definition delete_handler (id : Z) (user : row) (req : request) : M response :=
  try_catch
    (let* found := select_by_id "membership_plans" id in
     match found with
     | None => ret (fail 404 "Plan not found")
     | Some plan =>
         delete "membership_plans" id ;;
         logActivity req (field "id" user) "delete" (JStr "membership_plan")
           (field "id" plan)
           (JStr ("Deleted plan: " ++ toString (field "name" plan))) ;;
         ret (Response 200 (message_json "Plan deleted successfully"))
     end)
    (ret (fail 500 "Failed to delete plan")).

Definition del (id : Z) (req : request) : M response :=
  authenticated req (fun user => delete_handler id user req).

(** POST /api/membership/inquiry *)
Definition post_inquiry (req : request) : M response :=
  let name := prop "name" (body req) in
  let email := prop "email" (body req) in
  let phone := prop "phone" (body req) in
  let plan_id := prop "plan_id" (body req) in
  let message := prop "message" (body req) in
  try_catch
    (if negb (truthy name) || negb (truthy email) then
       ret (fail 400 "Name and email are required")
     else
       let* ps := bind_params
                    [("name", name);
                     ("email", email);
                     ("phone", or phone (JStr ""));
                     ("plan_id", or plan_id JNull);
                     ("message", or message (JStr ""))] in
       let* id := insert (now req) "membership_inquiries" ps in
       ret (Response 201
              (JObj [("message", JStr "Inquiry submitted successfully");
                     ("id", JNum id)])))
    (ret (fail 500 "Failed to submit inquiry")).

End Membership.
End Membership.

(** ** [server/routes/classes.js] *)

Module Classes.
Section Classes.
Context `{E : Externals}.
Local Open Scope exec_scope.

(** [LEFT JOIN trainers t ON c.trainer_id = t.id], with the columns of
    [t] the query selects under their aliases. *)
Definition join_trainer (aliases : list (string * string))
    (trainers : list row) (c : row) : row :=
  let t := find (fun t => sql_eq (col "trainer_id" c) (row_id t)) trainers in
  (c ++ map (fun a => (snd a,
                       match t with
                       | Some t' => col (fst a) t'
                       | None => SNull
                       end)) aliases)%list.

(** GET /api/classes *)
Definition get_all (req : request) : M response :=
  try_catch
    (let* classes :=
       if isAdmin req then select_where "classes" (fun _ => true)
       else select_where "classes"
              (fun r => sql_eq (col "is_active" r) (SInt 1)) in
     let* trainers := select_where "trainers" (fun _ => true) in
     let joined :=
       map (join_trainer [("name", "trainer_name"); ("photo", "trainer_photo")]
              trainers) classes in
     ret (Response 200
            (rows_json (order_by (order_le [("sort_order", Asc);
                                            ("created_at", Desc)]) joined))))
    (ret (fail 500 "Failed to fetch classes")).

(** GET /api/classes/:id *)
Definition get_one (id : Z) (req : request) : M response :=
  try_catch
    (let* found := select_by_id "classes" id in
     let* trainers := select_where "trainers" (fun _ => true) in
     match found with
     | None => ret (fail 404 "Class not found")
     | Some c =>
         ret (Response 200
                (JObj (row_json
                         (join_trainer [("name", "trainer_name");
                                        ("photo", "trainer_photo");
                                        ("specialty", "trainer_specialty")]
                            trainers c))))
     end)
    (ret (fail 500 "Failed to fetch class")).

(** POST /api/classes, after [authenticateToken] *)
Definition post_handler (user : row) (req : request) : M response :=
  let name := prop "name" (body req) in
  let description := prop "description" (body req) in
  let short_description := prop "short_description" (body req) in
  let image := prop "image" (body req) in
  let trainer_id := prop "trainer_id" (body req) in
  let schedule := prop "schedule" (body req) in
  let duration := prop "duration" (body req) in
  let capacity := prop "capacity" (body req) in
  let price := prop "price" (body req) in
  let difficulty := prop "difficulty" (body req) in
  let is_active := prop "is_active" (body req) in
  let sort_order := prop "sort_order" (body req) in
  try_catch
    (if negb (truthy name) then ret (fail 400 "Name is required")
     else
       let* ps := bind_params
                    [("name", name);
                     ("description", or description (JStr ""));
                     ("short_description", or short_description (JStr ""));
                     ("image", or image (JStr ""));
                     ("trainer_id", or trainer_id JNull);
                     ("schedule", or schedule (JStr ""));
                     ("duration", or duration (JNum 60));
                     ("capacity", or capacity (JNum 20));
                     ("price", or price (JNum 0));
                     ("difficulty", or difficulty (JStr "intermediate"));
                     ("is_active",
                      if defined is_active then flag is_active else JNum 1);
                     ("sort_order", or sort_order (JNum 0))] in
       let* id := insert (now req) "classes" ps in
       let* row := select_by_id "classes" id in
       match row with
       | None => throw
       | Some classItem =>
           logActivity req (field "id" user) "create" (JStr "class")
             (field "id" classItem) (JStr ("Created class: " ++ toString name)) ;;
           ret (Response 201 (JObj (row_json classItem)))
       end)
    (ret (fail 500 "Failed to create class")).

Definition post (req : request) : M response :=
  authenticated req (fun user => post_handler user req).

(** The values PUT binds for the row it found. *)
Definition put_params (b : jsobj) (existing : row)
  : list (string * jsval) :=
  let name := prop "name" b in
  let description := prop "description" b in
  let short_description := prop "short_description" b in
  let image := prop "image" b in
  let trainer_id := prop "trainer_id" b in
  let schedule := prop "schedule" b in
  let duration := prop "duration" b in
  let capacity := prop "capacity" b in
  let price := prop "price" b in
  let difficulty := prop "difficulty" b in
  let is_active := prop "is_active" b in
  let sort_order := prop "sort_order" b in
  [("name", or name (field "name" existing));
   ("description",
    or_else description (field "description" existing));
   ("short_description",
    or_else short_description
      (field "short_description" existing));
   ("image", or_else image (field "image" existing));
   ("trainer_id",
    or_else trainer_id (field "trainer_id" existing));
   ("schedule", or_else schedule (field "schedule" existing));
   ("duration", or_else duration (field "duration" existing));
   ("capacity", or_else capacity (field "capacity" existing));
   ("price", or_else price (field "price" existing));
   ("difficulty",
    or_else difficulty (field "difficulty" existing));
   ("is_active",
    if defined is_active then flag is_active
    else field "is_active" existing);
   ("sort_order",
    or_else sort_order (field "sort_order" existing))].

(** PUT /api/classes/:id, after [authenticateToken] *)
Definition put_handler (id : Z) (user : row) (req : request) : M response :=
  try_catch
    (let* found := select_by_id "classes" id in
     match found with
     | None => ret (fail 404 "Class not found")
     | Some existing =>
         let* ps := bind_params (put_params (body req) existing) in
         update "classes" id ps ;;
         let* row := select_by_id "classes" id in
         match row with
         | None => throw
         | Some classItem =>
             logActivity req (field "id" user) "update" (JStr "class")
               (field "id" classItem)
               (JStr ("Updated class: " ++ toString (field "name" classItem))) ;;
             ret (Response 200 (JObj (row_json classItem)))
         end
     end)
    (ret (fail 500 "Failed to update class")).

Definition put (id : Z) (req : request) : M response :=
  authenticated req (fun user => put_handler id user req).

(** DELETE /api/classes/:id, after [authenticateToken] *)
Definition delete_handler (id : Z) (user : row) (req : request) : M response :=
  try_catch
    (let* found := select_by_id "classes" id in
     match found with
     | None => ret (fail 404 "Class not found")
     | Some classItem =>
         delete "classes" id ;;
         logActivity req (field "id" user) "delete" (JStr "class")
           (field "id" classItem)
           (JStr ("Deleted class: " ++ toString (field "name" classItem))) ;;
         ret (Response 200 (message_json "Class deleted successfully"))
     end)
    (ret (fail 500 "Failed to delete class")).

Definition del (id : Z) (req : request) : M response :=
  authenticated req (fun user => delete_handler id user req).

End Classes.
End Classes.

(** ** [server/routes/settings.js] *)

Module Settings.
Section Settings.
Context `{E : Externals}.
Local Open Scope exec_scope.

Definition by_key (key : string) (r : row) : bool :=
  sql_eq (col "key" r) (SText key).

(** [settings.forEach(s => { settingsObj[s.key] = s.value })] *)
Definition settings_object (settings : list row) : jsobj :=
  fold_left (fun o s => Json.obj_set (toString (field "key" s)) (field "value" s) o)
    settings [].

(** GET /api/settings *)
Definition get_all (req : request) : M response :=
  try_catch
    (let* settings := select_where "settings" (fun _ => true) in
     ret (Response 200 (JObj (settings_object settings))))
    (ret (fail 500 "Failed to fetch settings")).

(** GET /api/settings/:key *)
Definition get_one (key : string) (req : request) : M response :=
  try_catch
    (let* found := select_one "settings" (by_key key) in
     match found with
     | None => ret (fail 404 "Setting not found")
     | Some setting =>
         ret (Response 200 (JObj [("key", field "key" setting);
                                  ("value", field "value" setting)]))
     end)
    (ret (fail 500 "Failed to fetch setting")).

(** [INSERT INTO settings (key, value, type) VALUES (?, ?, 'string')
     ON CONFLICT(key) DO UPDATE SET value = excluded.value] *)
Definition upsert (req : request) (key value : string) : M unit :=
  let* found := select_one "settings" (by_key key) in
  match found with
  | Some r =>
      match row_id r with
      | SInt id => update "settings" id [("value", SText value)]
      | _ => throw
      end
  | None =>
      let* _ := insert (now req) "settings"
                  [("key", SText key); ("value", SText value);
                   ("type", SText "string")] in
      ret tt
  end.

(** PUT /api/settings, after [authenticateToken]; [req.body] is the
    parsed JSON object. *)
Definition put_all_handler (user : row) (req : request) : M response :=
  let updates := body req in
  try_catch
    (let* _ := get_table "settings" in
     transaction
       (for_each (fun kv => upsert req (fst kv) (toString (snd kv))) updates) ;;
     logActivity req (field "id" user) "update" (JStr "settings") JNull
       (JStr ("Updated " ++ pretty (Z.of_nat (length updates)) ++ " settings")) ;;
     let* settings := select_where "settings" (fun _ => true) in
     ret (Response 200 (JObj (settings_object settings))))
    (ret (fail 500 "Failed to update settings")).

Definition put_all (req : request) : M response :=
  authenticated req (fun user => put_all_handler user req).

(** PUT /api/settings/:key, after [authenticateToken] *)
Definition put_one_handler (key : string) (user : row) (req : request)
  : M response :=
  let value := prop "value" (body req) in
  try_catch
    (if negb (defined value) then ret (fail 400 "Value is required")
     else
       upsert req key (toString value) ;;
       logActivity req (field "id" user) "update" (JStr "settings") JNull
         (JStr ("Updated setting: " ++ key)) ;;
       ret (Response 200 (JObj [("key", JStr key);
                                ("value", JStr (toString value))])))
    (ret (fail 500 "Failed to update setting")).

Definition put_one (key : string) (req : request) : M response :=
  authenticated req (fun user => put_one_handler key user req).

End Settings.
End Settings.

(** ** [server/routes/media.js] *)

Module Media.
Section Media.
Context `{E : Externals}.
Local Open Scope exec_scope.

(** PUT /api/media/:id, after [authenticateToken] *)
Definition put_handler (id : Z) (user : row) (req : request) : M response :=
  let alt_text := prop "alt_text" (body req) in
  try_catch
    (let* found := select_by_id "media" id in
     match found with
     | None => ret (fail 404 "Media not found")
     | Some existing =>
         let* ps := bind_params [("alt_text", or alt_text (JStr ""))] in
         update "media" id ps ;;
         let* row := select_by_id "media" id in
         match row with
         | None => ret (Response 200 JUndefined)
         | Some media => ret (Response 200 (JObj (row_json media)))
         end
     end)
    (ret (fail 500 "Failed to update media")).

Definition put (id : Z) (req : request) : M response :=
  authenticated req (fun user => put_handler id user req).

(** The removal of the physical files: [path.extname] throws on a
    filename that is no string, and the file system calls may throw. *)
Definition remove_files (media : row) : M unit :=
  match field "filename" media with
  | JStr filename => if files_removed filename then ret tt else throw
  | _ => throw
  end.

(** DELETE /api/media/:id, after [authenticateToken] *)
Definition delete_handler (id : Z) (user : row) (req : request) : M response :=
  try_catch
    (let* found := select_by_id "media" id in
     match found with
     | None => ret (fail 404 "Media not found")
     | Some media =>
         remove_files media ;;
         delete "media" id ;;
         logActivity req (field "id" user) "delete" (JStr "media")
           (field "id" media)
           (JStr ("Deleted media: "
                  ++ toString (field "original_name" media))) ;;
         ret (Response 200 (message_json "Media deleted successfully"))
     end)
    (ret (fail 500 "Failed to delete media")).

Definition del (id : Z) (req : request) : M response :=
  authenticated req (fun user => delete_handler id user req).

End Media.
End Media.

(** ** [server/routes/contact.js] *)

Module Contact.
Section Contact.
Context `{E : Externals}.
Local Open Scope exec_scope.

(** GET /api/contact/submissions/:id, after [authenticateToken] *)
Definition get_one_handler (id : Z) (user : row) (req : request)
  : M response :=
  try_catch
    (let* found := select_by_id "contact_submissions" id in
     match found with
     | None => ret (fail 404 "Submission not found")
     | Some submission => ret (Response 200 (JObj (row_json submission)))
     end)
    (ret (fail 500 "Failed to fetch submission")).

Definition get_one (id : Z) (req : request) : M response :=
  authenticated req (fun user => get_one_handler id user req).

(** PUT /api/contact/submissions/:id/read, after [authenticateToken] *)
Definition read_handler (id : Z) (user : row) (req : request) : M response :=
  try_catch
    (let* found := select_by_id "contact_submissions" id in
     match found with
     | None => ret (fail 404 "Submission not found")
     | Some submission =>
         update "contact_submissions" id [("is_read", SInt 1)] ;;
         ret (Response 200 (message_json "Marked as read"))
     end)
    (ret (fail 500 "Failed to update submission")).

Definition read (id : Z) (req : request) : M response :=
  authenticated req (fun user => read_handler id user req).

(** DELETE /api/contact/submissions/:id, after [authenticateToken] *)
Definition delete_handler (id : Z) (user : row) (req : request) : M response :=
  try_catch
    (let* found := select_by_id "contact_submissions" id in
     match found with
     | None => ret (fail 404 "Submission not found")
     | Some submission =>
         delete "contact_submissions" id ;;
         logActivity req (field "id" user) "delete" (JStr "contact_submission")
           (field "id" submission)
           (JStr ("Deleted contact from: "
                  ++ toString (field "name" submission))) ;;
         ret (Response 200 (message_json "Submission deleted successfully"))
     end)
    (ret (fail 500 "Failed to delete submission")).

Definition del (id : Z) (req : request) : M response :=
  authenticated req (fun user => delete_handler id user req).

End Contact.
End Contact.

(** ** [server/routes/auth.js] *)

Module AuthRoutes.
Section AuthRoutes.
Context `{E : Externals}.
Local Open Scope exec_scope.

(** One code unit of [String.prototype.toLowerCase]. *)
Definition lower_char (c : ascii) : ascii :=
  let n := N_of_ascii c in
  if ((65 <=? n) && (n <=? 90))%N then ascii_of_N (n + 32)
  else if ((192 <=? n) && (n <=? 222) && negb (n =? 215))%N
       then ascii_of_N (n + 32)
  else c.

Fixpoint toLowerCase (s : string) : string :=
  match s with
  | EmptyString => EmptyString
  | String c s' => String (lower_char c) (toLowerCase s')
  end.

(** [bcrypt.compare(data, hash)] rejects anything but strings. *)
Definition compare_password (data hash : jsval) : M bool :=
  match data, hash with
  | JStr p, JStr h => ret (bcrypt_compare p h)
  | _, _ => throw
  end.

Definition user_summary (user : row) : jsval :=
  JObj [("id", field "id" user); ("email", field "email" user);
        ("name", field "name" user); ("role", field "role" user)].

(** POST /api/auth/login *)
Definition login (req : request) : M response :=
  let email := prop "email" (body req) in
  let password := prop "password" (body req) in
  try_catch
    (if negb (truthy email) || negb (truthy password) then
       ret (fail 400 "Email and password are required")
     else
       let* lowered :=
         match email with
         | JStr e => ret (toLowerCase e)
         | _ => throw
         end in
       let* found := select_one "users"
                       (fun r => sql_eq (col "email" r) (SText lowered)) in
       match found with
       | None => ret (fail 401 "Invalid credentials")
       | Some user =>
           let* validPassword :=
             compare_password password (field "password_hash" user) in
           if negb validPassword then ret (fail 401 "Invalid credentials")
           else
             let* id := bind_param (field "id" user) in
             match id with
             | SInt i => update "users" i [("last_login", SText (now req))]
             | _ => ret tt
             end ;;
             let token :=
               jwt_sign [("userId", field "id" user);
                         ("email", field "email" user);
                         ("role", field "role" user)] "24h" in
             logActivity req (field "id" user) "login" (JStr "user")
               (field "id" user) JNull ;;
             ret (Response 200 (JObj [("token", JStr token);
                                      ("user", user_summary user)]))
       end)
    (ret (fail 500 "Login failed")).

(** POST /api/auth/logout, after [authenticateToken] *)
Definition logout_handler (user : row) (req : request) : M response :=
  logActivity req (field "id" user) "logout" (JStr "user") (field "id" user)
    JNull ;;
  ret (Response 200 (message_json "Logged out successfully")).

Definition logout (req : request) : M response :=
  authenticated req (fun user => logout_handler user req).

(** GET /api/auth/me, after [authenticateToken] *)
Definition me (req : request) : M response :=
  authenticated req
    (fun user => ret (Response 200 (JObj [("user", JObj (row_json user))]))).

(** [x.length < 8]: false when [x] has no length. *)
Definition shorter_than_8 (x : jsval) : bool :=
  match x with
  | JStr s => Z.of_nat (String.length s) <? 8
  | JArr xs => Z.of_nat (length xs) <? 8
  | _ => false
  end.

(** PUT /api/auth/password, after [authenticateToken] *)
Definition password_handler (user : row) (req : request) : M response :=
  let currentPassword := prop "currentPassword" (body req) in
  let newPassword := prop "newPassword" (body req) in
  try_catch
    (if negb (truthy currentPassword) || negb (truthy newPassword) then
       ret (fail 400 "Current and new password are required")
     else if shorter_than_8 newPassword then
       ret (fail 400 "Password must be at least 8 characters")
     else
       let* id := bind_param (field "id" user) in
       let* found := select_one "users"
                       (fun r => sql_eq (row_id r) (store INTEGER id)) in
       match found with
       | None => throw
       | Some stored =>
           let* validPassword :=
             compare_password currentPassword (field "password_hash" stored) in
           if negb validPassword then
             ret (fail 401 "Current password is incorrect")
           else
             let* hashedPassword :=
               match newPassword with
               | JStr p => ret (bcrypt_hash p)
               | _ => throw
               end in
             match id with
             | SInt i => update "users" i [("password_hash", SText hashedPassword)]
             | _ => ret tt
             end ;;
             logActivity req (field "id" user) "password_change" (JStr "user")
               (field "id" user) JNull ;;
             ret (Response 200 (message_json "Password updated successfully"))
       end)
    (ret (fail 500 "Failed to update password")).

Definition password (req : request) : M response :=
  authenticated req (fun user => password_handler user req).

End AuthRoutes.
End AuthRoutes.

(** ** The serverless handlers under [api/] *)

Module Api.
Section Api.
Context `{E : Externals}.
Local Open Scope exec_scope.

(** The libSQL client turns a boolean into 0 or 1 and refuses [undefined],
    arrays and objects. *)
Definition bind_arg (v : jsval) : M sqlval :=
  match v with
  | JNull => ret SNull
  | JBool b => ret (SInt (if b then 1 else 0))
  | JNum n => ret (SInt n)
  | JStr s => ret (SText s)
  | _ => throw
  end.

Fixpoint bind_args (ps : list (string * jsval))
  : M (list (string * sqlval)) :=
  match ps with
  | [] => ret []
  | (k, v) :: ps' =>
      let* v' := bind_arg v in
      let* rest := bind_args ps' in
      ret ((k, v') :: rest)
  end.

(** [CREATE TABLE IF NOT EXISTS] *)
Definition create_table (name : string) (tb : table) : M unit :=
  fun d =>
    match tables d !! name with
    | Some _ => (Some tt, d)
    | None => put_table name tb d
    end.

Definition without_fks (tb : table) : table :=
  Table (t_cols tb) [] (t_rows tb) (t_seq tb).

(** The tables [api/_utils/database.js] declares: those of the server
    without the gallery, media, bulletins, inquiries and the activity log,
    and without foreign keys. *)
Definition api_tables : list (string * table) :=
  [("users", Schema.users); ("pages", Schema.pages);
   ("blog_posts", without_fks Schema.blog_posts);
   ("trainers", Schema.trainers);
   ("classes", without_fks Schema.classes);
   ("membership_plans", Schema.membership_plans);
   ("testimonials", Schema.testimonials);
   ("contact_submissions", Schema.contact_submissions);
   ("settings", Schema.settings)].

(** [SELECT COUNT( * ) as count FROM t] *)
Definition count (t : string) : M Z :=
  let* rs := select_where t (fun _ => true) in ret (Z.of_nat (length rs)).

Definition defaultSettings : list (string * string) :=
  [("site_title", "PowerHouse Gym Chitwan");
   ("site_tagline", "Transform Your Body, Transform Your Life");
   ("contact_email", "info@powerhousegym.com");
   ("contact_phone", "+977-9800000000");
   ("contact_address", "Narayangadh, Chitwan, Nepal");
   ("primary_color", "#ff4d4d");
   ("hero_title", "BUILD YOUR BODY & PUSH YOUR LIMITS")].

Definition defaultPlans : list (string * Z * string * list string * Z) :=
  [("Basic", 2000, "Perfect for beginners",
    ["Gym Access"; "Locker Room"; "Basic Equipment"], 0);
   ("Premium", 3500, "Most popular choice",
    ["All Equipment"; "Group Classes"; "Fitness Assessment"], 1);
   ("Elite", 5000, "For serious athletes",
    ["Everything in Premium"; "Personal Training"; "Nutrition Plan"], 0)].

Definition env_or (name default : string) : string :=
  match process_env name with
  | Some v => if String.eqb v "" then default else v
  | None => default
  end.

Definition seedDefaultData (now : string) : M unit :=
  let* users := count "users" in
  (if users =? 0 then
     let* _ := insert now "users"
                 [("email", SText (env_or "ADMIN_EMAIL" "admin@powerhousegym.com"));
                  ("password_hash",
                   SText (bcrypt_hash (env_or "ADMIN_PASSWORD" "admin123")));
                  ("name", SText "Admin");
                  ("role", SText "super_admin")] in
     ret tt
   else ret tt) ;;
  let* settings := count "settings" in
  (if settings =? 0 then
     for_each (fun kv =>
                 let* _ := insert now "settings"
                             [("key", SText (fst kv)); ("value", SText (snd kv))] in
                 ret tt) defaultSettings
   else ret tt) ;;
  let* plans := count "membership_plans" in
  (if plans =? 0 then
     for_each (fun p =>
                 let '(name, price, description, features, featured) := p in
                 let* _ := insert now "membership_plans"
                             [("name", SText name); ("price", SInt price);
                              ("billing_period", SText "month");
                              ("description", SText description);
                              ("features",
                               SText (Json.stringify_value
                                        (JArr (map JStr features))));
                              ("is_featured", SInt featured)] in
                 ret tt) defaultPlans
   else ret tt).

Definition initDatabase (now : string) : M unit :=
  for_each (fun nt => create_table (fst nt) (snd nt)) api_tables ;;
  seedDefaultData now.

(** [authenticateToken(req)] of [api/_utils/auth.js]: the decoded claims,
    or the error to send. *)
Definition authenticateToken (req : request) : response + jsobj :=
  match bearer_token req with
  | None => inl (fail 401 "Access token required")
  | Some token =>
      match jwt_verify token with
      | Verified user => inr user
      | _ => inl (fail 403 "Invalid or expired token")
      end
  end.

(** [generateToken(user)] *)
Definition generateToken (user : row) : string :=
  jwt_sign [("id", field "id" user); ("email", field "email" user);
            ("role", field "role" user)] "7d".

(** [api/auth/login.js] *)
Definition login (method : string) (req : request) : M response :=
  if String.eqb method "OPTIONS" then ret (Response 200 JUndefined)
  else
    initDatabase (now req) ;;
    if String.eqb method "POST" then
      let email := prop "email" (body req) in
      let password := prop "password" (body req) in
      if negb (truthy email) || negb (truthy password) then
        ret (fail 400 "Email and password required")
      else
        try_catch
          (let* e := bind_arg email in
           let* found := select_one "users"
                           (fun r => sql_eq (col "email" r) (store TEXT e)) in
           match found with
           | None => ret (fail 401 "Invalid credentials")
           | Some user =>
               let* validPassword :=
                 AuthRoutes.compare_password password
                   (field "password_hash" user) in
               if negb validPassword then ret (fail 401 "Invalid credentials")
               else
                 let* id := bind_arg (field "id" user) in
                 match id with
                 | SInt i => update "users" i [("last_login", SText (now req))]
                 | _ => ret tt
                 end ;;
                 ret (Response 200
                        (JObj [("token", JStr (generateToken user));
                               ("user", AuthRoutes.user_summary user)]))
           end)
          (ret (fail 500 "Login failed"))
    else ret (fail 405 "Method not allowed").

(** [INSERT OR REPLACE INTO t (k1, ..) VALUES (v1, ..)]: rows that hold the
    new row's value in a UNIQUE column are deleted first. *)
Definition insert_or_replace (now : string) (t : string)
    (asg : list (string * sqlval)) : M Z :=
  fun d =>
    match tables d !! t with
    | None => (None, d)
    | Some tb =>
        let id := next_id tb in
        let r := new_row id now (t_cols tb) (coerce (t_cols tb) asg) in
        if known_cols (t_cols tb) asg && notnull_ok (t_cols tb) r
           && fk_ok d (t_fks tb) r
        then
          let kept := List.filter (fun r' => unique_ok (t_cols tb) [r'] r)
                        (t_rows tb) in
          (Some id,
           Database (<[t := Table (t_cols tb) (t_fks tb) (kept ++ [r]) id]>
                       (tables d))
                    (foreign_keys d))
        else (None, d)
    end.

(** [api/settings.js] *)
Definition settings (method : string) (req : request) : M response :=
  if String.eqb method "OPTIONS" then ret (Response 200 JUndefined)
  else
    initDatabase (now req) ;;
    if String.eqb method "GET" then
      try_catch
        (let* rows := select_where "settings" (fun _ => true) in
         ret (Response 200 (JObj (Settings.settings_object rows))))
        (ret (fail 500 "Failed to fetch settings"))
    else if String.eqb method "PUT" then
      match authenticateToken req with
      | inl r => ret r
      | inr _ =>
          try_catch
            (for_each (fun kv =>
                         let* v := bind_arg (snd kv) in
                         let* _ := insert_or_replace (now req) "settings"
                                     [("key", SText (fst kv)); ("value", v)] in
                         ret tt) (body req) ;;
             ret (Response 200 (message_json "Settings updated")))
            (ret (fail 500 "Failed to update settings"))
      end
    else ret (fail 405 "Method not allowed").

(** [api/testimonials.js] *)
Definition testimonials (method : string) (req : request) : M response :=
  if String.eqb method "OPTIONS" then ret (Response 200 JUndefined)
  else
    initDatabase (now req) ;;
    if String.eqb method "GET" then
      try_catch
        (let* rows := select_where "testimonials"
                        (fun r => sql_eq (col "is_approved" r) (SInt 1)) in
         ret (Response 200
                (rows_json (order_by (order_le [("sort_order", Asc)]) rows))))
        (ret (fail 500 "Failed to fetch testimonials"))
    else if String.eqb method "POST" then
      match authenticateToken req with
      | inl r => ret r
      | inr _ =>
          let client_name := prop "client_name" (body req) in
          let client_photo := prop "client_photo" (body req) in
          let client_title := prop "client_title" (body req) in
          let content := prop "content" (body req) in
          let rating := prop "rating" (body req) in
          let is_approved := prop "is_approved" (body req) in
          if negb (truthy client_name) || negb (truthy content) then
            ret (fail 400 "Client name and content required")
          else
            try_catch
              (let* ps := bind_args
                            [("client_name", client_name);
                             ("client_photo", or client_photo (JStr ""));
                             ("client_title", or client_title (JStr ""));
                             ("content", content);
                             ("rating", or rating (JNum 5));
                             ("is_approved", flag is_approved)] in
               let* id := insert (now req) "testimonials" ps in
               ret (Response 201
                      (JObj [("id", JNum id);
                             ("message", JStr "Testimonial created")])))
              (ret (fail 500 "Failed to create testimonial"))
      end
    else ret (fail 405 "Method not allowed").

(** [api/trainers.js] *)
Definition trainers (method : string) (req : request) : M response :=
  if String.eqb method "OPTIONS" then ret (Response 200 JUndefined)
  else
    initDatabase (now req) ;;
    if String.eqb method "GET" then
      try_catch
        (let* rows := select_where "trainers"
                        (fun r => sql_eq (col "is_active" r) (SInt 1)) in
         ret (Response 200
                (rows_json (order_by (order_le [("sort_order", Asc)]) rows))))
        (ret (fail 500 "Failed to fetch trainers"))
    else if String.eqb method "POST" then
      match authenticateToken req with
      | inl r => ret r
      | inr _ =>
          let name := prop "name" (body req) in
          let specialty := prop "specialty" (body req) in
          let bio := prop "bio" (body req) in
          let photo := prop "photo" (body req) in
          let email := prop "email" (body req) in
          let is_active := prop "is_active" (body req) in
          if negb (truthy name) then ret (fail 400 "Name is required")
          else
            try_catch
              (let* ps := bind_args
                            [("name", name);
                             ("specialty", or specialty (JStr ""));
                             ("bio", or bio (JStr ""));
                             ("photo", or photo (JStr ""));
                             ("email", or email (JStr ""));
                             ("is_active",
                              JNum (if strict_eq is_active (JBool false)
                                    then 0 else 1))] in
               let* id := insert (now req) "trainers" ps in
               ret (Response 201
                      (JObj [("id", JNum id);
                             ("message", JStr "Trainer created")])))
              (ret (fail 500 "Failed to create trainer"))
      end
    else ret (fail 405 "Method not allowed").

(** [api/membership.js] *)
Definition membership (method : string) (req : request) : M response :=
  if String.eqb method "OPTIONS" then ret (Response 200 JUndefined)
  else
    initDatabase (now req) ;;
    if String.eqb method "GET" then
      try_catch
        (let* rows := select_where "membership_plans"
                        (fun r => sql_eq (col "is_active" r) (SInt 1)) in
         let* plans := Membership.with_parsed_features
                         (order_by (order_le [("sort_order", Asc)]) rows) in
         ret (Response 200 (JArr plans)))
        (ret (fail 500 "Failed to fetch plans"))
    else if String.eqb method "POST" then
      match authenticateToken req with
      | inl r => ret r
      | inr _ =>
          let name := prop "name" (body req) in
          let price := prop "price" (body req) in
          let billing_period := prop "billing_period" (body req) in
          let description := prop "description" (body req) in
          let features := prop "features" (body req) in
          let is_featured := prop "is_featured" (body req) in
          if negb (truthy name) || negb (defined price) then
            ret (fail 400 "Name and price required")
          else
            try_catch
              (let* ps := bind_args
                            [("name", name);
                             ("price", price);
                             ("billing_period", or billing_period (JStr "month"));
                             ("description", or description (JStr ""));
                             ("features",
                              Json.stringify (or features (JArr [])));
                             ("is_featured", flag is_featured)] in
               let* id := insert (now req) "membership_plans" ps in
               ret (Response 201
                      (JObj [("id", JNum id); ("message", JStr "Plan created")])))
              (ret (fail 500 "Failed to create plan"))
      end
    else ret (fail 405 "Method not allowed").

End Api.
End Api.

(** ** A small populated store, for concrete runs *)

Module Demo.

Definition externals : Externals := {|
  jwt_verify := fun t =>
    if String.eqb t "admin-token" then Verified [("userId", JNum 1)]
    else if String.eqb t "old-token" then TokenExpired
    else TokenInvalid;
  jwt_sign := fun _ ttl => ("signed:" ++ ttl)%string;
  bcrypt_compare := fun p h => String.eqb h ("hash:" ++ p);
  bcrypt_hash := fun p => ("hash:" ++ p)%string;
  date_in_future := fun _ => false;
  process_env := fun _ => None;
  files_removed := fun _ => true
|}.

Definition clock : string := "2024-06-01 12:00:00".

(** The store after [initDatabase] created the tables of the server. *)
Definition fresh : database :=
  Database (list_to_map Schema.server_tables) true.

Definition seed (t : string) (asg : list (string * sqlval)) (d : database)
  : database :=
  snd (insert "2024-01-01 00:00:00" t asg d).

Definition store : database :=
  seed "settings" [("key", SText "site_title"); ("value", SText "PowerHouse");
                   ("type", SText "string")]
  (seed "membership_plans"
     [("name", SText "Basic"); ("price", SInt 2000);
      ("features", SText "[]")]
  (seed "blog_posts"
     [("title", SText "Draft"); ("slug", SText "draft");
      ("status", SText "draft"); ("publish_date", SText "2024-01-01T00:00:00.000Z");
      ("author_id", SInt 1)]
  (seed "blog_posts"
     [("title", SText "Hello"); ("slug", SText "hello");
      ("status", SText "published");
      ("publish_date", SText "2024-01-01T00:00:00.000Z"); ("author_id", SInt 1)]
  (seed "pages"
     [("title", SText "Secret"); ("slug", SText "secret");
      ("is_published", SInt 0)]
  (seed "pages"
     [("title", SText "About"); ("slug", SText "about");
      ("is_published", SInt 1)]
  (seed "gallery_images"
     [("album_id", SInt 2); ("file_path", SText "/uploads/c.jpg")]
  (seed "gallery_images"
     [("album_id", SInt 1); ("file_path", SText "/uploads/b.jpg")]
  (seed "gallery_images"
     [("album_id", SInt 1); ("file_path", SText "/uploads/a.jpg")]
  (seed "gallery_albums" [("name", SText "Old gym"); ("is_active", SInt 0)]
  (seed "gallery_albums" [("name", SText "Opening day")]
  (seed "trainers" [("name", SText "Bikash"); ("is_active", SInt 0)]
  (seed "trainers" [("name", SText "Sita")]
  (seed "testimonials"
     [("client_name", SText "Hari"); ("content", SText "Pending review");
      ("is_approved", SInt 0)]
  (seed "testimonials"
     [("client_name", SText "Ann"); ("content", SText "Great gym");
      ("is_approved", SInt 1)]
  (seed "users"
     [("email", SText "admin@powerhousegym.com");
      ("password_hash", SText "hash:admin123"); ("name", SText "Admin");
      ("role", SText "super_admin")]
     fresh))))))))))))))).

(** A request without credentials and one carrying the administrator's
    token. *)
Definition anonymous (body : jsobj) : request :=
  Request None body [] "203.0.113.7" clock "2024-06-01T12:00:00.000Z"
    eq_refl.

Definition admin (body : jsobj) : request :=
  Request (Some "Bearer admin-token") body [] "203.0.113.7" clock
    "2024-06-01T12:00:00.000Z" eq_refl.

(** The administrator as [authenticateToken] attaches it to the request. *)
Definition admin_user : row :=
  [("id", SInt 1); ("email", SText "admin@powerhousegym.com");
   ("name", SText "Admin"); ("role", SText "super_admin")].

End Demo.

(** ** Views of the store used to state properties *)

Module View.

Definition rows_of (t : string) (d : database) : list row :=
  match tables d !! t with
  | Some tb => t_rows tb
  | None => []
  end.

(** The row of [t] that [SELECT * FROM t WHERE p] finds first. *)
Definition first_where (t : string) (p : row -> bool) (d : database)
  : option row :=
  find p (rows_of t d).

(** The row of [t] that [WHERE id = ?] finds. *)
Definition stored (t : string) (id : Z) (d : database) : option row :=
  first_where t (has_id id) d.

(** The rows of the activity log. *)
Definition journal (d : database) : list row := rows_of "activity_logs" d.

(** The columns of table [t], and the values of a statement on [t] as its
    columns store them. *)
Definition cols_of (t : string) (d : database) : list column :=
  match tables d !! t with
  | Some tb => t_cols tb
  | None => []
  end.

Definition written (t : string) (d : database) (asg : list (string * sqlval))
  : list (string * sqlval) :=
  coerce (cols_of t d) asg.

Definition has_column (k : string) (cols : list column) : bool :=
  existsb (fun c => String.eqb k (c_name c)) cols.


(** The slug test of the two slug-bearing PUT handlers: a truthy slug that
    differs from the stored one. *)
Definition slug_changes (b : jsobj) (existing : row) : bool :=
  truthy (prop "slug" b)
  && negb (strict_eq (prop "slug" b) (field "slug" existing)).

(** Another row of [t] than [id] holds the slug [s]. *)
Definition slug_taken (t : string) (id : Z) (s : sqlval) (d : database)
  : bool :=
  present (first_where t
             (fun r => sql_eq (col "slug" r) (store TEXT s)
                       && negb (has_id id r)) d).

(** *** Integrity of a table

    What the declarations of a table promise of its rows: each row has the
    declared columns and an integer id, NOT NULL columns hold a value, each
    value is in the form its column stores, ids and UNIQUE columns do not
    repeat, and no id exceeds the AUTOINCREMENT counter. *)

Definition int_id (r : row) : bool :=
  match row_id r with SInt _ => true | _ => false end.

Definition row_fits (cols : list column) (r : row) : bool :=
  bool_decide (map fst r = "id" :: map c_name cols).

Fixpoint distinct_rows (cols : list column) (rs : list row) : bool :=
  match rs with
  | [] => true
  | r :: rest =>
      negb (existsb (fun r' => sql_eq (row_id r') (row_id r)) rest)
      && unique_ok cols rest r
      && distinct_rows cols rest
  end.

(** Each value of [r] is in the form its column stores. *)
Definition conforms (cols : list column) (r : row) : bool :=
  forallb (fun c => sqlval_eqb (store (c_type c) (col (c_name c) r))
                      (col (c_name c) r)) cols.

Definition table_ok (tb : table) : bool :=
  forallb (fun r => row_fits (t_cols tb) r && int_id r
                    && notnull_ok (t_cols tb) r
                    && conforms (t_cols tb) r) (t_rows tb)
  && distinct_rows (t_cols tb) (t_rows tb)
  && (max_id (t_rows tb) <=? t_seq tb).

(** The declaration of a table: its columns and foreign keys. *)
Definition declared (tb : table) : list column * list foreign_key :=
  (t_cols tb, t_fks tb).

(** A store of the server: the tables [initDatabase] declares, with
    foreign keys enforced. *)
Definition server_store (d : database) : Prop :=
  foreign_keys d = true
  /\ declared <$> tables d = declared <$> list_to_map Schema.server_tables.

End View.
Export View.

(** ** The PUT routes, field by field

    How a PUT handler takes a field [X] of the body over the stored value:
    [X !== undefined ? X : old], [X || old], [X !== undefined ? (X ? 1 : 0)
    : old], and for the features of a plan [X !== undefined ?
    (Array.isArray(X) ? JSON.stringify(X) : X) : old]. *)







(** Why a PUT that found its row answers 500. *)
Definition update_failed (t : string) (id : Z) (ps : list (string * jsval))
    (g : list (string * sqlval) -> list (string * sqlval)) (d : database)
  : Prop :=
  bound_all ps = None
  \/ exists asg, bound_all ps = Some asg /\ update t id (g asg) d = (None, d).

(** Why a PUT of a page or a post that found its row answers 500. *)
Definition slug_update_failed (t : string) (id : Z) (b : jsobj)
    (existing : row) (ps : list (string * jsval)) (stamp : string)
    (d : database) : Prop :=
  slug_changes b existing = true /\ bound (prop "slug" b) = None
  \/ update_failed t id ps
       (fun asg => (asg ++ [("updated_at", SText stamp)])%list) d.

(** The foreign keys of the server's tables, by table. *)
Definition server_fks : list (string * list foreign_key) :=
  map (fun nt => (fst nt, t_fks (snd nt))) Schema.server_tables.

Section Shapes.
Local Open Scope exec_scope.

(** The shape shared by the DELETE handlers. *)
Definition delete_route (t : string) (id : Z) (req : request) (uid et : jsval)
    (eid details : row -> jsval) (missing done failed : response)
  : M response :=
  try_catch
    (let* found := select_by_id t id in
     match found with
     | None => ret missing
     | Some x =>
         delete t id ;;
         logActivity req uid "delete" et (eid x) (details x) ;;
         ret done
     end)
    (ret failed).

End Shapes.



(** * Verification *)

(** ** Running statements *)

Section Running.
Local Open Scope exec_scope.

Lemma head_filter {A} (p : A -> bool) (l : list A) :
  head (List.filter p l) = find p l.
Proof.
  induction l as [|x l IH]; simpl; [reflexivity|].
  destruct (p x); simpl; auto.
Qed.

Lemma rows_of_some t d tb :
  tables d !! t = Some tb -> rows_of t d = t_rows tb.
Proof. intros Ht. unfold rows_of. now rewrite Ht. Qed.

Lemma first_where_table t p d r :
  first_where t p d = Some r -> exists tb, tables d !! t = Some tb.
Proof.
  unfold first_where, rows_of.
  destruct (tables d !! t) as [tb|]; [eauto | discriminate].
Qed.

Lemma select_where_run t p d tb :
  tables d !! t = Some tb ->
  select_where t p d = (Some (List.filter p (t_rows tb)), d).
Proof. intros Ht. unfold select_where, bind, get_table, ret. now rewrite Ht. Qed.

Lemma select_where_missing t p d :
  tables d !! t = None -> select_where t p d = (None, d).
Proof. intros Ht. unfold select_where, bind, get_table, ret. now rewrite Ht. Qed.

Lemma select_one_run t p d tb :
  tables d !! t = Some tb ->
  select_one t p d = (Some (first_where t p d), d).
Proof.
  intros Ht. unfold select_one, bind, ret.
  rewrite (select_where_run _ _ _ _ Ht), head_filter.
  unfold first_where. now rewrite (rows_of_some _ _ _ Ht).
Qed.

Lemma select_one_found t p d r :
  first_where t p d = Some r -> select_one t p d = (Some (Some r), d).
Proof.
  intros Hr. destruct (first_where_table _ _ _ _ Hr) as [tb Ht].
  rewrite (select_one_run _ _ _ _ Ht). now rewrite Hr.
Qed.

Lemma select_by_id_found t id d r :
  stored t id d = Some r -> select_by_id t id d = (Some (Some r), d).
Proof. apply select_one_found. Qed.

(** Reading never writes. *)
Lemma select_one_cases t p d :
  select_one t p d = (None, d) /\ tables d !! t = None
  \/ select_one t p d = (Some (first_where t p d), d)
     /\ is_Some (tables d !! t).
Proof.
  destruct (tables d !! t) as [tb|] eqn:Ht.
  - right. split; [now apply (select_one_run _ _ _ tb) | eauto].
  - left. split; [|reflexivity].
    unfold select_one, bind. now rewrite (select_where_missing _ _ _ Ht).
Qed.

Lemma select_one_pure t p d : snd (select_one t p d) = d.
Proof.
  unfold select_one, select_where, bind, get_table, ret.
  now destruct (tables d !! t).
Qed.

End Running.

(** ** Single-item reads *)

Section SingleReads.
Context `{E : Externals}.
Local Open Scope exec_scope.

Lemma pages_get_one_run slug req d page :
  first_where "pages" (Pages.by_slug (SText slug)) d = Some page ->
  Pages.get_one slug req d =
  (Some (if negb (truthy (field "is_published" page)) && negb (isAdmin req)
         then fail 404 "Page not found"
         else Response 200 (JObj (row_json page))), d).
Proof.
  intros Hp. unfold Pages.get_one, try_catch, bind.
  rewrite (select_one_found _ _ _ _ Hp).
  now destruct (negb (truthy (field "is_published" page)) && negb (isAdmin req)).
Qed.

Lemma blog_get_one_run slug user req d post :
  first_where "blog_posts" (Blog.by_slug (SText slug)) d = Some post ->
  Blog.get_one_handler slug user req d =
  (Some (if negb (present user)
            && (negb (strict_eq (field "status" post) (JStr "published"))
                || date_in_future (field "publish_date" post))
         then fail 404 "Post not found"
         else Response 200 (JObj (row_json post))), d).
Proof.
  intros Hp. unfold Blog.get_one_handler, try_catch, bind.
  rewrite (select_one_found _ _ _ _ Hp).
  now destruct (negb (present user) && _).
Qed.

Lemma testimonials_get_one_run id req d t :
  stored "testimonials" id d = Some t ->
  Testimonials.get_one id req d = (Some (Response 200 (JObj (row_json t))), d).
Proof.
  intros Ht. unfold Testimonials.get_one, try_catch, bind.
  now rewrite (select_by_id_found _ _ _ _ Ht).
Qed.

Lemma trainers_get_one_run id req d t :
  stored "trainers" id d = Some t ->
  Trainers.get_one id req d = (Some (Response 200 (JObj (row_json t))), d).
Proof.
  intros Ht. unfold Trainers.get_one, try_catch, bind.
  now rewrite (select_by_id_found _ _ _ _ Ht).
Qed.

(** C2, as the code has it. The two slug-addressed reads apply the
    visibility rule: a page that is not published is NotFound to a request
    without a bearer header and is returned to one with it; a blog post that
    is not published, or whose publish date lies in the future, is NotFound
    when [optionalAuth] resolved no user and is returned when it resolved
    one. The id-addressed reads of testimonials and trainers return the
    stored record to every caller, whatever its flag. *)
Theorem C2_single_reads (d : database) (req : request) :
  (forall slug page,
      first_where "pages" (Pages.by_slug (SText slug)) d = Some page ->
      truthy (field "is_published" page) = false ->
      Pages.get_one slug req d =
      (Some (if isAdmin req then Response 200 (JObj (row_json page))
             else fail 404 "Page not found"), d))
  /\ (forall slug post user,
         first_where "blog_posts" (Blog.by_slug (SText slug)) d = Some post ->
         strict_eq (field "status" post) (JStr "published") = false
         \/ date_in_future (field "publish_date" post) = true ->
         Blog.get_one_handler slug user req d =
         (Some (if present user then Response 200 (JObj (row_json post))
                else fail 404 "Post not found"), d))
  /\ (forall id t,
         stored "testimonials" id d = Some t ->
         Testimonials.get_one id req d =
         (Some (Response 200 (JObj (row_json t))), d))
  /\ (forall id t,
         stored "trainers" id d = Some t ->
         Trainers.get_one id req d =
         (Some (Response 200 (JObj (row_json t))), d)).
Proof.
  repeat split.
  - intros slug page Hp Hflag.
    rewrite (pages_get_one_run _ _ _ _ Hp), Hflag.
    now destruct (isAdmin req).
  - intros slug post user Hp Hhidden.
    rewrite (blog_get_one_run _ _ _ _ _ Hp).
    destruct (present user); simpl; [reflexivity|].
    destruct Hhidden as [-> | ->]; simpl; [reflexivity|].
    now rewrite orb_true_r.
  - intros id t. apply testimonials_get_one_run.
  - intros id t. apply trainers_get_one_run.
Qed.

End SingleReads.

(** An unapproved testimonial and an inactive trainer are handed to a
    caller without credentials: the reads by id do not return NotFound. *)
Lemma C2_counterexample :
  col "is_approved" [("id", SInt 2); ("client_name", SText "Hari");
                     ("client_photo", SNull); ("client_title", SNull);
                     ("content", SText "Pending review"); ("rating", SInt 5);
                     ("is_approved", SInt 0); ("sort_order", SInt 0);
                     ("created_at", SText "2024-01-01 00:00:00")] = SInt 0
  /\ fst (Testimonials.get_one 2 (Demo.anonymous []) Demo.store) =
     Some (Response 200
             (JObj [("id", JNum 2); ("client_name", JStr "Hari");
                    ("client_photo", JNull); ("client_title", JNull);
                    ("content", JStr "Pending review"); ("rating", JNum 5);
                    ("is_approved", JNum 0); ("sort_order", JNum 0);
                    ("created_at", JStr "2024-01-01 00:00:00")]))
  /\ option_map status (fst (Trainers.get_one 2 (Demo.anonymous []) Demo.store))
     = Some 200
  /\ option_map (col "is_active") (stored "trainers" 2 Demo.store)
     = Some (SInt 0).
Proof. vm_compute. repeat split. Qed.

Lemma C2_single_reads_witness :
  Pages.get_one "secret" (Demo.anonymous []) Demo.store =
  (Some (fail 404 "Page not found"), Demo.store)
  /\ Blog.get_one_handler (E := Demo.externals) "draft" None
       (Demo.anonymous []) Demo.store =
     (Some (fail 404 "Post not found"), Demo.store).
Proof.
  destruct (C2_single_reads (E := Demo.externals) Demo.store (Demo.anonymous []))
    as (Hpages & Hblog & _ & _).
  split.
  - refine (Hpages "secret" _ _ _); vm_compute; reflexivity.
  - refine (Hblog "draft" _ None _ _); [vm_compute; reflexivity|].
    left. vm_compute. reflexivity.
Defined.

(** ** Rows, parameters and writes *)

Lemma pair_eq_inv {A B} (a c : A) (b d : B) :
  (a, b) = (c, d) -> a = c /\ b = d.
Proof. intros Heq. now injection Heq. Qed.

Ltac in_cases H :=
  repeat (destruct H as [H | H];
          [apply pair_eq_inv in H; destruct H as [<- <-] |]);
  [..| destruct H].

Section Rows.

Lemma eqb_neq_false (a b : string) : a <> b -> String.eqb a b = false.
Proof. intros Hne. now apply String.eqb_neq. Qed.

Lemma col_set_col_ne k c v r : k <> c -> col c (set_col k v r) = col c r.
Proof.
  intros Hne. induction r as [|[k' v'] r IH]; simpl; [reflexivity|].
  destruct (String.eqb k k') eqn:Hk; simpl.
  - apply String.eqb_eq in Hk. subst k'.
    now rewrite (eqb_neq_false c k) by congruence.
  - destruct (String.eqb c k'); [reflexivity | apply IH].
Qed.

Lemma col_set_col_eq c v r :
  col c (set_col c v r) = if has_col c r then v else SNull.
Proof.
  induction r as [|[k' v'] r IH]; simpl; [reflexivity|].
  destruct (String.eqb c k') eqn:Hk; simpl; rewrite Hk; simpl; auto.
Qed.

Lemma col_absent c r : has_col c r = false -> col c r = SNull.
Proof.
  induction r as [|[k' v'] r IH]; simpl; [reflexivity|].
  destruct (String.eqb c k'); simpl; [discriminate | exact IH].
Qed.

Lemma set_col_id k r : set_col k (col k r) r = r.
Proof.
  induction r as [|[k' v'] r IH]; simpl; [reflexivity|].
  destruct (String.eqb k k') eqn:Hk; simpl; [reflexivity | now rewrite IH].
Qed.

Lemma col_set_col_keep k c v r :
  (k = c -> v = col c r) -> col c (set_col k v r) = col c r.
Proof.
  intros Hv. destruct (String.eqb_spec k c) as [->|Hne].
  - rewrite col_set_col_eq, (Hv eq_refl).
    destruct (has_col c r) eqn:Hc; [reflexivity|].
    symmetry. now apply col_absent.
  - now apply col_set_col_ne.
Qed.

Lemma col_set_cols_keep asg c r :
  Forall (fun kv => fst kv = c -> snd kv = col c r) asg ->
  col c (set_cols asg r) = col c r.
Proof.
  unfold set_cols. revert r.
  induction asg as [|[k v] asg IH]; intros r Hall; simpl; [reflexivity|].
  inversion Hall as [|? ? Hkv Hrest]; subst. simpl in Hkv.
  rewrite IH.
  - now apply col_set_col_keep.
  - eapply Forall_impl; [exact Hrest|].
    intros [k' v'] Hk' Heq. simpl in *.
    rewrite (Hk' Heq). symmetry. now apply col_set_col_keep.
Qed.

Lemma set_cols_id asg r :
  Forall (fun kv => snd kv = col (fst kv) r) asg -> set_cols asg r = r.
Proof.
  unfold set_cols.
  induction asg as [|[k v] asg IH]; intros Hall; simpl; [reflexivity|].
  inversion Hall as [|? ? Hkv Hrest]; subst. simpl in Hkv. subst v.
  rewrite set_col_id. now apply IH.
Qed.

End Rows.

Section Binding.


Lemma bind_param_run v d : bind_param v d = (bound v, d).
Proof. now destruct v. Qed.

Lemma bind_params_run ps d : bind_params ps d = (bound_all ps, d).
Proof.
  induction ps as [|[k v] ps IH]; simpl; [reflexivity|].
  unfold bind. rewrite bind_param_run.
  destruct (bound v); [|reflexivity].
  rewrite IH. now destruct (bound_all ps).
Qed.

Lemma bound_js_of_sql v : bound (js_of_sql v) = Some v.
Proof. now destruct v. Qed.

Lemma field_col k r : field k r = js_of_sql (col k r) \/ (has_col k r = false /\ field k r = JUndefined).
Proof.
  unfold field. induction r as [|[k' v'] r IH]; simpl.
  - right. auto.
  - destruct (String.eqb k k'); simpl; [left; reflexivity | exact IH].
Qed.

Lemma bound_all_inv ps asg :
  bound_all ps = Some asg ->
  Forall2 (fun p a => fst a = fst p /\ bound (snd p) = Some (snd a)) ps asg.
Proof.
  revert asg. induction ps as [|[k v] ps IH]; simpl; intros asg Hb.
  - injection Hb as <-. constructor.
  - destruct (bound v) as [v'|] eqn:Hv; [|discriminate].
    destruct (bound_all ps) as [rest|]; [|discriminate].
    injection Hb as <-. constructor; [now split | now apply IH].
Qed.

Lemma bound_all_keys ps asg :
  bound_all ps = Some asg -> map fst asg = map fst ps.
Proof.
  revert asg. induction ps as [|[k v] ps IH]; simpl; intros asg Hb.
  - now injection Hb as <-.
  - destruct (bound v); [|discriminate].
    destruct (bound_all ps); [|discriminate].
    injection Hb as <-. simpl. f_equal. now apply IH.
Qed.

Lemma col_set_cols_other asg c r :
  ~ In c (map fst asg) -> col c (set_cols asg r) = col c r.
Proof.
  intros Hc. apply col_set_cols_keep. apply Forall_forall.
  intros [k v] Hin Hk. simpl in Hk. subst k. exfalso. apply Hc.
  apply in_map_iff. exists (c, v). split; [reflexivity|].
  now apply list_elem_of_In.
Qed.

End Binding.

Section Writes.
Local Open Scope exec_scope.

Lemma bound_field k r v : bound (field k r) = Some v -> v = col k r.
Proof.
  destruct (field_col k r) as [-> | [_ ->]].
  - rewrite bound_js_of_sql. congruence.
  - discriminate.
Qed.

Lemma rows_of_insert t tb d fk :
  rows_of t (Database (<[t := tb]> (tables d)) fk) = t_rows tb.
Proof. unfold rows_of. simpl. now rewrite lookup_insert_eq. Qed.

Lemma rows_of_insert_ne t t' tb d fk :
  t <> t' -> rows_of t' (Database (<[t := tb]> (tables d)) fk) = rows_of t' d.
Proof. intros Hne. unfold rows_of. simpl. now rewrite lookup_insert_ne. Qed.

(** An UPDATE either fails and leaves the store as it was, or rewrites the
    rows with the given id in its table and nothing else. *)
Lemma update_cases t id asg d :
  update t id asg d = (None, d)
  \/ update t id asg d = (Some tt, d)
     /\ stored t id d = None
  \/ exists tb r,
       tables d !! t = Some tb
       /\ stored t id d = Some r
       /\ update t id asg d =
          (Some tt,
           Database (<[t := Table (t_cols tb) (t_fks tb)
                              (replace_row id (set_cols (written t d asg) r)
                                 (t_rows tb))
                              (t_seq tb)]> (tables d)) (foreign_keys d)).
Proof.
  unfold update, stored, first_where, rows_of, written, cols_of.
  destruct (tables d !! t) as [tb|] eqn:Ht; [|now left].
  destruct (known_cols (t_cols tb) asg); [|now left].
  destruct (find (has_id id) (t_rows tb)) as [r|] eqn:Hr.
  - match goal with |- context [if ?c then _ else _] => destruct c end.
    + right. right. exists tb, r. auto.
    + now left.
  - right. left. auto.
Qed.

Lemma find_replace_row id r' rs r :
  find (has_id id) rs = Some r ->
  has_id id r' = true ->
  find (has_id id) (replace_row id r' rs) = Some r'.
Proof.
  intros Hf Hid. induction rs as [|x rs IH]; simpl in *; [discriminate|].
  destruct (has_id id x) eqn:Hx; simpl.
  - now rewrite Hid.
  - rewrite Hx. now apply IH.
Qed.

Lemma find_some_true {A} (p : A -> bool) l x :
  find p l = Some x -> p x = true.
Proof. intros Hf. now apply find_some in Hf. Qed.

End Writes.

Section Logging.
Context `{E : Externals}.
Local Open Scope exec_scope.


Lemma col_new_row k id now cols asg :
  has_column k cols = true ->
  k <> "id" ->
  col k (new_row id now cols asg) =
  match assoc k asg with
  | Some v => v
  | None =>
      match find (fun c => String.eqb k (c_name c)) cols with
      | Some c => default_value now c
      | None => SNull
      end
  end.
Proof.
  intros Hk Hid. unfold new_row. simpl.
  rewrite (eqb_neq_false k "id") by exact Hid.
  unfold has_column in Hk.
  induction cols as [|c cols IH]; simpl in *; [discriminate|].
  destruct (String.eqb k (c_name c)) eqn:Hc; simpl.
  - apply String.eqb_eq in Hc. now subst k.
  - simpl in Hk. now apply IH.
Qed.

Lemma known_cols_cons cols k v asg :
  known_cols cols ((k, v) :: asg) = has_column k cols && known_cols cols asg.
Proof. reflexivity. Qed.

Lemma insert_cases now t asg d :
  insert now t asg d = (None, d)
  \/ exists tb,
       tables d !! t = Some tb
       /\ known_cols (t_cols tb) asg = true
       /\ insert now t asg d =
          (Some (next_id tb),
           Database (<[t := Table (t_cols tb) (t_fks tb)
                              (t_rows tb ++ [new_row (next_id tb) now (t_cols tb)
                                               (written t d asg)])
                              (next_id tb)]> (tables d)) (foreign_keys d)).
Proof.
  unfold insert, written, cols_of.
  destruct (tables d !! t) as [tb|] eqn:Ht; [|now left].
  destruct (known_cols (t_cols tb) asg) eqn:Hk; [|now left].
  match goal with |- context [if ?c then _ else _] => destruct c end.
  - right. exists tb. auto.
  - now left.
Qed.

(** [logActivity] never throws; it leaves every table but the journal as
    it was and appends at most one row to the journal. *)
Lemma logActivity_cases req uid action et eid details d :
  exists d',
    logActivity req uid action et eid details d = (Some tt, d')
    /\ foreign_keys d' = foreign_keys d
    /\ (forall t, t <> "activity_logs" -> tables d' !! t = tables d !! t)
    /\ (d' = d \/ exists r, journal d' = (journal d ++ [r])%list).
Proof.
  unfold logActivity, try_catch, bind.
  rewrite bind_params_run. simpl.
  destruct (bound uid) as [u|]; [|exists d; simpl; auto].
  destruct (bound et) as [e|] eqn:Het; [|exists d; simpl; auto].
  destruct (bound eid) as [i|]; [|exists d; simpl; auto].
  destruct (bound details) as [dt|]; [|exists d; simpl; auto].
  match goal with |- context [insert ?n ?t ?a d] =>
    destruct (insert_cases n t a d) as [Hi | (tb & Ht & Hk & Hi)]; rewrite Hi end.
  - exists d. simpl. auto.
  - eexists. split; [reflexivity|]. split; [reflexivity|]. split.
    + intros t Hne. simpl. now rewrite lookup_insert_ne.
    + right. eexists. unfold journal. rewrite rows_of_insert. simpl.
      now rewrite (rows_of_some _ _ _ Ht).
Qed.

End Logging.

Section Updates.
Local Open Scope exec_scope.

Lemma written_some t d tb asg :
  tables d !! t = Some tb -> written t d asg = coerce (t_cols tb) asg.
Proof. intros Ht. unfold written, cols_of. now rewrite Ht. Qed.

Lemma written_keys t d asg : map fst (written t d asg) = map fst asg.
Proof.
  unfold written, coerce. rewrite map_map. now apply map_ext.
Qed.

Lemma stored_after_update t id asg d r d' :
  stored t id d = Some r ->
  col "id" (set_cols (written t d asg) r) = col "id" r ->
  update t id asg d = (Some tt, d') ->
  stored t id d' = Some (set_cols (written t d asg) r)
  /\ foreign_keys d' = foreign_keys d
  /\ forall t', t' <> t -> tables d' !! t' = tables d !! t'.
Proof.
  intros Hr Hid Hu.
  destruct (update_cases t id asg d) as [Hn | [[_ Hn] | (tb & r0 & Ht & Hr0 & Hs)]].
  - congruence.
  - congruence.
  - rewrite Hs in Hu. injection Hu as <-.
    rewrite Hr in Hr0. injection Hr0 as <-.
    split; [|split; [reflexivity|]].
    + unfold stored, first_where. rewrite rows_of_insert. simpl.
      apply find_replace_row with (r := r).
      * unfold stored, first_where in Hr. now rewrite (rows_of_some _ _ _ Ht) in Hr.
      * unfold has_id, row_id. rewrite Hid.
        apply (find_some_true _ _ _ Hr).
    + intros t' Hne. simpl. now rewrite lookup_insert_ne.
Qed.

Lemma stored_other_tables t id d d' :
  tables d' !! t = tables d !! t -> stored t id d' = stored t id d.
Proof. intros Ht. unfold stored, first_where, rows_of. now rewrite Ht. Qed.

Lemma update_fails_clean t id asg d o d' :
  update t id asg d = (o, d') -> o = None -> d' = d.
Proof.
  intros Hu ->.
  destruct (update_cases t id asg d)
    as [Hn | [[Hn _] | (tb & r0 & _ & _ & Hn)]]; rewrite Hn in Hu;
    congruence.
Qed.

(** The tail shared by the PUT handlers: run the UPDATE, read the row
    back, journal, answer. *)
Lemma update_reselect_log t id asg d r req uid action et
    (details : row -> jsval) (answer : row -> response) :
  stored t id d = Some r ->
  col "id" (set_cols (written t d asg) r) = col "id" r ->
  t <> "activity_logs" ->
  let m :=
    (update t id asg ;;
     let* found := select_by_id t id in
     match found with
     | None => throw
     | Some x =>
         logActivity req uid action et (field "id" x) (details x) ;;
         ret (answer x)
     end) in
  m d = (None, d) /\ update t id asg d = (None, d)
  \/ exists d1 d',
       update t id asg d = (Some tt, d1)
       /\ logActivity req uid action et (field "id" (set_cols (written t d asg) r))
            (details (set_cols (written t d asg) r)) d1 = (Some tt, d')
       /\ m d = (Some (answer (set_cols (written t d asg) r)), d')
       /\ stored t id d' = Some (set_cols (written t d asg) r).
Proof.
  intros Hr Hid Ht m. remember (m d) as res eqn:Hres. subst m.
  unfold bind at 1 in Hres.
  destruct (update t id asg d) as [[[]|] d1] eqn:Hu.
  - destruct (stored_after_update _ _ _ _ _ _ Hr Hid Hu) as (Hs & Hfk & Hother).
    unfold bind at 1 in Hres. rewrite (select_by_id_found _ _ _ _ Hs) in Hres.
    unfold bind in Hres.
    destruct (logActivity_cases req uid action et (field "id" (set_cols (written t d asg) r))
                (details (set_cols (written t d asg) r)) d1) as (d2 & Hl & _ & Hsame & _).
    rewrite Hl in Hres. right. exists d1, d2.
    split; [reflexivity|]. split; [exact Hl|]. split; [exact Hres|].
    rewrite (stored_other_tables _ _ d1 d2); [exact Hs|].
    apply Hsame. exact Ht.
  - left. rewrite (update_fails_clean _ _ _ _ _ _ Hu eq_refl) in *.
    split; [exact Hres | reflexivity].
Qed.

(** The part of a PUT handler after the row was found: bind, UPDATE, read
    back, journal, answer. [g] adds the columns the statement sets itself. *)
Lemma put_tail t id r d req uid et ps
    (g : list (string * sqlval) -> list (string * sqlval))
    (details : row -> jsval) (answer : row -> response) :
  stored t id d = Some r ->
  t <> "activity_logs" ->
  (forall asg, map fst asg = map fst ps -> ~ In "id" (map fst (g asg))) ->
  let m :=
    (let* ps' := bind_params ps in
     update t id (g ps') ;;
     let* found := select_by_id t id in
     match found with
     | None => throw
     | Some x =>
         logActivity req uid "update" et (field "id" x) (details x) ;;
         ret (answer x)
     end) in
  m d = (None, d)
  /\ (bound_all ps = None
      \/ exists asg, bound_all ps = Some asg
                     /\ update t id (g asg) d = (None, d))
  \/ exists asg d1 d',
       bound_all ps = Some asg
       /\ update t id (g asg) d = (Some tt, d1)
       /\ logActivity req uid "update" et (field "id" (set_cols (written t d (g asg)) r))
            (details (set_cols (written t d (g asg)) r)) d1 = (Some tt, d')
       /\ m d = (Some (answer (set_cols (written t d (g asg)) r)), d')
       /\ stored t id d' = Some (set_cols (written t d (g asg)) r).
Proof.
  intros Hr Ht Hkeys m. remember (m d) as res eqn:Hres. subst m.
  unfold bind at 1 in Hres. rewrite bind_params_run in Hres.
  destruct (bound_all ps) as [asg|] eqn:Hb; [|left; split; [exact Hres | now left]].
  assert (Hid : col "id" (set_cols (written t d (g asg)) r) = col "id" r).
  { apply col_set_cols_other. rewrite written_keys.
    apply Hkeys. now apply bound_all_keys. }
  destruct (update_reselect_log t id (g asg) d r req uid "update" et
              details answer Hr Hid Ht)
    as [[Hn Hu] | (d1 & d2 & Hu & Hl & Hn & Hs)]; cbv zeta in Hn;
    rewrite Hn in Hres.
  - left. split; [exact Hres|]. right. exists asg. auto.
  - right. exists asg, d1, d2. repeat split; assumption.
Qed.

(** The outcomes of the slug test that precedes the UPDATE of a page or a
    post. *)
Lemma slug_check_cases t id (slug : jsval) (existing : row) d tb :
  tables d !! t = Some tb ->
  let changes := truthy slug && negb (strict_eq slug (field "slug" existing)) in
  let check :=
    (if changes then
       let* s := bind_param slug in
       select_one t (fun r => sql_eq (col "slug" r) (store TEXT s)
                               && negb (has_id id r))
     else ret None) in
  check d = (None, d) /\ changes = true /\ bound slug = None
  \/ check d = (Some None, d)
     /\ (changes = false
         \/ exists s, bound slug = Some s /\ slug_taken t id s d = false)
  \/ exists s other,
       changes = true
       /\ bound slug = Some s
       /\ slug_taken t id s d = true
       /\ check d = (Some (Some other), d).
Proof.
  intros Htb changes check. subst check.
  destruct changes; [|right; left; auto].
  unfold bind. rewrite bind_param_run.
  destruct (bound slug) as [s|] eqn:Hs; [|left; auto].
  rewrite (select_one_run _ _ _ _ Htb). unfold slug_taken.
  destruct (first_where t _ d) as [other|] eqn:Ho.
  - right. right. exists s, other. rewrite Ho. repeat split; reflexivity.
  - right. left. split; [reflexivity|]. right. exists s. rewrite Ho.
    split; reflexivity.
Qed.

Lemma testimonials_put_outcomes id user req d r :
  stored "testimonials" id d = Some r ->
  Testimonials.put_handler id user req d =
    (Some (fail 500 "Failed to update testimonial"), d)
  /\ update_failed "testimonials" id (Testimonials.put_params (body req) r)
       (fun asg => asg) d
  \/ exists asg d1 d',
       bound_all (Testimonials.put_params (body req) r) = Some asg
       /\ let r' := set_cols (written "testimonials" d asg) r in
          update "testimonials" id asg d = (Some tt, d1)
          /\ logActivity req (field "id" user) "update" (JStr "testimonial")
               (field "id" r')
               (JStr ("Updated testimonial from: "
                      ++ toString (field "client_name" r'))) d1
             = (Some tt, d')
          /\ Testimonials.put_handler id user req d =
             (Some (Response 200 (JObj (row_json r'))), d')
          /\ stored "testimonials" id d' = Some r'.
Proof.
  intros Hr.
  remember (Testimonials.put_handler id user req d) as res eqn:Hres.
  unfold Testimonials.put_handler, try_catch in Hres.
  unfold bind at 1 in Hres. rewrite (select_by_id_found _ _ _ _ Hr) in Hres.
  destruct (put_tail "testimonials" id r d req (field "id" user)
              (JStr "testimonial") (Testimonials.put_params (body req) r)
              (fun asg => asg)
              (fun x => JStr ("Updated testimonial from: "
                              ++ toString (field "client_name" x)))
              (fun x => Response 200 (JObj (row_json x))) Hr)
    as [[Hn Hwhy] | (asg & d1 & d2 & Hb & Hu & Hl & Hn & Hst)];
    [discriminate | | |].
  - intros asg Hk. rewrite Hk.
    cbv [Testimonials.put_params map fst In]. intuition discriminate.
  - cbv zeta beta in Hn. rewrite Hn in Hres. left. split; assumption.
  - cbv zeta beta in Hn. rewrite Hn in Hres. right.
    exists asg, d1, d2. repeat split; assumption.
Qed.

Lemma testimonials_put_cases id user req d r :
  stored "testimonials" id d = Some r ->
  Testimonials.put_handler id user req d =
    (Some (fail 500 "Failed to update testimonial"), d)
  \/ exists asg d',
       bound_all (Testimonials.put_params (body req) r) = Some asg
       /\ Testimonials.put_handler id user req d =
          (Some (Response 200
                   (JObj (row_json
                            (set_cols (written "testimonials" d asg) r)))), d')
       /\ stored "testimonials" id d'
          = Some (set_cols (written "testimonials" d asg) r).
Proof.
  intros Hr.
  destruct (testimonials_put_outcomes id user req d r Hr)
    as [[Hn _] | (asg & d1 & d' & Hb & _ & _ & Hn & Hs)].
  - now left.
  - right. exists asg, d'. auto.
Qed.

Lemma blog_put_outcomes id user req d r :
  stored "blog_posts" id d = Some r ->
  Blog.put_handler id user req d =
    (Some (fail 500 "Failed to update post"), d)
  /\ slug_update_failed "blog_posts" id (body req) r
       (Blog.put_params (body req) r) (now req) d
  \/ (exists s,
        slug_changes (body req) r = true
        /\ bound (prop "slug" (body req)) = Some s
        /\ slug_taken "blog_posts" id s d = true
        /\ Blog.put_handler id user req d =
           (Some (fail 400 "Slug already exists"), d))
  \/ exists asg d1 d',
       bound_all (Blog.put_params (body req) r) = Some asg
       /\ let asg' := (asg ++ [("updated_at", SText (now req))])%list in
          let r' := set_cols (written "blog_posts" d asg') r in
          (slug_changes (body req) r = false
           \/ exists s, bound (prop "slug" (body req)) = Some s
                        /\ slug_taken "blog_posts" id s d = false)
          /\ update "blog_posts" id asg' d = (Some tt, d1)
          /\ logActivity req (field "id" user) "update" (JStr "blog_post")
               (field "id" r')
               (JStr ("Updated post: " ++ toString (field "title" r'))) d1
             = (Some tt, d')
          /\ Blog.put_handler id user req d =
             (Some (Response 200 (JObj (row_json r'))), d')
          /\ stored "blog_posts" id d' = Some r'.
Proof.
  intros Hr.
  destruct (first_where_table _ _ _ _ Hr) as [tb Htb].
  remember (Blog.put_handler id user req d) as res eqn:Hres.
  unfold Blog.put_handler, try_catch in Hres.
  unfold bind at 1 in Hres. rewrite (select_by_id_found _ _ _ _ Hr) in Hres.
  unfold bind at 1 in Hres. unfold Blog.by_slug in Hres.
  destruct (slug_check_cases "blog_posts" id (prop "slug" (body req)) r d tb Htb)
    as [(Hc & Hchg & Hs) | [[Hc Hwhy] | (s & other & Hchg & Hs & Htaken & Hc)]];
    cbv zeta in Hc; rewrite Hc in Hres.
  - left. split; [exact Hres|]. left. split; assumption.
  - destruct (put_tail "blog_posts" id r d req (field "id" user)
                (JStr "blog_post") (Blog.put_params (body req) r)
                (fun ps => (ps ++ [("updated_at", SText (now req))])%list)
                (fun x => JStr ("Updated post: " ++ toString (field "title" x)))
                (fun x => Response 200 (JObj (row_json x))) Hr)
      as [[Hn Hfail] | (asg & d1 & d2 & Hb & Hu & Hl & Hn & Hst)];
      [discriminate | | |].
    + intros asg Hk. rewrite map_app, Hk.
      cbv [Blog.put_params map fst In app]. intuition discriminate.
    + cbv zeta beta in Hn. rewrite Hn in Hres. left.
      split; [exact Hres|]. right. exact Hfail.
    + cbv zeta beta in Hn. rewrite Hn in Hres. right. right.
      exists asg, d1, d2. repeat split; assumption.
  - right. left. exists s. repeat split; assumption.
Qed.

Lemma pages_put_outcomes id user req d r :
  stored "pages" id d = Some r ->
  Pages.put_handler id user req d =
    (Some (fail 500 "Failed to update page"), d)
  /\ slug_update_failed "pages" id (body req) r
       (Pages.put_params (body req) r) (now req) d
  \/ (exists s,
        slug_changes (body req) r = true
        /\ bound (prop "slug" (body req)) = Some s
        /\ slug_taken "pages" id s d = true
        /\ Pages.put_handler id user req d =
           (Some (fail 400 "Slug already exists"), d))
  \/ exists asg d1 d',
       bound_all (Pages.put_params (body req) r) = Some asg
       /\ let asg' := (asg ++ [("updated_at", SText (now req))])%list in
          let r' := set_cols (written "pages" d asg') r in
          (slug_changes (body req) r = false
           \/ exists s, bound (prop "slug" (body req)) = Some s
                        /\ slug_taken "pages" id s d = false)
          /\ update "pages" id asg' d = (Some tt, d1)
          /\ logActivity req (field "id" user) "update" (JStr "page")
               (field "id" r')
               (JStr ("Updated page: " ++ toString (field "title" r'))) d1
             = (Some tt, d')
          /\ Pages.put_handler id user req d =
             (Some (Response 200 (JObj (row_json r'))), d')
          /\ stored "pages" id d' = Some r'.
Proof.
  intros Hr.
  destruct (first_where_table _ _ _ _ Hr) as [tb Htb].
  remember (Pages.put_handler id user req d) as res eqn:Hres.
  unfold Pages.put_handler, try_catch in Hres.
  unfold bind at 1 in Hres. rewrite (select_by_id_found _ _ _ _ Hr) in Hres.
  unfold bind at 1 in Hres. unfold Pages.by_slug in Hres.
  destruct (slug_check_cases "pages" id (prop "slug" (body req)) r d tb Htb)
    as [(Hc & Hchg & Hs) | [[Hc Hwhy] | (s & other & Hchg & Hs & Htaken & Hc)]];
    cbv zeta in Hc; rewrite Hc in Hres.
  - left. split; [exact Hres|]. left. split; assumption.
  - destruct (put_tail "pages" id r d req (field "id" user) (JStr "page")
                (Pages.put_params (body req) r)
                (fun ps => (ps ++ [("updated_at", SText (now req))])%list)
                (fun x => JStr ("Updated page: " ++ toString (field "title" x)))
                (fun x => Response 200 (JObj (row_json x))) Hr)
      as [[Hn Hfail] | (asg & d1 & d2 & Hb & Hu & Hl & Hn & Hst)];
      [discriminate | | |].
    + intros asg Hk. rewrite map_app, Hk.
      cbv [Pages.put_params map fst In app]. intuition discriminate.
    + cbv zeta beta in Hn. rewrite Hn in Hres. left.
      split; [exact Hres|]. right. exact Hfail.
    + cbv zeta beta in Hn. rewrite Hn in Hres. right. right.
      exists asg, d1, d2. repeat split; assumption.
  - right. left. exists s. repeat split; assumption.
Qed.

Lemma blog_put_cases id user req d r :
  stored "blog_posts" id d = Some r ->
  Blog.put_handler id user req d =
    (Some (fail 500 "Failed to update post"), d)
  \/ (exists s,
        slug_changes (body req) r = true
        /\ bound (prop "slug" (body req)) = Some s
        /\ slug_taken "blog_posts" id s d = true
        /\ Blog.put_handler id user req d =
           (Some (fail 400 "Slug already exists"), d))
  \/ exists asg d',
       bound_all (Blog.put_params (body req) r) = Some asg
       /\ let r' := set_cols (written "blog_posts" d
                                 (asg ++ [("updated_at", SText (now req))])%list)
                      r in
          Blog.put_handler id user req d =
          (Some (Response 200 (JObj (row_json r'))), d')
          /\ stored "blog_posts" id d' = Some r'.
Proof.
  intros Hr.
  destruct (blog_put_outcomes id user req d r Hr)
    as [[Hn _] | [Hc | (asg & d1 & d' & Hb & _ & _ & _ & Hn & Hs)]].
  - now left.
  - right. now left.
  - right. right. exists asg, d'. auto.
Qed.

End Updates.

Section Frames.
Context `{E : Externals}.


Lemma has_col_set_col c k v r : has_col c (set_col k v r) = has_col c r.
Proof.
  induction r as [|[k' v'] r IH]; simpl; [reflexivity|].
  destruct (String.eqb k k'); simpl; [reflexivity | now rewrite IH].
Qed.

Lemma set_cols_app asg asg' r :
  set_cols (asg ++ asg') r = set_cols asg' (set_cols asg r).
Proof. unfold set_cols. apply fold_left_app. Qed.

Lemma has_col_set_cols c asg r : has_col c (set_cols asg r) = has_col c r.
Proof.
  revert r. induction asg as [|[k v] asg IH]; intros r; [reflexivity|].
  change (set_cols ((k, v) :: asg) r) with (set_cols asg (set_col k v r)).
  now rewrite IH, has_col_set_col.
Qed.

(** The value a column holds after [SET k1 = v1, ..]: the last assignment
    to it, if any. *)
Lemma col_set_cols c asg r :
  col c (set_cols asg r) =
  match assoc c (rev asg) with
  | Some v => if has_col c r then v else SNull
  | None => col c r
  end.
Proof.
  induction asg as [|[k v] asg IH] using rev_ind; [reflexivity|].
  rewrite set_cols_app, rev_app_distr. simpl.
  change (set_cols [(k, v)] (set_cols asg r))
    with (set_col k v (set_cols asg r)).
  destruct (String.eqb_spec c k) as [->|Hne].
  - now rewrite col_set_col_eq, has_col_set_cols.
  - rewrite col_set_col_ne by congruence. exact IH.
Qed.

Lemma prop_single k f (X : jsval) :
  prop k [(f, X)] = if String.eqb k f then X else JUndefined.
Proof. reflexivity. Qed.

(** Columns whose parameter is the stored value keep it. *)
Lemma frame_from_params ps asg r c :
  bound_all ps = Some asg ->
  (forall e, In (c, e) ps -> e = field c r) ->
  col c (set_cols asg r) = col c r.
Proof.
  intros Hb Hps. apply col_set_cols_keep.
  apply bound_all_inv in Hb.
  induction Hb as [|[k e] [k' v] ps asg [Hk Hv] _ IH]; constructor.
  - simpl in *. intros ->. subst k.
    rewrite (Hps e (or_introl eq_refl)) in Hv. now apply bound_field in Hv.
  - apply IH. intros e' Hin. apply Hps. now right.
Qed.

Lemma id_from_params ps asg r :
  bound_all ps = Some asg ->
  (forall k e, In (k, e) ps -> e = field k r) ->
  set_cols asg r = r.
Proof.
  intros Hb Hps. apply set_cols_id.
  apply bound_all_inv in Hb.
  induction Hb as [|[k e] [k' v] ps asg [Hk Hv] _ IH]; constructor.
  - simpl in *. subst k'.
    rewrite (Hps k e (or_introl eq_refl)) in Hv. now apply bound_field in Hv.
  - apply IH. intros k0 e' Hin. apply (Hps k0). now right.
Qed.

End Frames.

(** ** Two concrete runs *)

(** C1 at the failing input: the store holds the inactive album 2, the
    request carries a bearer header, and the album list returns the active
    album only; the trainer list of the same request returns the inactive
    trainer as well. *)
Theorem C1_album_list_ignores_caller :
  isAdmin (Demo.admin []) = true
  /\ option_map (col "is_active") (stored "gallery_albums" 2 Demo.store)
     = Some (SInt 0)
  /\ fst (Gallery.get_albums (Demo.admin []) Demo.store)
     = Some (Response 200
               (JArr [JObj [("id", JNum 1); ("name", JStr "Opening day");
                            ("description", JNull); ("cover_image", JNull);
                            ("is_active", JNum 1); ("sort_order", JNum 0);
                            ("created_at", JStr "2024-01-01 00:00:00");
                            ("image_count", JNum 2)]]))
  /\ Gallery.get_albums (Demo.admin []) Demo.store
     = Gallery.get_albums (Demo.anonymous []) Demo.store
  /\ option_map (fun r => match payload r with
                          | JArr xs => map (prop "is_active") (map
                              (fun x => match x with JObj o => o | _ => [] end) xs)
                          | _ => []
                          end)
       (fst (Trainers.get_all (Demo.admin []) Demo.store))
     = Some [JNum 1; JNum 0].
Proof. vm_compute. repeat split. Qed.

(** C6 at the failing input: an authenticated update of the caption of
    gallery image 1 succeeds and writes the caption, and the journal is as
    it was before; adding an image through the sibling route journals one
    row. *)
Theorem C6_image_update_not_journaled :
  option_map status
    (fst (Gallery.put_image (E := Demo.externals) 1
            (Demo.admin [("caption", JStr "Front desk")]) Demo.store))
  = Some 200
  /\ option_map (col "caption")
       (stored "gallery_images" 1
          (snd (Gallery.put_image (E := Demo.externals) 1
                  (Demo.admin [("caption", JStr "Front desk")]) Demo.store)))
     = Some (SText "Front desk")
  /\ journal (snd (Gallery.put_image (E := Demo.externals) 1
                     (Demo.admin [("caption", JStr "Front desk")]) Demo.store))
     = journal Demo.store
  /\ map (fun r => (col "action" r, col "entity_type" r))
       (journal (snd (Gallery.post_image (E := Demo.externals)
                        (Demo.admin [("file_path", JStr "/uploads/d.jpg")])
                        Demo.store)))
     = [(SText "create", SText "gallery_image")].
Proof. vm_compute. repeat split. Qed.

(** ** Integrity and slugs *)

Section Integrity.

Lemma table_ok_rows tb r :
  table_ok tb = true -> In r (t_rows tb) ->
  row_fits (t_cols tb) r = true /\ int_id r = true
  /\ notnull_ok (t_cols tb) r = true
  /\ conforms (t_cols tb) r = true.
Proof.
  unfold table_ok. rewrite !andb_true_iff. intros [[Hall _] _] Hin.
  rewrite forallb_forall in Hall. specialize (Hall r Hin).
  rewrite !andb_true_iff in Hall. tauto.
Qed.

Lemma sqlval_eqb_eq a b : sqlval_eqb a b = true -> a = b.
Proof.
  destruct a, b; simpl; try discriminate; intros Heq.
  - reflexivity.
  - apply Z.eqb_eq in Heq. now subst.
  - apply String.eqb_eq in Heq. now subst.
Qed.

Lemma column_type_some cols k a :
  column_type cols k = Some a ->
  exists c, In c cols /\ c_name c = k /\ c_type c = a.
Proof.
  unfold column_type. intros Hc.
  destruct (find (fun c => String.eqb k (c_name c)) cols) as [c|] eqn:Hf;
    [|discriminate].
  apply find_some in Hf. destruct Hf as [Hin Heq].
  apply String.eqb_eq in Heq. injection Hc as <-. exists c. auto.
Qed.

(** A value read from a conforming row is stored as it is. *)
Lemma store_conforming cols r k a :
  conforms cols r = true -> column_type cols k = Some a ->
  store a (col k r) = col k r.
Proof.
  intros Hc Ha. destruct (column_type_some _ _ _ Ha) as (c & Hin & <- & <-).
  unfold conforms in Hc. rewrite forallb_forall in Hc.
  now apply sqlval_eqb_eq, Hc.
Qed.

Lemma coerce_conforming cols asg r :
  conforms cols r = true ->
  Forall (fun kv => snd kv = col (fst kv) r) asg ->
  coerce cols asg = asg.
Proof.
  intros Hc Hall. unfold coerce.
  induction Hall as [|[k v] asg Hkv _ IH]; simpl; [reflexivity|].
  f_equal; [|exact IH]. simpl in Hkv. subst v.
  destruct (column_type cols k) as [a|] eqn:Ha; [|reflexivity].
  now rewrite (store_conforming _ _ _ _ Hc Ha).
Qed.

(** A text that does not read as a number is stored as it is. *)
Lemma store_text a s : classify s = NotNumber -> store a (SText s) = SText s.
Proof. intros Hs. destruct a; simpl; now rewrite ?Hs. Qed.

Lemma coerce_app cols asg asg' :
  coerce cols (asg ++ asg') = (coerce cols asg ++ coerce cols asg')%list.
Proof. unfold coerce. apply map_app. Qed.

Lemma notnull_ok_col cols r c :
  notnull_ok cols r = true -> In c cols -> c_notnull c = true ->
  col (c_name c) r <> SNull.
Proof.
  unfold notnull_ok. rewrite forallb_forall. intros Hall Hin Hnn Hnull.
  specialize (Hall c Hin). rewrite Hnn, Hnull in Hall. discriminate.
Qed.

Lemma unique_ok_col cols others r c x :
  unique_ok cols others r = true -> In c cols -> c_unique c = true ->
  In x others -> sql_eq (col (c_name c) x) (col (c_name c) r) = false.
Proof.
  unfold unique_ok. rewrite forallb_forall. intros Hall Hin Hu Hx.
  specialize (Hall c Hin). rewrite Hu in Hall. simpl in Hall.
  apply negb_true_iff in Hall.
  destruct (sql_eq (col (c_name c) x) (col (c_name c) r)) eqn:Heq; [|reflexivity].
  assert (Hex : existsb (fun r' => sql_eq (col (c_name c) r') (col (c_name c) r)) others = true).
  { apply existsb_exists. exists x. auto. }
  congruence.
Qed.

Lemma sql_eq_sym a b : sql_eq a b = sql_eq b a.
Proof.
  destruct a, b; simpl; try reflexivity.
  - apply Z.eqb_sym.
  - apply String.eqb_sym.
Qed.

(** In a table without repeated ids or UNIQUE values, a row with another
    id than the one found differs from it in every UNIQUE column. *)
Lemma distinct_rows_other cols rs id r x c :
  distinct_rows cols rs = true ->
  find (has_id id) rs = Some r ->
  In x rs -> has_id id x = false ->
  In c cols -> c_unique c = true ->
  sql_eq (col (c_name c) x) (col (c_name c) r) = false.
Proof.
  intros Hd Hf Hx Hid Hc Hu.
  induction rs as [|y rs IH]; simpl in *; [contradiction|].
  rewrite !andb_true_iff in Hd. destruct Hd as [[Hids Huniq] Hrest].
  destruct (has_id id y) eqn:Hy.
  - injection Hf as <-. destruct Hx as [-> | Hx]; [congruence|].
    eapply unique_ok_col; eauto.
  - destruct Hx as [-> | Hx].
    + rewrite sql_eq_sym. apply find_some in Hf. destruct Hf as [Hin _].
      eapply unique_ok_col; eauto.
    + now apply IH.
Qed.

Lemma row_fits_has_col cols r k :
  row_fits cols r = true -> In k ("id" :: map c_name cols) ->
  has_col k r = true.
Proof.
  unfold row_fits. intros Hfit Hk. apply bool_decide_eq_true in Hfit.
  rewrite <- Hfit in Hk. clear Hfit.
  induction r as [|[k' v] r IH]; simpl in *; [contradiction|].
  destruct Hk as [-> | Hk].
  - now rewrite String.eqb_refl.
  - rewrite (IH Hk). apply orb_true_r.
Qed.

Lemma field_present k r :
  has_col k r = true -> field k r = js_of_sql (col k r).
Proof.
  intros Hk. destruct (field_col k r) as [Hf | [Hno _]]; [exact Hf | congruence].
Qed.

(** An UPDATE of a found row goes through when the assigned columns of
    the new row meet their constraints. *)
Lemma update_ok t id asg d tb r :
  tables d !! t = Some tb ->
  known_cols (t_cols tb) asg = true ->
  stored t id d = Some r ->
  (forall c, In c (t_cols tb) -> assigned asg (c_name c) = true ->
             c_notnull c = true -> col (c_name c) (set_cols (written t d asg) r) <> SNull) ->
  (forall c x, In c (t_cols tb) -> assigned asg (c_name c) = true ->
               c_unique c = true -> In x (t_rows tb) -> has_id id x = false ->
               sql_eq (col (c_name c) x) (col (c_name c) (set_cols (written t d asg) r)) = false) ->
  (forall fk, In fk (t_fks tb) -> assigned asg (fk_col fk) = true ->
              foreign_keys d = true ->
              is_null (col (fk_col fk) (set_cols (written t d asg) r))
              || parent_exists d (fk_parent fk) (col (fk_col fk) (set_cols (written t d asg) r))
              = true) ->
  update t id asg d =
  (Some tt,
   Database (<[t := Table (t_cols tb) (t_fks tb)
                      (replace_row id (set_cols (written t d asg) r) (t_rows tb))
                      (t_seq tb)]> (tables d)) (foreign_keys d)).
Proof.
  intros Ht Hk Hr Hnn Hu Hfk.
  pose proof (written_some _ _ _ asg Ht) as Hw.
  unfold update. rewrite Ht, Hk, <- Hw.
  unfold stored, first_where in Hr. rewrite (rows_of_some _ _ _ Ht) in Hr.
  rewrite Hr.
  assert (H1 : notnull_ok (List.filter (fun c => assigned asg (c_name c)) (t_cols tb))
                 (set_cols (written t d asg) r) = true).
  { unfold notnull_ok. apply forallb_forall. intros c Hc.
    apply filter_In in Hc. destruct Hc as [Hin Has].
    destruct (c_notnull c) eqn:Hn; [|reflexivity]. simpl.
    specialize (Hnn c Hin Has Hn).
    now destruct (col (c_name c) (set_cols (written t d asg) r)). }
  assert (H2 : unique_ok (List.filter (fun c => assigned asg (c_name c)) (t_cols tb))
                 (List.filter (fun x => negb (has_id id x)) (t_rows tb))
                 (set_cols (written t d asg) r) = true).
  { unfold unique_ok. apply forallb_forall. intros c Hc.
    apply filter_In in Hc. destruct Hc as [Hin Has].
    destruct (c_unique c) eqn:Hq; [|reflexivity]. simpl.
    apply negb_true_iff. apply not_true_is_false. intros Hex.
    apply existsb_exists in Hex. destruct Hex as (x & Hx & Heq).
    apply filter_In in Hx. destruct Hx as [Hx Hid].
    apply negb_true_iff in Hid.
    rewrite (Hu c x Hin Has Hq Hx Hid) in Heq. discriminate. }
  assert (H3 : fk_ok d (List.filter (fun fk => assigned asg (fk_col fk)) (t_fks tb))
                 (set_cols (written t d asg) r) = true).
  { unfold fk_ok. destruct (foreign_keys d) eqn:Hon; [|reflexivity]. simpl.
    apply forallb_forall. intros fk Hin.
    apply filter_In in Hin. destruct Hin as [Hin Has]. now apply Hfk. }
  now rewrite H1, H2, H3.
Qed.

End Integrity.

Section Slugs.
Local Open Scope exec_scope.

Lemma truthy_str s : s <> "" -> truthy (JStr s) = true.
Proof.
  intros Hs. simpl. apply negb_true_iff. now apply String.eqb_neq.
Qed.

Lemma col_text_field k r s : col k r = SText s -> field k r = JStr s.
Proof.
  intros Hc. destruct (field_col k r) as [-> | [Hno _]].
  - now rewrite Hc.
  - rewrite (col_absent _ _ Hno) in Hc. discriminate.
Qed.

Lemma strict_eq_field_ne k r s :
  col k r <> SText s -> strict_eq (JStr s) (field k r) = false.
Proof.
  intros Hne. destruct (field_col k r) as [-> | [_ ->]]; [|reflexivity].
  destruct (col k r) as [| |s']; simpl; try reflexivity.
  apply String.eqb_neq. congruence.
Qed.

Lemma blog_post_conflict user req d s other :
  truthy (prop "title" (body req)) = true ->
  prop "slug" (body req) = JStr s -> s <> "" ->
  first_where "blog_posts" (Blog.by_slug (SText s)) d = Some other ->
  Blog.post_handler user req d = (Some (fail 400 "Slug already exists"), d).
Proof.
  intros Ht Hs Hne Ho. unfold Blog.post_handler, try_catch.
  rewrite Ht, Hs, (truthy_str _ Hne). simpl.
  unfold bind. rewrite bind_param_run. simpl.
  now rewrite (select_one_found _ _ _ _ Ho).
Qed.

Lemma pages_post_conflict user req d s other :
  truthy (prop "title" (body req)) = true ->
  prop "slug" (body req) = JStr s -> s <> "" ->
  first_where "pages" (Pages.by_slug (SText s)) d = Some other ->
  Pages.post_handler user req d = (Some (fail 400 "Slug already exists"), d).
Proof.
  intros Ht Hs Hne Ho. unfold Pages.post_handler, try_catch.
  rewrite Ht, Hs, (truthy_str _ Hne). simpl.
  unfold bind. rewrite bind_param_run. simpl.
  now rewrite (select_one_found _ _ _ _ Ho).
Qed.

Lemma slug_changes_to b r s :
  prop "slug" b = JStr s -> s <> "" -> col "slug" r <> SText s ->
  slug_changes b r = true.
Proof.
  intros Hs Hne Hcol. unfold slug_changes.
  now rewrite Hs, (truthy_str _ Hne), (strict_eq_field_ne _ _ _ Hcol).
Qed.

Lemma slug_keeps b r s :
  prop "slug" b = JStr s -> col "slug" r = SText s -> slug_changes b r = false.
Proof.
  intros Hs Hcol. unfold slug_changes.
  rewrite Hs, (col_text_field _ _ _ Hcol). simpl.
  rewrite String.eqb_refl. apply andb_false_r.
Qed.

Lemma slug_taken_found t id s d :
  slug_taken t id s d = true ->
  exists other,
    first_where t (fun r => sql_eq (col "slug" r) (store TEXT s)
                            && negb (has_id id r)) d
    = Some other.
Proof.
  unfold slug_taken. destruct (first_where t _ d) as [o|]; [eauto | discriminate].
Qed.

Lemma blog_put_conflict id user req d r s :
  stored "blog_posts" id d = Some r ->
  prop "slug" (body req) = JStr s -> s <> "" -> col "slug" r <> SText s ->
  slug_taken "blog_posts" id (SText s) d = true ->
  Blog.put_handler id user req d = (Some (fail 400 "Slug already exists"), d).
Proof.
  intros Hr Hs Hne Hcol Htaken.
  pose proof (slug_changes_to _ _ _ Hs Hne Hcol) as Hchg.
  destruct (slug_taken_found _ _ _ _ Htaken) as [other Ho].
  unfold Blog.put_handler, try_catch.
  unfold bind at 1. rewrite (select_by_id_found _ _ _ _ Hr).
  unfold bind at 1.
  change (truthy (prop "slug" (body req))
          && negb (strict_eq (prop "slug" (body req)) (field "slug" r)))
    with (slug_changes (body req) r).
  rewrite Hchg. unfold bind at 1. rewrite bind_param_run, Hs. simpl bound.
  unfold Blog.by_slug. now rewrite (select_one_found _ _ _ _ Ho).
Qed.

Lemma pages_put_conflict id user req d r s :
  stored "pages" id d = Some r ->
  prop "slug" (body req) = JStr s -> s <> "" -> col "slug" r <> SText s ->
  slug_taken "pages" id (SText s) d = true ->
  Pages.put_handler id user req d = (Some (fail 400 "Slug already exists"), d).
Proof.
  intros Hr Hs Hne Hcol Htaken.
  pose proof (slug_changes_to _ _ _ Hs Hne Hcol) as Hchg.
  destruct (slug_taken_found _ _ _ _ Htaken) as [other Ho].
  unfold Pages.put_handler, try_catch.
  unfold bind at 1. rewrite (select_by_id_found _ _ _ _ Hr).
  unfold bind at 1.
  change (truthy (prop "slug" (body req))
          && negb (strict_eq (prop "slug" (body req)) (field "slug" r)))
    with (slug_changes (body req) r).
  rewrite Hchg. unfold bind at 1. rewrite bind_param_run, Hs. simpl bound.
  unfold Pages.by_slug. now rewrite (select_one_found _ _ _ _ Ho).
Qed.

(** Passing the stored slug never answers Conflict. *)
Lemma blog_put_own_slug id user req d r s :
  stored "blog_posts" id d = Some r ->
  prop "slug" (body req) = JStr s -> col "slug" r = SText s ->
  fst (Blog.put_handler id user req d)
  <> Some (fail 400 "Slug already exists").
Proof.
  intros Hr Hs Hcol. pose proof (slug_keeps _ _ _ Hs Hcol) as Hkeep.
  destruct (blog_put_outcomes id user req d r Hr)
    as [[-> _] | [(s' & Hchg & _) | (asg & d1 & d' & _ & _ & _ & _ & -> & _)]];
    unfold fail; simpl; congruence.
Qed.

Lemma pages_put_own_slug id user req d r s :
  stored "pages" id d = Some r ->
  prop "slug" (body req) = JStr s -> col "slug" r = SText s ->
  fst (Pages.put_handler id user req d)
  <> Some (fail 400 "Slug already exists").
Proof.
  intros Hr Hs Hcol. pose proof (slug_keeps _ _ _ Hs Hcol) as Hkeep.
  destruct (pages_put_outcomes id user req d r Hr)
    as [[-> _] | [(s' & Hchg & _) | (asg & d1 & d' & _ & _ & _ & _ & -> & _)]];
    unfold fail; simpl; congruence.
Qed.

End Slugs.

Section Restamp.
Local Open Scope exec_scope.

Lemma bound_all_fields ps r :
  (forall k e, In (k, e) ps -> e = field k r /\ has_col k r = true) ->
  exists asg, bound_all ps = Some asg.
Proof.
  induction ps as [|[k e] ps IH]; intros Hps; simpl; [eauto|].
  destruct (Hps k e (or_introl eq_refl)) as [-> Hk].
  rewrite (field_present _ _ Hk), bound_js_of_sql.
  destruct IH as [asg ->]; [|eauto].
  intros k' e' Hin. apply Hps. now right.
Qed.

Lemma known_cols_keys cols asg :
  known_cols cols asg = forallb (fun k => has_column k cols) (map fst asg).
Proof.
  unfold known_cols, has_column. induction asg as [|[k v] asg IH]; simpl;
    [reflexivity | now rewrite IH].
Qed.

Lemma assigned_keys asg k :
  assigned asg k = true <-> In k (map fst asg).
Proof.
  unfold assigned. rewrite existsb_exists. split.
  - intros ([k' v] & Hin & Heq). simpl in Heq. apply String.eqb_eq in Heq.
    subst k'. apply in_map_iff. exists (k, v). auto.
  - intros Hin. apply in_map_iff in Hin. destruct Hin as ([k' v] & <- & Hin).
    exists (k', v). split; [exact Hin | apply String.eqb_refl].
Qed.

Lemma find_in {A} (p : A -> bool) l x : find p l = Some x -> In x l.
Proof. intros Hf. now apply find_some in Hf. Qed.

Lemma bound_fields_values ps asg r :
  bound_all ps = Some asg ->
  (forall k e, In (k, e) ps -> e = field k r) ->
  Forall (fun kv => snd kv = col (fst kv) r) asg.
Proof.
  intros Hb Hps. apply bound_all_inv in Hb.
  induction Hb as [|[k e] [k' v] ps' asg' [Hk Hv] _ IH]; constructor.
  - simpl in *. subst k'.
    rewrite (Hps k e (or_introl eq_refl)) in Hv. now apply bound_field in Hv.
  - apply IH. intros k0 e' Hin. apply (Hps k0). now right.
Qed.

(** Writing a row's own values back and stamping [updated_at] goes
    through on a table that meets its declaration. *)
Lemma restamp_ok t id d tb r ps stamp :
  tables d !! t = Some tb ->
  table_ok tb = true ->
  stored t id d = Some r ->
  (forall k e, In (k, e) ps -> e = field k r) ->
  forallb (fun k => has_column k (t_cols tb)) (map fst ps ++ ["updated_at"]) = true ->
  (forall fk, In fk (t_fks tb) ->
              ~ In (fk_col fk) (map fst ps ++ ["updated_at"])) ->
  (forall c, In c (t_cols tb) -> c_name c = "updated_at" -> c_unique c = false) ->
  classify stamp = NotNumber ->
  exists asg,
    bound_all ps = Some asg
    /\ set_cols (written t d (asg ++ [("updated_at", SText stamp)])) r
       = set_col "updated_at" (SText stamp) r
    /\ update t id (asg ++ [("updated_at", SText stamp)]) d =
       (Some tt,
        Database (<[t := Table (t_cols tb) (t_fks tb)
                           (replace_row id (set_col "updated_at" (SText stamp) r)
                              (t_rows tb))
                           (t_seq tb)]> (tables d)) (foreign_keys d)).
Proof.
  intros Ht Hok Hr Hps Hknown Hfks Hstamp Htext.
  assert (Hin : In r (t_rows tb)).
  { unfold stored, first_where in Hr. rewrite (rows_of_some _ _ _ Ht) in Hr.
    now apply find_in in Hr. }
  destruct (table_ok_rows _ _ Hok Hin) as (Hfit & _ & Hnn & Hconf).
  rewrite forallb_app in Hknown. apply andb_true_iff in Hknown.
  destruct Hknown as [Hkps Hkst].
  destruct (bound_all_fields ps r) as [asg Hb].
  { intros k e Hke. split; [now apply Hps|].
    apply (row_fits_has_col _ _ _ Hfit). right.
    rewrite forallb_forall in Hkps.
    assert (Hk : has_column k (t_cols tb) = true).
    { apply Hkps. apply in_map_iff. exists (k, e). auto. }
    unfold has_column in Hk. apply existsb_exists in Hk.
    destruct Hk as (c & Hc & Heq). apply String.eqb_eq in Heq. subst k.
    now apply in_map. }
  assert (Hsame : set_cols asg r = r).
  { apply (id_from_params _ _ _ Hb). exact Hps. }
  assert (Hw : written t d (asg ++ [("updated_at", SText stamp)])
               = (asg ++ [("updated_at", SText stamp)])%list).
  { rewrite (written_some _ _ _ _ Ht), coerce_app. f_equal.
    - apply (coerce_conforming _ _ r Hconf).
      now apply (bound_fields_values ps).
    - unfold coerce. simpl.
      destruct (column_type (t_cols tb) "updated_at"); [|reflexivity].
      now rewrite store_text. }
  assert (Hr' : set_cols (written t d (asg ++ [("updated_at", SText stamp)])) r
                = set_col "updated_at" (SText stamp) r).
  { rewrite Hw, set_cols_app, Hsame. reflexivity. }
  exists asg. split; [exact Hb|]. split; [exact Hr'|].
  rewrite <- Hr'.
  assert (Hkeys : map fst (asg ++ [("updated_at", SText stamp)])
                  = (map fst ps ++ ["updated_at"])%list).
  { rewrite map_app, (bound_all_keys _ _ Hb). reflexivity. }
  assert (Hcol : forall c, c <> "updated_at" ->
                           col c (set_cols (written t d
                                    (asg ++ [("updated_at", SText stamp)])) r)
                           = col c r).
  { intros c Hc. rewrite Hr'. apply col_set_col_ne. congruence. }
  apply update_ok; try assumption.
  - rewrite known_cols_keys, Hkeys, forallb_app. now rewrite Hkps, Hkst.
  - intros c Hc _ Hn. destruct (String.eqb_spec (c_name c) "updated_at") as [Heq|Hne].
    + rewrite Heq, Hr', col_set_col_eq.
      rewrite (row_fits_has_col _ _ _ Hfit); [discriminate|].
      right. rewrite <- Heq. now apply in_map.
    + rewrite (Hcol _ Hne). now apply (notnull_ok_col _ _ _ Hnn).
  - intros c x Hc _ Hu Hx Hid.
    destruct (String.eqb_spec (c_name c) "updated_at") as [Heq|Hne].
    + rewrite (Hstamp c Hc Heq) in Hu. discriminate.
    + rewrite (Hcol _ Hne).
      unfold table_ok in Hok. rewrite !andb_true_iff in Hok.
      destruct Hok as [[_ Hdist] _].
      unfold stored, first_where in Hr. rewrite (rows_of_some _ _ _ Ht) in Hr.
      eapply distinct_rows_other; eauto.
  - intros fk Hfk Has _. exfalso. apply (Hfks fk Hfk).
    rewrite <- Hkeys. now apply assigned_keys.
Qed.

End Restamp.

Section OwnSlug.
Local Open Scope exec_scope.

Lemma or_same (a : jsval) : or a a = a.
Proof. unfold or. now destruct (truthy a). Qed.

Lemma blog_put_own_slug_succeeds id user req d tb r s :
  tables d !! "blog_posts" = Some tb ->
  declared tb = declared Schema.blog_posts ->
  table_ok tb = true ->
  stored "blog_posts" id d = Some r ->
  col "slug" r = SText s ->
  body req = [("slug", JStr s)] ->
  exists d',
    Blog.put_handler id user req d =
    (Some (Response 200
             (JObj (row_json (set_col "updated_at" (SText (now req)) r)))), d')
    /\ stored "blog_posts" id d'
       = Some (set_col "updated_at" (SText (now req)) r).
Proof.
  intros Ht Hdecl Hok Hr Hslug Hbody.
  unfold declared in Hdecl. apply pair_eq_inv in Hdecl.
  destruct Hdecl as [Hcols Hfks].
  destruct (restamp_ok "blog_posts" id d tb r (Blog.put_params (body req) r)
              (now req) Ht Hok Hr) as (asg & Hb & Hr' & Hu).
  { intros k e Hin. rewrite Hbody in Hin. cbv [Blog.put_params] in Hin.
    in_cases Hin; rewrite prop_single; cbn [String.eqb Ascii.eqb Bool.eqb];
      try reflexivity.
    rewrite (col_text_field _ _ _ Hslug). apply or_same. }
  { rewrite Hcols. vm_compute. reflexivity. }
  { rewrite Hfks. intros fk [<- | []]. vm_compute. intuition discriminate. }
  { rewrite Hcols. intros c Hc Hname. cbv [Schema.blog_posts Schema.empty_table t_cols In] in Hc.
    repeat (destruct Hc as [<- | Hc]; [try reflexivity; discriminate Hname|]).
    destruct Hc. }
  { apply now_is_text. }
  pose proof (slug_keeps (body req) r s) as Hkeep.
  rewrite Hbody in Hkeep at 1. specialize (Hkeep eq_refl Hslug).
  destruct (blog_put_outcomes id user req d r Hr)
    as [[_ Hwhy] | [(s' & Hchg & _)
                   | (asg' & d1 & d' & Hb' & _ & _ & _ & Hrun & Hst)]].
  - exfalso. unfold slug_update_failed, update_failed in Hwhy.
    destruct Hwhy as [[Hchg _] | [Hnone | (asg' & Hb' & Hfail)]];
      congruence.
  - congruence.
  - rewrite Hb in Hb'. injection Hb' as <-. cbv zeta in Hrun, Hst.
    rewrite Hr' in Hrun, Hst. exists d'. split; assumption.
Qed.

Lemma pages_put_own_slug_succeeds id user req d tb r s :
  tables d !! "pages" = Some tb ->
  declared tb = declared Schema.pages ->
  table_ok tb = true ->
  stored "pages" id d = Some r ->
  col "slug" r = SText s ->
  body req = [("slug", JStr s)] ->
  exists d',
    Pages.put_handler id user req d =
    (Some (Response 200
             (JObj (row_json (set_col "updated_at" (SText (now req)) r)))), d')
    /\ stored "pages" id d'
       = Some (set_col "updated_at" (SText (now req)) r).
Proof.
  intros Ht Hdecl Hok Hr Hslug Hbody.
  unfold declared in Hdecl. apply pair_eq_inv in Hdecl.
  destruct Hdecl as [Hcols Hfks].
  destruct (restamp_ok "pages" id d tb r (Pages.put_params (body req) r)
              (now req) Ht Hok Hr) as (asg & Hb & Hr' & Hu).
  { intros k e Hin. rewrite Hbody in Hin. cbv [Pages.put_params] in Hin.
    in_cases Hin; rewrite ?prop_single; cbn [String.eqb Ascii.eqb Bool.eqb];
      try reflexivity.
    rewrite (col_text_field _ _ _ Hslug). apply or_same. }
  { rewrite Hcols. vm_compute. reflexivity. }
  { rewrite Hfks. intros fk []. }
  { rewrite Hcols. intros c Hc Hname. cbv [Schema.pages Schema.empty_table t_cols In] in Hc.
    repeat (destruct Hc as [<- | Hc]; [try reflexivity; discriminate Hname|]).
    destruct Hc. }
  { apply now_is_text. }
  pose proof (slug_keeps (body req) r s) as Hkeep.
  rewrite Hbody in Hkeep at 1. specialize (Hkeep eq_refl Hslug).
  destruct (pages_put_outcomes id user req d r Hr)
    as [[_ Hwhy] | [(s' & Hchg & _)
                   | (asg' & d1 & d' & Hb' & _ & _ & _ & Hrun & Hst)]].
  - exfalso. unfold slug_update_failed, update_failed in Hwhy.
    destruct Hwhy as [[Hchg _] | [Hnone | (asg' & Hb' & Hfail)]];
      congruence.
  - congruence.
  - rewrite Hb in Hb'. injection Hb' as <-. cbv zeta in Hrun, Hst.
    rewrite Hr' in Hrun, Hst. exists d'. split; assumption.
Qed.

End OwnSlug.

(** ** Slug uniqueness *)

(** C4. For pages and blog posts, with [s] the slug the request passes: a
    create (with a title and a non-empty slug) whose slug is held by a
    stored record answers Conflict, 400 'Slug already exists', and leaves
    the store as it was; an update to a slug held by another record answers
    Conflict and leaves the store as it was; an update that passes the
    record's own slug is never answered with Conflict, and on a table that
    meets its declaration the update of the slug alone succeeds and changes
    [updated_at] only. *)
Theorem C4_slug_uniqueness (d : database) (user : row) (req : request)
    (s : string) :
  prop "slug" (body req) = JStr s ->
  (s <> "" ->
   truthy (prop "title" (body req)) = true ->
   (forall other,
       first_where "pages" (Pages.by_slug (SText s)) d = Some other ->
       Pages.post_handler user req d
       = (Some (fail 400 "Slug already exists"), d))
   /\ (forall other,
          first_where "blog_posts" (Blog.by_slug (SText s)) d = Some other ->
          Blog.post_handler user req d
          = (Some (fail 400 "Slug already exists"), d)))
  /\ (forall id r,
         s <> "" ->
         col "slug" r <> SText s ->
         (stored "pages" id d = Some r ->
          slug_taken "pages" id (SText s) d = true ->
          Pages.put_handler id user req d
          = (Some (fail 400 "Slug already exists"), d))
         /\ (stored "blog_posts" id d = Some r ->
             slug_taken "blog_posts" id (SText s) d = true ->
             Blog.put_handler id user req d
             = (Some (fail 400 "Slug already exists"), d)))
  /\ (forall id r,
         col "slug" r = SText s ->
         (stored "pages" id d = Some r ->
          fst (Pages.put_handler id user req d)
          <> Some (fail 400 "Slug already exists")
          /\ forall tb,
              tables d !! "pages" = Some tb ->
              declared tb = declared Schema.pages ->
              table_ok tb = true ->
              body req = [("slug", JStr s)] ->
              exists d',
                Pages.put_handler id user req d =
                (Some (Response 200
                         (JObj (row_json
                                  (set_col "updated_at" (SText (now req)) r)))),
                 d')
                /\ stored "pages" id d'
                   = Some (set_col "updated_at" (SText (now req)) r))
         /\ (stored "blog_posts" id d = Some r ->
             fst (Blog.put_handler id user req d)
             <> Some (fail 400 "Slug already exists")
             /\ forall tb,
                 tables d !! "blog_posts" = Some tb ->
                 declared tb = declared Schema.blog_posts ->
                 table_ok tb = true ->
                 body req = [("slug", JStr s)] ->
                 exists d',
                   Blog.put_handler id user req d =
                   (Some (Response 200
                            (JObj (row_json
                                     (set_col "updated_at" (SText (now req)) r)))),
                    d')
                   /\ stored "blog_posts" id d'
                      = Some (set_col "updated_at" (SText (now req)) r))).
Proof.
  intros Hs. split; [|split].
  - intros Hne Htitle. split; intros other Ho.
    + eapply pages_post_conflict; eauto.
    + eapply blog_post_conflict; eauto.
  - intros id r Hne Hcol. split; intros Hr Htaken.
    + eapply pages_put_conflict; eauto.
    + eapply blog_put_conflict; eauto.
  - intros id r Hcol. split; intros Hr; split.
    + eapply pages_put_own_slug; eauto.
    + intros tb Ht Hdecl Hok Hbody.
      eapply pages_put_own_slug_succeeds; eauto.
    + eapply blog_put_own_slug; eauto.
    + intros tb Ht Hdecl Hok Hbody.
      eapply blog_put_own_slug_succeeds; eauto.
Qed.

Lemma C4_slug_uniqueness_witness :
  Pages.post_handler Demo.admin_user
    (Demo.admin [("title", JStr "About us"); ("slug", JStr "about")]) Demo.store
  = (Some (fail 400 "Slug already exists"), Demo.store)
  /\ Blog.put_handler 2 Demo.admin_user (Demo.admin [("slug", JStr "hello")])
       Demo.store
     = (Some (fail 400 "Slug already exists"), Demo.store)
  /\ exists d',
      fst (Pages.put_handler 1 Demo.admin_user
             (Demo.admin [("slug", JStr "about")]) Demo.store)
      = Some (Response 200
                (JObj [("id", JNum 1); ("title", JStr "About");
                       ("slug", JStr "about"); ("content", JNull);
                       ("meta_title", JNull); ("meta_description", JNull);
                       ("meta_keywords", JNull); ("is_published", JNum 1);
                       ("created_at", JStr "2024-01-01 00:00:00");
                       ("updated_at", JStr "2024-06-01 12:00:00")]))
      /\ snd (Pages.put_handler 1 Demo.admin_user
                (Demo.admin [("slug", JStr "about")]) Demo.store) = d'.
Proof.
  split; [|split].
  - destruct (C4_slug_uniqueness Demo.store Demo.admin_user
                (Demo.admin [("title", JStr "About us"); ("slug", JStr "about")])
                "about" eq_refl) as [Hcreate _].
    destruct Hcreate as [Hpages _]; [discriminate | reflexivity |].
    eapply Hpages. vm_compute. reflexivity.
  - destruct (C4_slug_uniqueness Demo.store Demo.admin_user
                (Demo.admin [("slug", JStr "hello")]) "hello" eq_refl)
      as (_ & Hupdate & _).
    destruct (Hupdate 2 [("id", SInt 2); ("title", SText "Draft");
                         ("slug", SText "draft"); ("excerpt", SNull);
                         ("content", SNull); ("featured_image", SNull);
                         ("category", SNull); ("tags", SNull);
                         ("status", SText "draft");
                         ("publish_date", SText "2024-01-01T00:00:00.000Z");
                         ("author_id", SInt 1);
                         ("created_at", SText "2024-01-01 00:00:00");
                         ("updated_at", SText "2024-01-01 00:00:00")])
      as [_ Hblog]; [discriminate | discriminate |].
    apply Hblog; vm_compute; reflexivity.
  - destruct (C4_slug_uniqueness Demo.store Demo.admin_user
                (Demo.admin [("slug", JStr "about")]) "about" eq_refl)
      as (_ & _ & Hown).
    destruct (Hown 1 [("id", SInt 1); ("title", SText "About");
                      ("slug", SText "about"); ("content", SNull);
                      ("meta_title", SNull); ("meta_description", SNull);
                      ("meta_keywords", SNull); ("is_published", SInt 1);
                      ("created_at", SText "2024-01-01 00:00:00");
                      ("updated_at", SText "2024-01-01 00:00:00")] eq_refl)
      as [Hpages _].
    destruct Hpages as [_ Hok]; [vm_compute; reflexivity|].
    destruct (Hok (match tables Demo.store !! "pages" with
                   | Some tb => tb
                   | None => Schema.pages
                   end)) as (d' & Hrun & _);
      [vm_compute; reflexivity | vm_compute; reflexivity
      | vm_compute; reflexivity | reflexivity |].
    exists d'. rewrite Hrun. split; reflexivity.
Defined.

(** ** Partial updates *)

Section PutOutcomes.
Local Open Scope exec_scope.




Ltac failed_500 Hm Hres :=
  left; cbv zeta in Hm; rewrite Hm in Hres; rewrite Hres;
  split; [reflexivity | simpl; discriminate].



Ltac found_row Hr Hres :=
  match type of Hres with
  | _ = ?h ?d =>
      unfold h, try_catch in Hres; unfold bind at 1 in Hres;
      rewrite (select_by_id_found _ _ _ _ Hr) in Hres
  end.









End PutOutcomes.

Section PartialFrame.









End PartialFrame.




(** ** Deleting *)

Section Deleting.
Local Open Scope exec_scope.

Lemma server_store_declared d n tb :
  server_store d -> tables d !! n = Some tb ->
  In (n, declared tb)
    (map (fun nt => (fst nt, declared (snd nt))) Schema.server_tables).
Proof.
  intros [_ Hdecl] Ht.
  assert (Hl : (declared <$> tables d) !! n = Some (declared tb))
    by (now rewrite lookup_fmap, Ht).
  rewrite Hdecl, lookup_fmap in Hl.
  destruct (list_to_map Schema.server_tables !! n) as [tb0|] eqn:H0;
    [|discriminate].
  assert (Hd : declared tb0 = declared tb) by (simpl in Hl; congruence).
  apply elem_of_list_to_map_2 in H0. apply list_elem_of_In in H0.
  apply in_map_iff. exists (n, tb0). simpl. split; [now rewrite Hd | exact H0].
Qed.

Lemma server_store_fks d n tb :
  server_store d -> tables d !! n = Some tb -> In (n, t_fks tb) server_fks.
Proof.
  intros Hs Ht. pose proof (server_store_declared d n tb Hs Ht) as Hin.
  apply in_map_iff in Hin. destruct Hin as ([n0 tb0] & Heq & Hin).
  simpl in Heq. apply pair_eq_inv in Heq. destruct Heq as [-> Hd].
  unfold declared in Hd. apply pair_eq_inv in Hd. destruct Hd as [_ <-].
  unfold server_fks. apply in_map_iff. exists (n, tb0). auto.
Qed.

Lemma filter_all {A} (p : A -> bool) l :
  (forall x, In x l -> p x = true) -> List.filter p l = l.
Proof.
  induction l as [|x l IH]; intros Hp; simpl; [reflexivity|].
  rewrite (Hp x (or_introl eq_refl)), IH; [reflexivity|].
  intros y Hy. apply Hp. now right.
Qed.

Lemma cascade_same parent id tb :
  (forall r, references Cascade parent id (t_fks tb) r = false) ->
  cascade parent id tb = tb.
Proof.
  intros Hno. destruct tb as [cols fks rows seq]. unfold cascade. simpl in *.
  rewrite filter_all; [reflexivity|]. intros r _. now rewrite Hno.
Qed.

(** The only rows that go with a deleted row are the images of a deleted
    album. *)
Lemma server_cascade d parent id n tb :
  server_store d -> tables d !! n = Some tb ->
  (parent, n) <> ("gallery_albums", "gallery_images") ->
  cascade parent id tb = tb.
Proof.
  intros Hs Ht Hne. apply cascade_same. intros r.
  pose proof (server_store_fks d n tb Hs Ht) as Hin.
  cbv [server_fks Schema.server_tables map fst snd] in Hin.
  repeat (destruct Hin as [Hin | Hin];
          [apply pair_eq_inv in Hin; destruct Hin as [<- <-] |]);
    try (destruct Hin); cbn [references existsb t_fks Schema.users
      Schema.pages Schema.blog_posts Schema.trainers Schema.classes
      Schema.membership_plans Schema.testimonials Schema.gallery_albums
      Schema.gallery_images Schema.media Schema.bulletins
      Schema.contact_submissions Schema.membership_inquiries Schema.settings
      Schema.activity_logs Schema.empty_table fk_parent fk_on_delete fk_col];
    rewrite ?andb_false_r; try reflexivity.
  destruct (String.eqb_spec "gallery_albums" parent) as [<-|Hp];
    [congruence | reflexivity].
Qed.

Lemma delete_outcomes t id d :
  delete t id d = (None, d)
  \/ delete t id d = (Some tt, d) /\ stored t id d = None
  \/ exists tb,
       tables d !! t = Some tb
       /\ (foreign_keys d = true -> blocked d t id = false)
       /\ delete t id d =
          (Some tt,
           Database
             (<[t := Table (t_cols tb) (t_fks tb)
                       (List.filter (fun r => negb (has_id id r)) (t_rows tb))
                       (t_seq tb)]>
                (if foreign_keys d then cascade t id <$> tables d
                 else tables d))
             (foreign_keys d)).
Proof.
  unfold delete, stored, first_where, rows_of.
  destruct (tables d !! t) as [tb|] eqn:Ht; [|now left].
  destruct (existsb (has_id id) (t_rows tb)) eqn:Hex.
  - destruct (foreign_keys d) eqn:Hfk.
    + destruct (blocked d t id) eqn:Hb; [now left|].
      right. right. exists tb. auto.
    + right. right. exists tb. split; [reflexivity|]. split; [discriminate|].
      reflexivity.
  - right. left. split; [reflexivity|].
    destruct (find (has_id id) (t_rows tb)) as [r|] eqn:Hf; [|reflexivity].
    apply find_some in Hf. destruct Hf as [Hin Hid].
    assert (existsb (has_id id) (t_rows tb) = true)
      by (apply existsb_exists; eauto).
    congruence.
Qed.

Lemma delete_fails_clean t id d o d' :
  delete t id d = (o, d') -> o = None -> d' = d.
Proof.
  intros Hd ->.
  destruct (delete_outcomes t id d)
    as [Hn | [[Hn _] | (tb & _ & _ & Hn)]]; rewrite Hn in Hd; congruence.
Qed.

(** On a store of the server a DELETE touches its own table, and the
    images of a deleted album. *)
Lemma delete_frame t id d o d' n :
  server_store d ->
  delete t id d = (o, d') ->
  n <> t ->
  (t, n) <> ("gallery_albums", "gallery_images") ->
  tables d' !! n = tables d !! n.
Proof.
  intros Hs Hd Hn Hne.
  destruct (delete_outcomes t id d)
    as [Hr | [[Hr _] | (tb & Ht & _ & Hr)]]; rewrite Hr in Hd;
    injection Hd as <- <-; try reflexivity.
  simpl. rewrite lookup_insert_ne by congruence.
  destruct Hs as [Hfk Hdecl]. rewrite Hfk, lookup_fmap.
  destruct (tables d !! n) as [tb'|] eqn:Hn'; [|reflexivity].
  simpl. f_equal. eapply server_cascade; eauto. split; assumption.
Qed.

Lemma find_filter_none {A} (p : A -> bool) l :
  find p (List.filter (fun x => negb (p x)) l) = None.
Proof.
  induction l as [|x l IH]; simpl; [reflexivity|].
  destruct (p x) eqn:Hp; simpl; [exact IH | now rewrite Hp].
Qed.

(** After a DELETE that went through, no row of the table has the id. *)
Lemma delete_gone t id d d' :
  delete t id d = (Some tt, d') -> stored t id d' = None.
Proof.
  intros Hd.
  destruct (delete_outcomes t id d)
    as [Hr | [[Hr Hnone] | (tb & Ht & _ & Hr)]]; rewrite Hr in Hd;
    try discriminate.
  - now injection Hd as <-.
  - injection Hd as <-. unfold stored, first_where, rows_of. simpl.
    rewrite lookup_insert_eq. simpl. apply find_filter_none.
Qed.

Lemma server_not_blocked d parent id :
  server_store d ->
  ~ In parent ["users"; "trainers"; "membership_plans"] ->
  blocked d parent id = false.
Proof.
  intros Hs Hp. unfold blocked. apply not_true_is_false. intros Hex.
  apply existsb_exists in Hex. destruct Hex as ([n tb] & Hin & Hrow).
  apply list_elem_of_In, elem_of_map_to_list in Hin. simpl in Hrow.
  apply existsb_exists in Hrow. destruct Hrow as (r & _ & Href).
  pose proof (server_store_fks d n tb Hs Hin) as Hfks.
  cbv [server_fks Schema.server_tables map fst snd] in Hfks.
  repeat (destruct Hfks as [Hfks | Hfks];
          [apply pair_eq_inv in Hfks; destruct Hfks as [<- Hf];
           rewrite <- Hf in Href |]);
    try (destruct Hfks);
    cbn [references existsb t_fks Schema.users
      Schema.pages Schema.blog_posts Schema.trainers Schema.classes
      Schema.membership_plans Schema.testimonials Schema.gallery_albums
      Schema.gallery_images Schema.media Schema.bulletins
      Schema.contact_submissions Schema.membership_inquiries Schema.settings
      Schema.activity_logs Schema.empty_table fk_parent fk_on_delete fk_col]
      in Href;
    rewrite ?andb_false_r in Href; try discriminate;
    rewrite orb_false_r, andb_true_r in Href;
    apply andb_true_iff in Href; destruct Href as [Heq _];
    apply String.eqb_eq in Heq; subst parent; apply Hp; simpl; tauto.
Qed.

(** Deleting an album of the server's store: the album goes, its images
    go, and nothing else does. *)
Lemma delete_album_run id d :
  server_store d ->
  is_Some (stored "gallery_albums" id d) ->
  exists d',
    delete "gallery_albums" id d = (Some tt, d')
    /\ foreign_keys d' = foreign_keys d
    /\ rows_of "gallery_albums" d'
       = List.filter (fun r => negb (has_id id r)) (rows_of "gallery_albums" d)
    /\ rows_of "gallery_images" d'
       = List.filter (fun r => negb (sql_eq (col "album_id" r) (SInt id)))
           (rows_of "gallery_images" d)
    /\ forall n, n <> "gallery_albums" -> n <> "gallery_images" ->
                 tables d' !! n = tables d !! n.
Proof.
  intros Hs [a Ha].
  assert (Hnb : blocked d "gallery_albums" id = false).
  { apply server_not_blocked; [exact Hs|]. simpl. intuition discriminate. }
  destruct (delete_outcomes "gallery_albums" id d)
    as [Hr | [[_ Hnone] | (tb & Ht & _ & Hr)]].
  - exfalso. revert Hr. unfold delete.
    destruct (first_where_table _ _ _ _ Ha) as [tb Ht]. rewrite Ht.
    destruct (existsb (has_id id) (t_rows tb)); [|discriminate].
    destruct Hs as [-> _]. rewrite Hnb. discriminate.
  - congruence.
  - eexists. split; [exact Hr|]. split; [reflexivity|].
    destruct Hs as [Hfk Hdecl]. split; [|split].
    + unfold rows_of at 1. simpl. rewrite lookup_insert_eq. simpl.
      now rewrite (rows_of_some _ _ _ Ht).
    + unfold rows_of. simpl. rewrite lookup_insert_ne by discriminate.
      rewrite Hfk, lookup_fmap.
      destruct (tables d !! "gallery_images") as [ti|] eqn:Hi; [|reflexivity].
      simpl.
      pose proof (server_store_fks d _ ti (conj Hfk Hdecl) Hi) as Hfks.
      assert (Hf : t_fks ti = [ForeignKey "album_id" "gallery_albums" Cascade]).
      { cbv [server_fks Schema.server_tables map fst snd] in Hfks.
        repeat (destruct Hfks as [Hfks | Hfks];
                [apply pair_eq_inv in Hfks; destruct Hfks as [Hn Hf];
                 try discriminate Hn |]);
          [symmetry; exact Hf | destruct Hfks]. }
      rewrite Hf. apply filter_ext. intros r. simpl.
      now rewrite orb_false_r.
    + intros n Hn1 Hn2.
      eapply delete_frame; [split; eassumption | exact Hr | exact Hn1 |].
      congruence.
Qed.

End Deleting.

Section DeleteHandlers.
Local Open Scope exec_scope.

Lemma delete_route_outcomes t id req uid et eid details missing done failed d :
  (delete_route t id req uid et eid details missing done failed d
   = (Some failed, d)
   \/ delete_route t id req uid et eid details missing done failed d
      = (Some missing, d) /\ stored t id d = None)
  \/ exists x d1 d',
       stored t id d = Some x
       /\ delete t id d = (Some tt, d1)
       /\ logActivity req uid "delete" et (eid x) (details x) d1 = (Some tt, d')
       /\ delete_route t id req uid et eid details missing done failed d
          = (Some done, d').
Proof.
  remember (delete_route t id req uid et eid details missing done failed d)
    as res eqn:Hres.
  unfold delete_route, try_catch in Hres. unfold bind at 1 in Hres.
  unfold select_by_id, select_one, select_where, bind, get_table, ret in Hres.
  fold (@ret response) in Hres.
  destruct (tables d !! t) as [tb|] eqn:Ht.
  - rewrite head_filter in Hres.
    assert (Hst : stored t id d = find (has_id id) (t_rows tb)).
    { unfold stored, first_where. now rewrite (rows_of_some _ _ _ Ht). }
    destruct (find (has_id id) (t_rows tb)) as [x|] eqn:Hx.
    + destruct (delete t id d) as [[[]|] d1] eqn:Hd.
      * destruct (logActivity_cases req uid "delete" et (eid x) (details x) d1)
          as (d2 & Hl & _).
        rewrite Hl in Hres. right. exists x, d1, d2. auto.
      * left. left. rewrite (delete_fails_clean _ _ _ _ _ Hd eq_refl) in Hres.
        exact Hres.
    + left. right. auto.
  - left. left. exact Hres.
Qed.

(** A DELETE route of the server leaves every table but its own and the
    journal as it was; only the images of a deleted album go with it. *)
Lemma delete_route_frame t id req uid et eid details missing done failed d n :
  server_store d ->
  n <> t -> n <> "activity_logs" ->
  (t, n) <> ("gallery_albums", "gallery_images") ->
  tables (snd (delete_route t id req uid et eid details missing done failed d))
    !! n = tables d !! n.
Proof.
  intros Hs Hn Hj Hne.
  destruct (delete_route_outcomes t id req uid et eid details missing done
              failed d)
    as [[-> | [-> _]] | (x & d1 & d' & _ & Hd & Hl & ->)]; try reflexivity.
  simpl.
  destruct (logActivity_cases req uid "delete" et (eid x) (details x) d1)
    as (d2 & Hl2 & _ & Hsame & _).
  rewrite Hl in Hl2. injection Hl2 as <-.
  rewrite (Hsame n Hj). eapply delete_frame; eauto.
Qed.

(** The journal only grows under a DELETE route. *)
Lemma delete_route_journal t id req uid et eid details missing done failed d :
  server_store d -> t <> "activity_logs" ->
  exists l,
    journal (snd (delete_route t id req uid et eid details missing done
                    failed d)) = (journal d ++ l)%list.
Proof.
  intros Hs Ht.
  destruct (delete_route_outcomes t id req uid et eid details missing done
              failed d)
    as [[-> | [-> _]] | (x & d1 & d' & _ & Hd & Hl & ->)];
    try (exists []; simpl; now rewrite app_nil_r).
  simpl.
  assert (Hj1 : journal d1 = journal d).
  { unfold journal, rows_of.
    rewrite (delete_frame _ _ _ _ _ "activity_logs" Hs Hd); [reflexivity| |];
      congruence. }
  destruct (logActivity_cases req uid "delete" et (eid x) (details x) d1)
    as (d2 & Hl2 & _ & _ & [-> | (r & Hr)]);
    rewrite Hl in Hl2; injection Hl2 as <-.
  - exists []. now rewrite app_nil_r.
  - exists [r]. now rewrite Hr, Hj1.
Qed.

(** The media route removes the physical files before it deletes the
    row: when that throws the answer is the 500 and the store is as it
    was, otherwise the route goes on as the other DELETE routes do. *)
Lemma media_delete_cases `{E : Externals} id user req d :
  Media.delete_handler id user req d
  = (Some (fail 500 "Failed to delete media"), d)
  \/ Media.delete_handler id user req d
     = delete_route "media" id req (field "id" user) (JStr "media")
         (fun x => field "id" x)
         (fun x => JStr ("Deleted media: "
                         ++ toString (field "original_name" x)))
         (fail 404 "Media not found")
         (Response 200 (message_json "Media deleted successfully"))
         (fail 500 "Failed to delete media") d.
Proof.
  remember (delete_route _ _ _ _ _ _ _ _ _ _ d) as rhs eqn:Hrhs.
  remember (Media.delete_handler id user req d) as lhs eqn:Hlhs.
  unfold delete_route, try_catch in Hrhs. unfold bind at 1 in Hrhs.
  unfold Media.delete_handler, try_catch in Hlhs. unfold bind at 1 in Hlhs.
  destruct (select_by_id "media" id d) as [[[x|]|] d1] eqn:Hsel;
    try (right; congruence).
  assert (d1 = d) as ->.
  { pose proof (select_one_pure "media" (has_id id) d) as Hp.
    unfold select_by_id in Hsel. now rewrite Hsel in Hp. }
  unfold bind at 1 in Hlhs. unfold Media.remove_files in Hlhs.
  destruct (field "filename" x) as [| | | |f| |];
    try (left; subst lhs; reflexivity).
  destruct (files_removed f);
    [right; subst lhs rhs; reflexivity | left; subst lhs; reflexivity].
Qed.

End DeleteHandlers.

(** C5. On a store of the server, deleting an existing album answers 200,
    removes the album row and exactly the image rows whose [album_id] is
    the album's id (the cascade of the storage layer: the handler issues the
    one DELETE on the album), keeps the rows of the journal and leaves every
    other table as it was; deleting a testimonial, page, blog post, trainer,
    class, membership plan, gallery image, media file or contact submission
    leaves every table but its own and the journal as it was. These are
    the DELETE routes of the server. *)
Theorem C5_delete_cascade `{E : Externals} (d : database) (id : Z)
    (user : row) (req : request) :
  server_store d ->
  (forall album,
      stored "gallery_albums" id d = Some album ->
      fst (Gallery.delete_album_handler id user req d)
      = Some (Response 200 (message_json "Album deleted successfully"))
      /\ stored "gallery_albums" id
           (snd (Gallery.delete_album_handler id user req d)) = None
      /\ rows_of "gallery_albums"
           (snd (Gallery.delete_album_handler id user req d))
         = List.filter (fun r => negb (has_id id r)) (rows_of "gallery_albums" d)
      /\ rows_of "gallery_images"
           (snd (Gallery.delete_album_handler id user req d))
         = List.filter (fun r => negb (sql_eq (col "album_id" r) (SInt id)))
             (rows_of "gallery_images" d)
      /\ (exists l,
             journal (snd (Gallery.delete_album_handler id user req d))
             = (journal d ++ l)%list)
      /\ forall n,
          ~ In n ["gallery_albums"; "gallery_images"; "activity_logs"] ->
          tables (snd (Gallery.delete_album_handler id user req d)) !! n
          = tables d !! n)
  /\ forall n,
      n <> "activity_logs" ->
      (n <> "testimonials" ->
       tables (snd (Testimonials.delete_handler id user req d)) !! n
       = tables d !! n)
      /\ (n <> "pages" ->
          tables (snd (Pages.delete_handler id user req d)) !! n
          = tables d !! n)
      /\ (n <> "blog_posts" ->
          tables (snd (Blog.delete_handler id user req d)) !! n
          = tables d !! n)
      /\ (n <> "trainers" ->
          tables (snd (Trainers.delete_handler id user req d)) !! n
          = tables d !! n)
      /\ (n <> "classes" ->
          tables (snd (Classes.delete_handler id user req d)) !! n
          = tables d !! n)
      /\ (n <> "membership_plans" ->
          tables (snd (Membership.delete_handler id user req d)) !! n
          = tables d !! n)
      /\ (n <> "gallery_images" ->
          tables (snd (Gallery.delete_image_handler id user req d)) !! n
          = tables d !! n)
      /\ (n <> "media" ->
          tables (snd (Media.delete_handler id user req d)) !! n
          = tables d !! n)
      /\ (n <> "contact_submissions" ->
          tables (snd (Contact.delete_handler id user req d)) !! n
          = tables d !! n).
Proof.
  intros Hs. split.
  - intros album Ha.
    change (Gallery.delete_album_handler id user req)
      with (delete_route "gallery_albums" id req (field "id" user)
              (JStr "gallery_album") (fun x => field "id" x)
              (fun x => JStr ("Deleted album: " ++ toString (field "name" x)))
              (fail 404 "Album not found")
              (Response 200 (message_json "Album deleted successfully"))
              (fail 500 "Failed to delete album")).
    match goal with |- context [snd (?h d)] => set (route := h) end.
    destruct (delete_album_run id d Hs (ex_intro _ album Ha))
      as (d1 & Hd & Hfk & Halbums & Himages & Hrest).
    destruct (delete_route_journal "gallery_albums" id req (field "id" user)
                (JStr "gallery_album") (fun x => field "id" x)
                (fun x => JStr ("Deleted album: " ++ toString (field "name" x)))
                (fail 404 "Album not found")
                (Response 200 (message_json "Album deleted successfully"))
                (fail 500 "Failed to delete album") d Hs) as [l Hl];
      [discriminate|]. fold route in Hl.
    destruct (delete_route_outcomes "gallery_albums" id req (field "id" user)
                (JStr "gallery_album") (fun x => field "id" x)
                (fun x => JStr ("Deleted album: " ++ toString (field "name" x)))
                (fail 404 "Album not found")
                (Response 200 (message_json "Album deleted successfully"))
                (fail 500 "Failed to delete album") d)
      as [[Hrun | [_ Hnone]] | (x & d1' & d' & _ & Hd' & Hlog & Hrun)];
      fold route in Hrun || idtac.
    + exfalso. unfold route, delete_route, try_catch in Hrun.
      unfold bind at 1 in Hrun.
      rewrite (select_by_id_found _ _ _ _ Ha) in Hrun.
      unfold bind at 1 in Hrun. rewrite Hd in Hrun.
      unfold bind in Hrun.
      destruct (logActivity_cases req (field "id" user) "delete"
                  (JStr "gallery_album") (field "id" album)
                  (JStr ("Deleted album: " ++ toString (field "name" album)))
                  d1) as (d2 & Hl2 & _).
      rewrite Hl2 in Hrun. discriminate.
    + congruence.
    + rewrite Hd in Hd'. injection Hd' as <-.
      destruct (logActivity_cases req (field "id" user) "delete"
                  (JStr "gallery_album") (field "id" x)
                  (JStr ("Deleted album: " ++ toString (field "name" x)))
                  d1) as (d2 & Hl2 & _ & Hsame & _).
      rewrite Hlog in Hl2. injection Hl2 as <-.
      assert (Hrows : forall n, n <> "activity_logs" ->
                                rows_of n d' = rows_of n d1).
      { intros n Hn. unfold rows_of. now rewrite (Hsame n Hn). }
      rewrite Hrun. simpl. split; [reflexivity|].
      split.
      { unfold stored, first_where. rewrite Hrows by discriminate.
        apply (delete_gone _ _ _ _ Hd). }
      split; [rewrite Hrows by discriminate; exact Halbums|].
      split; [rewrite Hrows by discriminate; exact Himages|].
      split; [exists l; rewrite Hrun in Hl; exact Hl|].
      intros n Hn. rewrite Hsame by (intros ->; apply Hn; simpl; tauto).
      apply Hrest; intros ->; apply Hn; simpl; tauto.
  - intros n Hj. repeat split; intros Hn.
    + apply (delete_route_frame "testimonials" id req (field "id" user)
               (JStr "testimonial") (fun x => field "id" x)
               (fun x => JStr ("Deleted testimonial from: "
                               ++ toString (field "client_name" x)))
               (fail 404 "Testimonial not found")
               (Response 200 (message_json "Testimonial deleted successfully"))
               (fail 500 "Failed to delete testimonial") d n Hs);
        congruence.
    + apply (delete_route_frame "pages" id req (field "id" user)
               (JStr "page") (fun x => field "id" x)
               (fun x => JStr ("Deleted page: " ++ toString (field "title" x)))
               (fail 404 "Page not found")
               (Response 200 (message_json "Page deleted successfully"))
               (fail 500 "Failed to delete page") d n Hs);
        congruence.
    + apply (delete_route_frame "blog_posts" id req (field "id" user)
               (JStr "blog_post") (fun x => field "id" x)
               (fun x => JStr ("Deleted post: " ++ toString (field "title" x)))
               (fail 404 "Post not found")
               (Response 200 (message_json "Post deleted successfully"))
               (fail 500 "Failed to delete post") d n Hs);
        congruence.
    + apply (delete_route_frame "trainers" id req (field "id" user)
               (JStr "trainer") (fun x => field "id" x)
               (fun x => JStr ("Deleted trainer: " ++ toString (field "name" x)))
               (fail 404 "Trainer not found")
               (Response 200 (message_json "Trainer deleted successfully"))
               (fail 500 "Failed to delete trainer") d n Hs);
        congruence.
    + apply (delete_route_frame "classes" id req (field "id" user)
               (JStr "class") (fun x => field "id" x)
               (fun x => JStr ("Deleted class: " ++ toString (field "name" x)))
               (fail 404 "Class not found")
               (Response 200 (message_json "Class deleted successfully"))
               (fail 500 "Failed to delete class") d n Hs);
        congruence.
    + apply (delete_route_frame "membership_plans" id req (field "id" user)
               (JStr "membership_plan") (fun x => field "id" x)
               (fun x => JStr ("Deleted plan: " ++ toString (field "name" x)))
               (fail 404 "Plan not found")
               (Response 200 (message_json "Plan deleted successfully"))
               (fail 500 "Failed to delete plan") d n Hs);
        congruence.
    + apply (delete_route_frame "gallery_images" id req (field "id" user)
               (JStr "gallery_image") (fun x => field "id" x)
               (fun _ => JStr "Deleted gallery image")
               (fail 404 "Image not found")
               (Response 200 (message_json "Image deleted successfully"))
               (fail 500 "Failed to delete image") d n Hs);
        congruence.
    + destruct (media_delete_cases id user req d) as [-> | ->];
        [reflexivity|].
      apply (delete_route_frame "media" id req (field "id" user)
               (JStr "media") (fun x => field "id" x)
               (fun x => JStr ("Deleted media: "
                               ++ toString (field "original_name" x)))
               (fail 404 "Media not found")
               (Response 200 (message_json "Media deleted successfully"))
               (fail 500 "Failed to delete media") d n Hs);
        congruence.
    + apply (delete_route_frame "contact_submissions" id req (field "id" user)
               (JStr "contact_submission") (fun x => field "id" x)
               (fun x => JStr ("Deleted contact from: "
                               ++ toString (field "name" x)))
               (fail 404 "Submission not found")
               (Response 200 (message_json "Submission deleted successfully"))
               (fail 500 "Failed to delete submission") d n Hs);
        congruence.
Qed.

Lemma demo_server_store : server_store Demo.store.
Proof. split; [reflexivity | vm_compute; reflexivity]. Qed.

Lemma C5_delete_cascade_witness :
  map (col "album_id")
    (rows_of "gallery_images"
       (snd (Gallery.delete_album_handler 1 Demo.admin_user (Demo.admin [])
               Demo.store)))
  = map (col "album_id")
      (List.filter (fun r => negb (sql_eq (col "album_id" r) (SInt 1)))
         (rows_of "gallery_images" Demo.store))
  /\ tables (snd (Gallery.delete_album_handler 1 Demo.admin_user
                    (Demo.admin []) Demo.store)) !! "trainers"
     = tables Demo.store !! "trainers".
Proof.
  destruct (C5_delete_cascade (E := Demo.externals) Demo.store 1
              Demo.admin_user (Demo.admin [])
              demo_server_store) as [Halbum _].
  destruct (Halbum [("id", SInt 1); ("name", SText "Opening day");
                    ("description", SNull); ("cover_image", SNull);
                    ("is_active", SInt 1); ("sort_order", SInt 0);
                    ("created_at", SText "2024-01-01 00:00:00")])
    as (_ & _ & _ & Himages & _ & Hrest); [vm_compute; reflexivity|].
  split.
  - now rewrite Himages.
  - apply Hrest. simpl. intuition discriminate.
Defined.

(** ** Login *)

Section Login.
Context `{E : Externals}.
Local Open Scope exec_scope.













End Login.








(** ** Settings *)

Section BulkUpdate.
Local Open Scope exec_scope.

Lemma insert_keeps now t asg d o d' n :
  insert now t asg d = (o, d') ->
  is_Some (tables d !! n) -> is_Some (tables d' !! n).
Proof.
  intros Hi Hn.
  destruct (insert_cases now t asg d) as [H | (tb & _ & _ & H)];
    rewrite H in Hi; apply pair_eq_inv in Hi as [_ <-]; [exact Hn|].
  simpl. destruct (decide (t = n)) as [->|Hne].
  - rewrite lookup_insert_eq. eauto.
  - now rewrite lookup_insert_ne.
Qed.

Lemma update_keeps t id asg d o d' n :
  update t id asg d = (o, d') ->
  is_Some (tables d !! n) -> is_Some (tables d' !! n).
Proof.
  intros Hu Hn.
  destruct (update_cases t id asg d) as [H | [[H _] | (tb & r & _ & _ & H)]];
    rewrite H in Hu; apply pair_eq_inv in Hu as [_ <-]; try exact Hn.
  simpl. destruct (decide (t = n)) as [->|Hne].
  - rewrite lookup_insert_eq. eauto.
  - now rewrite lookup_insert_ne.
Qed.

Lemma upsert_keeps req k v d o d' n :
  Settings.upsert req k v d = (o, d') ->
  is_Some (tables d !! n) -> is_Some (tables d' !! n).
Proof.
  unfold Settings.upsert. unfold bind at 1.
  destruct (select_one_cases "settings" (Settings.by_key k) d)
    as [[-> _] | [-> _]]; [intros H; now apply pair_eq_inv in H as [_ <-]|].
  destruct (first_where "settings" (Settings.by_key k) d) as [r|].
  - destruct (row_id r); try (intros H; now apply pair_eq_inv in H as [_ <-]).
    apply update_keeps.
  - unfold bind.
    destruct (insert (now req) "settings" _ d) as [[i|] d1] eqn:Hi;
      intros H; apply pair_eq_inv in H as [_ <-];
      now apply (insert_keeps _ _ _ _ _ _ _ Hi).
Qed.

Lemma for_each_keeps {A} (f : A -> M unit) l n :
  (forall x d o d', f x d = (o, d') ->
                    is_Some (tables d !! n) -> is_Some (tables d' !! n)) ->
  forall d o d', for_each f l d = (o, d') ->
                 is_Some (tables d !! n) -> is_Some (tables d' !! n).
Proof.
  intros Hf. induction l as [|x l IH]; intros d o d' Hrun Hn; simpl in Hrun.
  - unfold ret in Hrun. now apply pair_eq_inv in Hrun as [_ <-].
  - unfold bind in Hrun. destruct (f x d) as [[[]|] d1] eqn:Hx.
    + eapply IH; [exact Hrun|]. eapply Hf; eauto.
    + apply pair_eq_inv in Hrun as [_ <-]. eapply Hf; eauto.
Qed.

(** The bulk update always answers, and an answer other than the 200 comes
    with the store as it was: a throw inside the transaction undoes the
    upserts that ran before it. *)
Lemma put_all_outcomes user req d :
  exists resp d',
    Settings.put_all_handler user req d = (Some resp, d')
    /\ (status resp <> 200 -> d' = d)
    /\ (status resp = 200 ->
        exists d1,
          for_each (fun kv => Settings.upsert req (fst kv) (toString (snd kv)))
            (body req) d = (Some tt, d1)
          /\ logActivity req (field "id" user) "update" (JStr "settings") JNull
               (JStr ("Updated " ++ pretty (Z.of_nat (length (body req)))
                      ++ " settings")) d1 = (Some tt, d')
          /\ resp = Response 200
                      (JObj (Settings.settings_object (rows_of "settings" d')))).
Proof.
  remember (Settings.put_all_handler user req d) as res eqn:Hres.
  unfold Settings.put_all_handler, try_catch in Hres.
  unfold bind at 1 in Hres. unfold get_table at 1 in Hres.
  destruct (tables d !! "settings") as [tb|] eqn:Ht;
    [| subst res; eexists _, _; split; [reflexivity|];
       split; [reflexivity | simpl; discriminate] ].
  unfold bind at 1 in Hres. unfold transaction in Hres.
  destruct (for_each _ (body req) d) as [[[]|] d1] eqn:Hf;
    [| subst res; eexists _, _; split; [reflexivity|];
       split; [reflexivity | simpl; discriminate] ].
  unfold bind at 1 in Hres.
  destruct (logActivity_cases req (field "id" user) "update" (JStr "settings")
              JNull
              (JStr ("Updated " ++ pretty (Z.of_nat (length (body req)))
                     ++ " settings")) d1) as (d2 & Hl & _ & Hsame & _).
  rewrite Hl in Hres.
  assert (Hs : is_Some (tables d2 !! "settings")).
  { rewrite Hsame by discriminate.
    eapply (for_each_keeps _ _ "settings"); [|exact Hf|rewrite Ht; eauto].
    intros x d0 o d0'. apply upsert_keeps. }
  destruct Hs as [tb2 Ht2].
  unfold bind in Hres. rewrite (select_where_run _ _ _ tb2 Ht2) in Hres.
  subst res. eexists _, _. split; [reflexivity|]. split.
  - simpl. congruence.
  - intros _. exists d1. repeat split; try assumption.
    unfold ret. simpl. unfold rows_of. rewrite Ht2.
    do 3 f_equal. clear. induction (t_rows tb2); simpl; congruence.
Qed.

End BulkUpdate.

(** C7 at the failing input: the serverless function is sent
    [{site_title: 'New title', tagline: ['x']}] with the administrator's
    token. The first statement replaces the value of [site_title], the
    second throws on its array argument, the answer is the 500, and the new
    value of [site_title] stays in the store. *)
Theorem C7_serverless_bulk_update_partial :
  option_map (col "value")
    (first_where "settings" (Settings.by_key "site_title") Demo.store)
  = Some (SText "PowerHouse")
  /\ fst (Api.settings (E := Demo.externals) "PUT"
            (Demo.admin [("site_title", JStr "New title");
                         ("tagline", JArr [JStr "x"])]) Demo.store)
     = Some (fail 500 "Failed to update settings")
  /\ option_map (col "value")
       (first_where "settings" (Settings.by_key "site_title")
          (snd (Api.settings (E := Demo.externals) "PUT"
                  (Demo.admin [("site_title", JStr "New title");
                               ("tagline", JArr [JStr "x"])]) Demo.store)))
     = Some (SText "New title")
  /\ fst (Api.settings (E := Demo.externals) "GET" (Demo.anonymous [])
            (snd (Api.settings (E := Demo.externals) "PUT"
                    (Demo.admin [("site_title", JStr "New title");
                                 ("tagline", JArr [JStr "x"])]) Demo.store)))
     = Some (Response 200 (JObj [("site_title", JStr "New title")])).
Proof. vm_compute. repeat split. Qed.
